(** * Vocalls development workspace: load order, compliance scanner, simulator

    A shallow embedding of the core of the workspace:
    - [core/src/utils/sorting.js]    (module [Sorting]),
    - [core/src/utils/validation.js] (module [Validation]),
    - [core/src/simulator/engine.js] (module [Engine]),
    - [core/src/utils/workspace.js]  (module [Workspace]),
    - [core/src/commands/simulate.js] (module [Simulate]),
    followed by the properties of the specification that concern them and by
    further properties of the code.

    JavaScript strings are modelled as [string] (sequences of 8-bit code
    units, which covers the ASCII file names and sources used throughout);
    arrays as [list]; arrays whose identity matters as cells of a store;
    object literals used as records as Rocq records, or as finite maps from
    field names where the set of fields is itself the subject; the clock of
    the host as a number of milliseconds. *)

From Stdlib Require Import ZArith Ascii String List Permutation Sorted Lia Bool.
From stdpp Require Import gmap strings list pretty.

Import ListNotations.
Local Open Scope string_scope.
Local Open Scope list_scope.

(** ** Host values *)

(** The JavaScript values that cross the interfaces modelled here. Numbers
    are integers: those the code produces (counters, line numbers) and
    integer contents a fragment hands to the host functions. *)
Inductive jsval : Type :=
| JUndefined
| JNull
| JBool (b : bool)
| JNum (n : Z)
| JStr (s : string).

(** ToBoolean. *)
Definition truthy (v : jsval) : bool :=
  match v with
  | JUndefined | JNull => false
  | JBool b => b
  | JNum n => negb (n =? 0)%Z
  | JStr s => negb (String.eqb s "")
  end.

(** [a || b] on values. *)
Definition jsOr (a b : jsval) : jsval := if truthy a then a else b.

(** [String(v)]. A number is printed with all its digits, which is what the
    host prints for the integers below 2^53 in absolute value; beyond them
    the host prints the shortest digits that identify the Number, and from
    10^21 on it uses exponent notation. *)
Definition jsString (v : jsval) : string :=
  match v with
  | JUndefined => "undefined"
  | JNull => "null"
  | JBool true => "true"
  | JBool false => "false"
  | JNum n => pretty n
  | JStr s => s
  end.

(** The values that [jsString] prints as the host does: every value but the
    numbers that [Number.isSafeInteger] rejects. *)
Definition safeContent (v : jsval) : bool :=
  match v with
  | JNum n => (Z.abs n <? 2 ^ 53)%Z
  | _ => true
  end.

(** The Number (IEEE 754 double) nearest a non-negative integer, as an
    integer again: 53 significant bits, a tie going to the even neighbour,
    which is how the host converts a run of decimal digits. What rounds to
    2^1024 or more is Infinity, for which 2^1024 stands: it is above every
    finite Number, and the difference of two of them, which is NaN in the
    host and taken for 0 by [Array.prototype.sort], is 0. *)
Definition toNumber (n : Z) : Z :=
  if (n <? 2 ^ 53)%Z then n
  else
    let e := (Z.log2 n - 52)%Z in
    let q := (n / 2 ^ e)%Z in
    let r := (n - q * 2 ^ e)%Z in
    let half := (2 ^ (e - 1))%Z in
    let q' := if (half <? r)%Z || ((r =? half)%Z && Z.odd q) then (q + 1)%Z else q in
    Z.min (2 ^ 1024) (q' * 2 ^ e).

(** [s.startsWith(prefix)] *)
Definition startsWith (s prefix : string) : bool := String.prefix prefix s.

(** ** core/src/utils/sorting.js *)

Module Sorting.

(** [/\d/] on one code unit. *)
Definition isDigit (c : ascii) : bool :=
  let n := nat_of_ascii c in (48 <=? n)%nat && (n <=? 57)%nat.

(** [/^\d/.test(a)] *)
Definition startsWithNumber (a : string) : bool :=
  match a with
  | String c _ => isDigit c
  | EmptyString => false
  end.

(** [a.match(/^\d+/)[0]]: the leading run of digits. *)
Fixpoint leadingDigits (a : string) : string :=
  match a with
  | String c rest => if isDigit c then String c (leadingDigits rest) else EmptyString
  | EmptyString => EmptyString
  end.

(** The integer a run of digits denotes, read from the left with an
    accumulator. *)
Fixpoint parseDigits (acc : Z) (ds : string) : Z :=
  match ds with
  | String c rest => parseDigits (10 * acc + (Z.of_nat (nat_of_ascii c) - 48))%Z rest
  | EmptyString => acc
  end.

(** [parseInt(ds, 10)] on a run of digits: the Number nearest the integer
    the digits denote, as [toNumber] gives it. Up to 2^53 that is the
    integer itself; beyond, neighbouring integers share one Number, so that
    9007199254740993 and 9007199254740992 parse to the same value. *)
Definition parseInt10 (ds : string) : Z := toNumber (parseDigits 0 ds).

(** [Array.prototype.sort(compare)]: the host sorts stably. For a comparator
    that is consistent, every stable sort returns the same array; the model
    is insertion from the right, where an element moves past exactly the
    elements the comparator puts strictly before it. *)
Section ArraySort.
Context {A : Type} (compare : A -> A -> Z).

Fixpoint insertSorted (x : A) (l : list A) : list A :=
  match l with
  | [] => [x]
  | y :: l' => if (compare x y <=? 0)%Z then x :: y :: l' else y :: insertSorted x l'
  end.

Definition arraySort (l : list A) : list A := fold_right insertSorted [] l.

End ArraySort.

(** The number a name that begins with a digit is ranked by, and the
    comparison of two such names in the comparator of [sortLibraryFiles]. *)
Definition leadingNumber (a : string) : Z := parseInt10 (leadingDigits a).

Definition compareLeadingNumbers (a b : string) : Z :=
  (leadingNumber a - leadingNumber b)%Z.

(** [files.includes(file)] *)
Definition includes (l : list string) (x : string) : bool :=
  existsb (String.eqb x) l.

Section WithCollation.

(** [String.prototype.localeCompare] belongs to the host and depends on its
    locale data; the embedding takes it as given. *)
Variable localeCompare : string -> string -> Z.

(** The comparator handed to [files.sort] in [sortLibraryFiles]. The sort
    uses the sign of what it returns; [aNum - bNum] is here the exact
    difference of the two Numbers, which has the sign of their difference as
    the host computes it. *)
Definition compareLibraryFiles (a b : string) : Z :=
  let aStartsWithNumber := startsWithNumber a in
  let bStartsWithNumber := startsWithNumber b in
  if aStartsWithNumber && bStartsWithNumber then
    let aNum := parseInt10 (leadingDigits a) in
    let bNum := parseInt10 (leadingDigits b) in
    (aNum - bNum)%Z
  else if aStartsWithNumber && negb bStartsWithNumber then (-1)%Z
  else if negb aStartsWithNumber && bStartsWithNumber then 1%Z
  else localeCompare a b.

(** The array [sortLibraryFiles(files)] holds when it returns. *)
Definition sortLibraryFiles (files : list string) : list string :=
  arraySort compareLibraryFiles files.

(** The array [sortLibraryFilesWithDependencies(files, libraryOrder)]
    returns; [None] is the default [null]. *)
Definition sortLibraryFilesWithDependencies
    (files : list string) (libraryOrder : option (list string)) : list string :=
  match libraryOrder with
  | Some order =>
      if (0 <? List.length order)%nat then
        let orderedFiles := order in
        let missingFiles := List.filter (fun file => negb (includes order file)) files in
        orderedFiles ++ sortLibraryFiles missingFiles
      else sortLibraryFiles files
  | None => sortLibraryFiles files
  end.

End WithCollation.

(** *** The same two functions on array objects

    [Array.prototype.sort] sorts the receiver in place and returns it, while
    spread and [filter] build new arrays. A store maps the identity of an
    array to its contents. *)

Abbreviation store := (gmap nat (list string)).

Definition readArray (r : nat) (h : store) : list string := default [] (h !! r).

(** A new array object, at an identity the store does not use yet. *)
Definition allocArray (l : list string) (h : store) : nat * store :=
  let r := fresh (dom h) in (r, <[r := l]> h).

Section OnArrayObjects.

Variable localeCompare : string -> string -> Z.

(** [return files.sort(...)] *)
Definition sortLibraryFilesRef (files : nat) (h : store) : nat * store :=
  (files, alter (arraySort (compareLibraryFiles localeCompare)) files h).

(** [libraryOrder && libraryOrder.length > 0], then the two branches:
    [[...libraryOrder]], [files.filter(...)], the sort of the filtered array
    and the spread of both into the result; or the sort of [files]. *)
Definition sortLibraryFilesWithDependenciesRef
    (files : nat) (libraryOrder : option nat) (h : store) : nat * store :=
  match libraryOrder with
  | Some order =>
      if (0 <? List.length (readArray order h))%nat then
        let '(orderedFiles, h1) := allocArray (readArray order h) h in
        let '(missingFiles, h2) :=
          allocArray
            (List.filter (fun file => negb (includes (readArray order h1) file))
               (readArray files h1)) h1 in
        let '(sorted, h3) := sortLibraryFilesRef missingFiles h2 in
        allocArray (readArray orderedFiles h3 ++ readArray sorted h3) h3
      else sortLibraryFilesRef files h
  | None => sortLibraryFilesRef files h
  end.

End OnArrayObjects.

(** A sample collation for concrete runs: code-unit order, which agrees with
    the host's locale order on lower-case ASCII names. *)
Fixpoint codeUnitCompare (a b : string) : Z :=
  match a, b with
  | EmptyString, EmptyString => 0
  | EmptyString, String _ _ => -1
  | String _ _, EmptyString => 1
  | String x a', String y b' =>
      let d := (Z.of_nat (nat_of_ascii x) - Z.of_nat (nat_of_ascii y))%Z in
      if (d =? 0)%Z then codeUnitCompare a' b' else d
  end.

End Sorting.

(** ** core/src/utils/validation.js *)

Module Validation.

(** *** Regular expressions of the host

    The fragment of the pattern language the module's literals use. *)
Inductive regex : Type :=
| Lit (s : string)                          (* a run of literal characters *)
| Chr (c : ascii)                           (* one literal character *)
| AnyChar                                   (* [.] *)
| Class (negated : bool) (members : list ascii)   (* [[...]] and [[^...]] *)
| Cat (r1 r2 : regex)
| Alt (r1 r2 : regex)                       (* [r1|r2] *)
| Opt (r : regex)                           (* [r?] *)
| Star (greedy : bool) (r : regex)          (* [r*] and [r*?] *)
| EndOfInput.                               (* [$], no [m] flag *)

(** [r+] *)
Definition plus (r : regex) : regex := Cat r (Star true r).

(** Concatenation of a sequence of terms. *)
Definition seq (rs : list regex) : regex := fold_right Cat (Lit "") rs.

Definition isLineTerminator (c : ascii) : bool :=
  let n := nat_of_ascii c in (n =? 10)%nat || (n =? 13)%nat.

Fixpoint dropPrefix (p s : string) : option string :=
  match p, s with
  | EmptyString, _ => Some s
  | String a p', String b s' => if Ascii.eqb a b then dropPrefix p' s' else None
  | String _ _, EmptyString => None
  end.

(** The loop of [r*] and [r*?] over a matcher [m] for [r]: greedy, one more
    iteration is tried before the continuation; lazy, after it. An iteration
    that consumes nothing is rejected, as the host rejects it. The fuel is
    the length of the text, which bounds the iterations that consume. *)
Fixpoint iterate (m : string -> (string -> option string) -> option string)
    (greedy : bool) (k : string -> option string) (fuel : nat) (s : string)
    : option string :=
  match fuel with
  | O => k s
  | S fuel' =>
      let again (_ : unit) :=
        m s (fun s' =>
               if (String.length s' <? String.length s)%nat
               then iterate m greedy k fuel' s' else None) in
      if greedy then
        match again tt with Some rest => Some rest | None => k s end
      else
        match k s with Some rest => Some rest | None => again tt end
  end.

(** The backtracking matcher of the host, in continuation-passing style:
    [matchAt r s k] matches [r] at the start of [s] and hands what is left
    of [s] to [k], trying the alternatives in the order the host does. *)
Fixpoint matchAt (r : regex) (s : string) (k : string -> option string)
    {struct r} : option string :=
  match r with
  | Lit p => match dropPrefix p s with Some s' => k s' | None => None end
  | Chr c =>
      match s with
      | String x s' => if Ascii.eqb x c then k s' else None
      | EmptyString => None
      end
  | AnyChar =>
      match s with
      | String x s' => if isLineTerminator x then None else k s'
      | EmptyString => None
      end
  | Class negated members =>
      match s with
      | String x s' =>
          if xorb negated (existsb (Ascii.eqb x) members) then k s' else None
      | EmptyString => None
      end
  | Cat r1 r2 => matchAt r1 s (fun s' => matchAt r2 s' k)
  | Alt r1 r2 =>
      match matchAt r1 s k with
      | Some rest => Some rest
      | None => matchAt r2 s k
      end
  | Opt r1 =>
      match matchAt r1 s
              (fun s' => if (String.length s' <? String.length s)%nat then k s' else None) with
      | Some rest => Some rest
      | None => k s
      end
  | Star greedy r1 => iterate (matchAt r1) greedy k (String.length s) s
  | EndOfInput =>
      match s with
      | EmptyString => k s
      | String _ _ => None
      end
  end.

(** A match of [r] starting exactly at the start of [s]: what follows it. *)
Definition matchPrefix (r : regex) (s : string) : option string := matchAt r s Some.

(** [pattern.test(s)] for a pattern without flags: a match somewhere. *)
Fixpoint test (r : regex) (s : string) : bool :=
  match matchPrefix r s with
  | Some _ => true
  | None =>
      match s with
      | String _ s' => test r s'
      | EmptyString => false
      end
  end.

(** [s.replace(pattern, replacement)] without the [g] flag: the leftmost
    match only. *)
Fixpoint replaceFirst (r : regex) (replacement s : string) : string :=
  match matchPrefix r s with
  | Some rest => replacement ++ rest
  | None =>
      match s with
      | String c s' => String c (replaceFirst r replacement s')
      | EmptyString => EmptyString
      end
  end.

(** [s.replace(pattern, replacement)] with the [g] flag: every match, left
    to right, without overlap; after an empty match the search moves on by
    one character. *)
Fixpoint replaceAllFrom (fuel : nat) (r : regex) (replacement s : string) : string :=
  match fuel with
  | O => s
  | S fuel' =>
      let step :=
        match s with
        | String c s' => String c (replaceAllFrom fuel' r replacement s')
        | EmptyString => EmptyString
        end in
      match matchPrefix r s with
      | Some rest =>
          if (String.length rest <? String.length s)%nat
          then replacement ++ replaceAllFrom fuel' r replacement rest
          else replacement ++ step
      | None => step
      end
  end.

Definition replaceAll (r : regex) (replacement s : string) : string :=
  replaceAllFrom (S (String.length s)) r replacement s.

(** *** Strings *)

(** [s.split(sep)] for a separator that is not empty. [skip] counts the
    characters of a separator found that are still to be passed over. *)
Fixpoint splitFrom (sep : string) (skip : nat) (piece : string) (s : string)
    : list string :=
  match s with
  | EmptyString => [piece]
  | String c s' =>
      match skip with
      | S n => splitFrom sep n piece s'
      | O =>
          match dropPrefix sep s with
          | Some _ => piece :: splitFrom sep (String.length sep - 1) "" s'
          | None => splitFrom sep 0 (piece ++ String c "") s'
          end
      end
  end.

Definition split (sep s : string) : list string := splitFrom sep 0 "" s.

Definition isWhiteSpace (c : ascii) : bool :=
  let n := nat_of_ascii c in
  ((9 <=? n)%nat && (n <=? 13)%nat) || (n =? 32)%nat || (n =? 160)%nat.

Fixpoint trimStart (s : string) : string :=
  match s with
  | String c s' => if isWhiteSpace c then trimStart s' else s
  | EmptyString => EmptyString
  end.

Fixpoint trimEnd (s : string) : string :=
  match s with
  | String c s' =>
      let t := trimEnd s' in
      if isWhiteSpace c && String.eqb t "" then EmptyString else String c t
  | EmptyString => EmptyString
  end.

(** [s.trim()] *)
Definition trim (s : string) : string := trimEnd (trimStart s).

(** *** The rule table

    Each entry pairs a pattern with its message, in the order of
    [forbiddenPatterns]. The literals are transcribed character for
    character. In the source every backslash of every literal is written
    twice, and in a pattern a doubled backslash stands for the backslash
    character itself: the b, s, w, dot, question mark or bracket after it is
    an ordinary pattern item of its own. So the first rule looks for a
    backslash, the letters basync, a backslash and the letter b, and the
    rule for nullish coalescing is two optional backslashes. Several
    literals open a group with a parenthesis that is never closed, which the
    host refuses when it loads the module ([importValidation] below): on the
    host no rule is ever applied. To say what the function would compute
    from these literals, such a parenthesis is read as the character
    itself. *)

Definition backslash : regex := Chr "\".
Definition letterS : regex := Chr "s".

Record Rule := { pattern : regex; message : string }.

Definition forbiddenPatterns : list Rule :=
  [ (* /\\basync\\b|\\bawait\\b/ *)
    {| pattern := Alt (Lit "\basync\b") (Lit "\bawait\b");
       message := "async/await not allowed in Vocalls ES5.1" |};
    (* /\\bclass\\s+[\\w$]+/ *)
    {| pattern := seq [Lit "\bclass\"; plus letterS;
                       plus (Class false ["\"; "w"; "$"]%char)];
       message := "ES6 classes not allowed in Vocalls" |};
    (* /\\bimport\\s|export\\s+/ *)
    {| pattern := Alt (Lit "\bimport\s") (seq [Lit "export\"; plus letterS]);
       message := "import/export not allowed in Vocalls" |};
    (* /\\brequire\\s*\\(/ *)
    {| pattern := seq [Lit "\brequire\"; Star true letterS; Lit "\("];
       message := "require() not allowed in Vocalls runtime" |};
    (* /\\b(let|const)\\s+/ *)
    {| pattern := seq [Lit "\b"; Alt (Lit "let") (Lit "const"); backslash; plus letterS];
       message := "let/const not allowed, use var in Vocalls ES5.1" |};
    (* /\\.catch\\s*\\(/ *)
    {| pattern := seq [backslash; AnyChar; Lit "catch\"; Star true letterS; Lit "\("];
       message := ".catch() not supported in Vocalls (use .then(success, error))" |};
    (* /\\?\\?/ *)
    {| pattern := seq [Opt backslash; Opt backslash];
       message := "nullish coalescing (??) not allowed in ES5.1" |};
    (* /\\?\\./ *)
    {| pattern := seq [Opt backslash; backslash; AnyChar];
       message := "optional chaining (?.) not allowed in ES5.1" |};
    (* /\\beval\\s*\\(|new\\s+Function\\s*\\(/ *)
    {| pattern := Alt (seq [Lit "\beval\"; Star true letterS; Lit "\("])
                      (seq [Lit "new\"; plus letterS; Lit "Function\";
                            Star true letterS; Lit "\("]);
       message := "eval/Function constructor not allowed in Vocalls" |};
    (* /\\bconsole\\.(log|info|warn|error)\\s*\\(/ *)
    {| pattern := seq [Lit "\bconsole\"; AnyChar;
                       Alt (Lit "log") (Alt (Lit "info") (Alt (Lit "warn") (Lit "error")));
                       backslash; Star true letterS; Lit "\("];
       message := "console.* not allowed, use logInfo/logWarn/logError" |};
    (* /\\bsetTimeout\\s*\\(|\\bsetInterval\\s*\\(/ *)
    {| pattern := Alt (seq [Lit "\bsetTimeout\"; Star true letterS; Lit "\("])
                      (seq [Lit "\bsetInterval\"; Star true letterS; Lit "\("]);
       message := "setTimeout/setInterval not available in Vocalls" |};
    (* /\\bPromise\\.all\\s*\\(|\\bPromise\\.race\\s*\\(/ *)
    {| pattern := Alt (seq [Lit "\bPromise\"; AnyChar; Lit "all\";
                            Star true letterS; Lit "\("])
                      (seq [Lit "\bPromise\"; AnyChar; Lit "race\";
                            Star true letterS; Lit "\("]);
       message := "Promise.all/race not supported in Vocalls ES5.1" |};
    (* /`[^`]*`/ *)
    {| pattern := seq [Chr "`"; Star true (Class true ["`"]%char); Chr "`"];
       message := "Template literals not allowed in ES5.1" |};
    (* /=\\s*>/ *)
    {| pattern := seq [Lit "=\"; Star true letterS; Chr ">"];
       message := "Arrow functions not allowed in ES5.1" |};
    (* /\\bfor\\s*\\(\\s*(?:let|const)/ *)
    {| pattern := seq [Lit "\bfor\"; Star true letterS; Lit "\(\"; Star true letterS;
                       Alt (Lit "let") (Lit "const")];
       message := "for...of/for...in with let/const not allowed in ES5.1" |};
    (* /\\.\\.\\.|\\[\\.\\.\\.]/ *)
    {| pattern := Alt (seq [backslash; AnyChar; backslash; AnyChar; backslash; AnyChar])
                      (seq [backslash; Class false ["\"; "."]%char]);
       message := "Spread operator not allowed in ES5.1" |};
    (* /\\{[^}]*:\\s*[^}]*\\}\\s*=/ *)
    {| pattern := seq [Lit "\{"; Star true (Class true ["}"]%char); Lit ":\";
                       Star true letterS; Star true (Class true ["}"]%char);
                       Lit "\}\"; Star true letterS; Chr "="];
       message := "Destructuring assignment not allowed in ES5.1" |};
    (* /\\[[^\\]]*\\]\\s*=/ *)
    {| pattern := seq [backslash; Class false ["["; "^"; "\"]%char; Star true (Chr "]");
                       Lit "\]\"; Star true letterS; Chr "="];
       message := "Array destructuring not allowed in ES5.1" |} ].

(** The two patterns of the cleaning step, read the same way, each taken to
    run from its first slash to its last (the host would end the literal at
    the first slash that follows a doubled backslash, and refuse what comes
    after). The first, with the [g] flag, is a backslash, a slash,
    backslashes, a lazy run of the characters backslash, s and S,
    backslashes, a backslash and a slash; the second a backslash, a slash, a
    backslash, a slash and the rest of the input. *)
Definition blockCommentPattern : regex :=     (* /\\/\\*[\\s\\S]*?\\*\\//g *)
  seq [Lit "\/"; Star true backslash; Star false (Class false ["\"; "s"; "S"]%char);
       Star true backslash; Lit "\/"].

Definition lineCommentPattern : regex :=      (* /\\/\\/.*$/ *)
  seq [Lit "\/\/"; Star true AnyChar; EndOfInput].

(** The separator of [code.split], written '\\n' in the source: the two
    characters backslash and n. *)
Definition lineSeparator : string := "\n".

(** *** validateES51Compliance *)

(** A violation is the object literal pushed at a match; its fields are what
    that literal lists. *)
Abbreviation Violation := (gmap string jsval).

Definition makeViolation (index : nat) (msg line : string) : Violation :=
  <["line" := JNum (Z.of_nat index + 1)]>
    (<["message" := JStr msg]>
       (<["snippet" := JStr (trim line)]> ∅)).

Definition cleanLine (line : string) : string :=
  replaceFirst lineCommentPattern "" (replaceAll blockCommentPattern "" line).

(** The inner [forEach]: one push per rule whose pattern the cleaned line
    matches. *)
Definition scanLine (index : nat) (line : string) (violations : list Violation)
    : list Violation :=
  fold_left
    (fun vs rule =>
       if test (pattern rule) (cleanLine line)
       then vs ++ [makeViolation index (message rule) line]
       else vs)
    forbiddenPatterns violations.

(** [array.forEach((element, index) => ...)] for a callback that updates
    the state kept around the loop. *)
Fixpoint forEachWithIndex {A St : Type} (callback : A -> nat -> St -> St)
    (index : nat) (array : list A) (state : St) : St :=
  match array with
  | [] => state
  | element :: rest =>
      forEachWithIndex callback (S index) rest (callback element index state)
  end.

Definition validateES51Compliance (code : string) : list Violation :=
  let lines := split lineSeparator code in
  forEachWithIndex (fun line index violations => scanLine index line violations)
    0 lines [].

(** The rules a line matches once cleaned, in the order of the table. *)
Definition matchingRules (line : string) : list Rule :=
  List.filter (fun rule => test (pattern rule) (cleanLine line)) forbiddenPatterns.

(** *** The module on the host

    The host parses every regular-expression literal of a module when it
    loads the module, and refuses the module with a SyntaxError when a
    literal is no pattern. *)








(** Whether a text is free of backslashes, as ordinary source text is. *)
Fixpoint noBackslash (s : string) : bool :=
  match s with
  | EmptyString => true
  | String c s' => negb (Ascii.eqb c "\") && noBackslash s'
  end.

(** A sufficient test for a pattern to match only text that holds a
    backslash. *)
Fixpoint needsBackslash (r : regex) : bool :=
  match r with
  | Lit p => negb (noBackslash p)
  | Chr c => Ascii.eqb c "\"
  | Cat r1 r2 => needsBackslash r1 || needsBackslash r2
  | Alt r1 r2 => needsBackslash r1 && needsBackslash r2
  | _ => false
  end.

(** *** validateVocallsGlobals *)



(** An element of [warnings]. *)
Module Warning.
Record t := make { global : string; message : string }.
End Warning.

Section WithGlobalPattern.

(** The values [match[1]] takes in the rounds of
    [while ((match = globalPattern.exec(code)) !== null)], in order: the
    names the pattern captures in the text. Matching belongs to the host;
    the embedding takes its results as given, so that what follows holds
    whatever the pattern matches. *)
Variable execGlobalPattern : string -> list string.



End WithGlobalPattern.








End Validation.

(** ** core/src/simulator/engine.js *)

Module Engine.

(** [this.stats] *)
Module Stats.
Record t := make {
  filesLoaded : nat;
  httpRequests : nat;
  storageOps : nat;
  startTime : option N;
  endTime : option N
}.
End Stats.

(** The argument of [jsonHttpRequest] and [httpRequest]. *)
Module HttpConfig.
Record t := make {
  method : option string;
  url : string;
  headers : jsval;
  body : jsval
}.
End HttpConfig.

(** An entry of [this.httpRequests], the log of the requests seen. *)
Module Request.
Record t := make {
  timestamp : N;
  method : string;
  url : string;
  headers : jsval;
  body : jsval
}.
End Request.

(** The envelope [createStubResponse] resolves with. *)
Module StubResponse.
Record t := make {
  success : bool;
  status : Z;
  dataMessage : string;
  dataTimestamp : N;
  dataMethod : string;
  contentType : string
}.
End StubResponse.

(** A settled promise. *)
Inductive promise (A : Type) : Type :=
| Resolved (value : A)
| Rejected (reason : string).
Arguments Resolved {A} value.
Arguments Rejected {A} reason.

(** What [Storage.readFile] and [Storage.writeFile] return; [None] is
    [null]. *)
Module ReadResult.
Record t := make { success : bool; text : option string; error : option string }.
End ReadResult.

Module WriteResult.
Record t := make { success : bool; error : option string }.
End WriteResult.

(** The simulator object. Console output ([this.log], [verbose]) is not part
    of the state modelled. *)
Record Simulator := {
  httpMode : string;
  storageMode : string;
  environment : string;
  stats : Stats.t;
  memoryStorage : gmap string string;
  httpRequests : list Request.t
}.

(** [options.x || d] for an option that is a string when present. *)
Definition orDefault (o : option string) (d : string) : string :=
  match o with
  | Some v => if String.eqb v "" then d else v
  | None => d
  end.

Module Options.
Record t := make {
  httpMode : option string;
  storageMode : option string;
  environment : option string
}.
End Options.

(** [new VocallsSimulator(options)] *)
Definition newSimulator (options : Options.t) : Simulator :=
  {| httpMode := orDefault (Options.httpMode options) "stub";
     storageMode := orDefault (Options.storageMode options) "memory";
     environment := orDefault (Options.environment options) "acc";
     stats := Stats.make 0 0 0 None None;
     memoryStorage := ∅;
     httpRequests := [] |}.

Definition withStats (f : Stats.t -> Stats.t) (sim : Simulator) : Simulator :=
  {| httpMode := httpMode sim; storageMode := storageMode sim;
     environment := environment sim; stats := f (stats sim);
     memoryStorage := memoryStorage sim; httpRequests := httpRequests sim |}.

Definition withMemoryStorage (m : gmap string string) (sim : Simulator) : Simulator :=
  {| httpMode := httpMode sim; storageMode := storageMode sim;
     environment := environment sim; stats := stats sim;
     memoryStorage := m; httpRequests := httpRequests sim |}.

Definition pushHttpRequest (r : Request.t) (sim : Simulator) : Simulator :=
  {| httpMode := httpMode sim; storageMode := storageMode sim;
     environment := environment sim; stats := stats sim;
     memoryStorage := memoryStorage sim; httpRequests := httpRequests sim ++ [r] |}.

(** [this.stats.filesLoaded++] and its two siblings *)
Definition countFileLoaded (st : Stats.t) : Stats.t :=
  Stats.make (S (Stats.filesLoaded st)) (Stats.httpRequests st) (Stats.storageOps st)
    (Stats.startTime st) (Stats.endTime st).

Definition countHttpRequest (st : Stats.t) : Stats.t :=
  Stats.make (Stats.filesLoaded st) (S (Stats.httpRequests st)) (Stats.storageOps st)
    (Stats.startTime st) (Stats.endTime st).

Definition countStorageOp (st : Stats.t) : Stats.t :=
  Stats.make (Stats.filesLoaded st) (Stats.httpRequests st) (S (Stats.storageOps st))
    (Stats.startTime st) (Stats.endTime st).

Definition setStartTime (now : N) (st : Stats.t) : Stats.t :=
  Stats.make (Stats.filesLoaded st) (Stats.httpRequests st) (Stats.storageOps st)
    (Some now) (Stats.endTime st).

Definition setEndTime (now : N) (st : Stats.t) : Stats.t :=
  Stats.make (Stats.filesLoaded st) (Stats.httpRequests st) (Stats.storageOps st)
    (Stats.startTime st) (Some now).

(** *** HTTP *)

Definition createStubResponse (now : N) (config : HttpConfig.t)
    : promise StubResponse.t :=
  Resolved
    (StubResponse.make true 200
       ("Stubbed response for " ++ HttpConfig.url config) now
       (orDefault (HttpConfig.method config) "GET")
       "application/json").

(** [handleHttpRequest] is an [async] function: the error it throws outside
    stub mode reaches the caller as a rejected promise. [now] is the clock
    the time stamps are read from. *)
Definition handleHttpRequest (now : N) (config : HttpConfig.t) (sim : Simulator)
    : promise StubResponse.t * Simulator :=
  let sim1 := withStats countHttpRequest sim in
  let request :=
    Request.make now (orDefault (HttpConfig.method config) "GET")
      (HttpConfig.url config) (HttpConfig.headers config) (HttpConfig.body config) in
  let sim2 := pushHttpRequest request sim1 in
  if String.eqb (httpMode sim2) "stub"
  then (createStubResponse now config, sim2)
  else (Rejected "Real HTTP mode not implemented in this demo", sim2).

(** *** Storage *)

(** [content || null] on what the map returned. *)
Definition textOrNull (content : option string) : option string :=
  match content with
  | Some c => if String.eqb c "" then None else Some c
  | None => None
  end.

Definition handleStorageRead (filePath : string) (sim : Simulator)
    : ReadResult.t * Simulator :=
  let sim1 := withStats countStorageOp sim in
  if String.eqb (storageMode sim1) "memory" then
    let content := memoryStorage sim1 !! filePath in
    (ReadResult.make
       (match content with Some _ => true | None => false end)
       (textOrNull content)
       (match content with Some _ => None | None => Some "file_not_found" end),
     sim1)
  else
    (ReadResult.make false None (Some "disk_storage_not_implemented"), sim1).

Definition handleStorageWrite (filePath : string) (content : jsval) (sim : Simulator)
    : WriteResult.t * Simulator :=
  let sim1 := withStats countStorageOp sim in
  if String.eqb (storageMode sim1) "memory" then
    (WriteResult.make true None,
     withMemoryStorage
       (<[filePath := jsString (jsOr content (JStr ""))]> (memoryStorage sim1)) sim1)
  else
    (WriteResult.make false (Some "disk_storage_not_implemented"), sim1).

(** *** The sandbox *)

(** What a global name of the sandbox is bound to: [undefined], a function
    whose call leaves the state modelled as it is (a function a fragment
    declares, a logging function, [Date], [String], ...), one of the two
    request functions, a constructor that throws when it is called without
    [new], a value, or an object that is no function. *)
Inductive binding : Type :=
| BUndefined
| BFunction
| BRequest
| BConstructor (message : string)
| BValue (v : jsval)
| BObject.

Definition bindAll (b : binding) (names : list string) (g : gmap string binding)
    : gmap string binding :=
  fold_right (fun name acc => <[name := b]> acc) g names.

(** The error of a built-in constructor called without [new], in the words
    of V8. *)
Definition requiresNew (name : string) : string :=
  "Constructor " ++ name ++ " requires 'new'".

(** The properties of the object [createSandbox] returns. [Promise] is the
    class [VocallsPromise] of [createLimitedPromise]. *)
Definition sandboxGlobals : gmap string binding :=
  bindAll BObject ["context"; "Storage"; "Math"; "JSON"]
    (bindAll BRequest ["jsonHttpRequest"; "httpRequest"]
       (bindAll BFunction
          ["logInfo"; "logWarn"; "logError"; "log_debug"; "nowUTC";
           "Date"; "String"; "Number"; "Boolean"; "Array"; "Object"; "RegExp";
           "Error"; "TypeError"; "ReferenceError"; "SyntaxError"]
          (<["Map" := BConstructor (requiresNew "Map")]>
             (<["Set" := BConstructor (requiresNew "Set")]>
                (<["WeakMap" := BConstructor (requiresNew "WeakMap")]>
                   (<["WeakSet" := BConstructor (requiresNew "WeakSet")]>
                      (<["Promise" :=
                           BConstructor
                             "Class constructor VocallsPromise cannot be invoked without 'new'"]>
                         (bindAll BUndefined
                            ["var"; "function"; "global"; "process"; "require";
                             "module"; "exports"; "__dirname"; "__filename"; "console";
                             "setTimeout"; "setInterval"; "clearTimeout";
                             "clearInterval"]
                            ∅)))))))).

(** [context.session.variables] as [createVocallsContext] fills it. *)
Definition initialSessionVariables (sim : Simulator) : gmap string jsval :=
  <["VOCALLS_ENV" := JStr (environment sim)]>
    (<["SIMULATION_MODE" := JStr (httpMode sim)]> ∅).

(** Everything a fragment can reach while it runs: the sandbox object (its
    global names and the session variables under [context]), the simulator
    behind the host functions, and the clock of the host in milliseconds. *)
Record World := {
  simulator : Simulator;
  globals : gmap string binding;
  sessionVariables : gmap string jsval;
  clock : N
}.

Definition withSimulator (f : Simulator -> Simulator) (w : World) : World :=
  {| simulator := f (simulator w); globals := globals w;
     sessionVariables := sessionVariables w; clock := clock w |}.

Definition withGlobals (f : gmap string binding -> gmap string binding) (w : World)
    : World :=
  {| simulator := simulator w; globals := f (globals w);
     sessionVariables := sessionVariables w; clock := clock w |}.

Definition withSessionVariables (f : gmap string jsval -> gmap string jsval)
    (w : World) : World :=
  {| simulator := simulator w; globals := globals w;
     sessionVariables := f (sessionVariables w); clock := clock w |}.

Definition advanceClock (ms : N) (w : World) : World :=
  {| simulator := simulator w; globals := globals w;
     sessionVariables := sessionVariables w; clock := (clock w + ms)%N |}.

(** [this.stats.filesLoaded], seen from the world. *)
Definition loaded (w : World) : nat := Stats.filesLoaded (stats (simulator w)).

(** *** Fragments

    The simulator hands the text of a fragment to the host's [vm]; what the
    text means is the host's business. A fragment is abstracted to the
    sequence of effects its top-level code has on the sandbox and, through
    the host functions, on the simulator. *)
Inductive action : Type :=
| DeclareFunction (name : string)                 (* [function name() { ... }] *)
| DeclareVar (name : string) (value : jsval)      (* [var name = value;] *)
| CallFunction (name : string)                    (* [name();] *)
| SetSessionVariable (key : string) (value : jsval)
| HttpRequest (config : HttpConfig.t)             (* [jsonHttpRequest(config);] *)
| StorageWriteFile (path : string) (content : jsval)
| StorageReadFile (path : string)
| Busy (ms : N)                                   (* computation lasting [ms] *)
| ThrowError (message : string).                  (* [throw new Error(message);] *)

(** The fragments described this way:
    - the body of a function a fragment declares has no effect on the state
      modelled, so that calling it is a step without effect;
    - [HttpRequest] and the two storage actions are calls that reach the
      host functions of the sandbox, the request with a config object;
    - a name is an identifier of the language that is no reserved word, and
      a name the context defines by itself (the built-ins of the language,
      which a new [vm] context has besides the properties of the sandbox
      object) is neither declared nor called: [userName] below is the test.
      What the host does with other names (a syntax error when it compiles
      the fragment, the call of a built-in) is not followed. *)

Definition isIdentifierStart (c : ascii) : bool :=
  let n := nat_of_ascii c in
  ((65 <=? n)%nat && (n <=? 90)%nat) || ((97 <=? n)%nat && (n <=? 122)%nat)
  || (n =? 95)%nat || (n =? 36)%nat.

Definition isIdentifierPart (c : ascii) : bool :=
  isIdentifierStart c || Sorting.isDigit c.

Fixpoint allIdentifierParts (s : string) : bool :=
  match s with
  | EmptyString => true
  | String c rest => isIdentifierPart c && allIdentifierParts rest
  end.

(** The reserved words of the language, strict mode and modules included,
    and three names with a meaning of their own. *)
Definition reservedWords : list string :=
  ["await"; "break"; "case"; "catch"; "class"; "const"; "continue"; "debugger";
   "default"; "delete"; "do"; "else"; "enum"; "export"; "extends"; "false";
   "finally"; "for"; "function"; "if"; "implements"; "import"; "in"; "instanceof";
   "interface"; "let"; "new"; "null"; "package"; "private"; "protected"; "public";
   "return"; "static"; "super"; "switch"; "this"; "throw"; "true"; "try"; "typeof";
   "var"; "void"; "while"; "with"; "yield"; "async"; "arguments"; "eval"].

(** The names a context may define by itself: the properties of the global
    object that the language and V8 provide, in any version, and those the
    global object inherits from [Object.prototype]. The list errs on the
    side of more names. *)
Definition hostNames : list string :=
  ["globalThis"; "Infinity"; "NaN"; "undefined";
   "eval"; "isFinite"; "isNaN"; "parseFloat"; "parseInt";
   "decodeURI"; "decodeURIComponent"; "encodeURI"; "encodeURIComponent";
   "escape"; "unescape";
   "Object"; "Function"; "Array"; "Number"; "Boolean"; "String"; "Symbol"; "Date";
   "Promise"; "RegExp"; "Error"; "AggregateError"; "EvalError"; "RangeError";
   "ReferenceError"; "SyntaxError"; "TypeError"; "URIError"; "SuppressedError";
   "JSON"; "Math"; "Intl"; "Reflect"; "Atomics"; "WebAssembly"; "Temporal";
   "console";
   "ArrayBuffer"; "SharedArrayBuffer"; "DataView";
   "Int8Array"; "Uint8Array"; "Uint8ClampedArray"; "Int16Array"; "Uint16Array";
   "Int32Array"; "Uint32Array"; "Float16Array"; "Float32Array"; "Float64Array";
   "BigInt64Array"; "BigUint64Array";
   "Map"; "Set"; "WeakMap"; "WeakSet"; "WeakRef"; "FinalizationRegistry";
   "BigInt"; "Proxy"; "Iterator"; "AsyncIterator";
   "DisposableStack"; "AsyncDisposableStack";
   "constructor"; "hasOwnProperty"; "isPrototypeOf"; "propertyIsEnumerable";
   "toLocaleString"; "toString"; "valueOf"; "__proto__";
   "__defineGetter__"; "__defineSetter__"; "__lookupGetter__"; "__lookupSetter__"].

(** An identifier that is no reserved word. *)
Definition identifierName (name : string) : bool :=
  match name with
  | EmptyString => false
  | String c rest => isIdentifierStart c && allIdentifierParts rest
  end
  && negb (Sorting.includes reservedWords name).

(** A name for a fragment to declare: the context does not define it. *)
Definition userName (name : string) : bool :=
  identifierName name && negb (Sorting.includes hostNames name).

Abbreviation Script := (list action).

(** How an evaluation ends. *)
Inductive completion : Type :=
| Normal
| Thrown (message : string).

(** Declarations are instantiated before the first statement runs: functions
    are bound, and a [var] not yet a property is created undefined. *)
Definition hoist (a : action) (g : gmap string binding) : gmap string binding :=
  match a with
  | DeclareFunction name => <[name := BFunction]> g
  | DeclareVar name _ =>
      match g !! name with
      | Some _ => g
      | None => <[name := BUndefined]> g
      end
  | _ => g
  end.

Definition hoistAll (script : Script) (g : gmap string binding) : gmap string binding :=
  fold_left (fun acc a => hoist a acc) script g.

(** The names a fragment declares at its top level. *)
Definition declares (name : string) (script : Script) : Prop :=
  In (DeclareFunction name) script \/ exists value, In (DeclareVar name value) script.

(** Whether a statement declares the name. *)
Definition declaresName (name : string) (a : action) : bool :=
  match a with
  | DeclareFunction n | DeclareVar n _ => String.eqb n name
  | _ => false
  end.

(** No statement of the top-level code declares the name. *)
Definition leavesName (name : string) (script : Script) : bool :=
  forallb (fun a => negb (declaresName name a)) script.

(** The fragments the description above is meant for: the names declared
    are user names, and the names called are identifiers that the sandbox
    object holds or the context does not define. *)
Definition wellFormed (script : Script) : bool :=
  forallb
    (fun a =>
       match a with
       | DeclareFunction n | DeclareVar n _ => userName n
       | CallFunction n =>
           identifierName n
           && (negb (Sorting.includes hostNames n)
               || bool_decide (is_Some (sandboxGlobals !! n)))
       | _ => true
       end)
    script.

(** One statement that takes no time. *)
Definition step (a : action) (w : World) : completion * World :=
  match a with
  | DeclareFunction _ => (Normal, w)
  | DeclareVar name value => (Normal, withGlobals (insert name (BValue value)) w)
  | CallFunction name =>
      match globals w !! name with
      | None => (Thrown (name ++ " is not defined"), w)
      | Some BFunction => (Normal, w)
      | Some BRequest =>
          (* [handleHttpRequest(undefined)] counts the request and then
             fails on [config.method], inside the [async] function: the
             caller gets a rejected promise and nothing is logged *)
          (Normal, withSimulator (withStats countHttpRequest) w)
      | Some (BConstructor message) => (Thrown message, w)
      | Some _ => (Thrown (name ++ " is not a function"), w)
      end
  | SetSessionVariable key value =>
      (Normal, withSessionVariables (insert key value) w)
  | HttpRequest config =>
      (Normal, withSimulator (fun sim => snd (handleHttpRequest (clock w) config sim)) w)
  | StorageWriteFile path content =>
      (Normal, withSimulator (fun sim => snd (handleStorageWrite path content sim)) w)
  | StorageReadFile path =>
      (Normal, withSimulator (fun sim => snd (handleStorageRead path sim)) w)
  | Busy _ => (Normal, w)
  | ThrowError message => (Thrown message, w)
  end.

(** The statements of a fragment in order, under what is left of the time
    the [vm] allows the evaluation. The clock counts the time the fragments
    compute, as the [vm] measures it against its limit; reading the files
    and stopping a fragment take the host some time on top, so that the
    time a run reports is at least what the clock shows. *)
Fixpoint runStatements (budget : N) (script : Script) (w : World)
    : completion * World :=
  match script with
  | [] => (Normal, w)
  | Busy ms :: rest =>
      if (ms <=? budget)%N
      then runStatements (budget - ms)%N rest (advanceClock ms w)
      else (Thrown "Script execution timed out after 5000ms", advanceClock budget w)
  | a :: rest =>
      match step a w with
      | (Normal, w') => runStatements budget rest w'
      | (Thrown message, w') => (Thrown message, w')
      end
  end.

(** [script.runInNewContext(sandbox, { timeout })]: every call is given the
    one sandbox object, so what a fragment declares stays on it. *)
Definition runInNewContext (script : Script) (timeout : N) (w : World)
    : completion * World :=
  runStatements timeout script (withGlobals (hoistAll script) w).

(** *** The project on disk *)

(** What [fs] finds at the library directory. *)
Inductive directory : Type :=
| NoDirectory
| Unreadable
| Listing (names : list string).

(** A [project.json] that parses to an object: its [libraryOrder] is an
    array of names, or it is missing (or falsy). A file that parses to
    something else, to null or to an object whose [libraryOrder] cannot be
    iterated, is outside this description: a run on such a project, if it
    has a library directory, ends with a TypeError of the host before any
    fragment is loaded. *)
Module Config.
Record t := make { libraryOrder : option (list string) }.
End Config.

Record Project := {
  (* the readable files, by path relative to the project *)
  files : gmap string Script;
  (* [src/globalLibraries/active] *)
  libsDir : directory;
  (* [project.json] when it can be read and parsed *)
  projectJson : option Config.t
}.

Definition loadProjectConfig (p : Project) : Config.t :=
  match projectJson p with
  | Some config => config
  | None => Config.make (Some [])
  end.

(** [file.endsWith(suffix)] *)
Definition endsWith (s suffix : string) : bool :=
  let n := String.length s in
  let m := String.length suffix in
  (m <=? n)%nat && String.eqb (substring (n - m) m s) suffix.

(** [Array.prototype.sort()] without a comparator orders strings by their
    code units. *)
Definition getLibraryFiles (dir : directory) : list string :=
  match dir with
  | Listing names =>
      Sorting.arraySort Sorting.codeUnitCompare
        (List.filter (fun file => endsWith file ".js") names)
  | _ => []
  end.

(** [config.libraryOrder || await this.getLibraryFiles(libsDir)]: an array,
    empty or not, is truthy. *)
Definition resolveLibraryOrder (config : Config.t) (dir : directory) : list string :=
  match Config.libraryOrder config with
  | Some order => order
  | None => getLibraryFiles dir
  end.

(** The library part of [loadOrder]. *)
Definition libraryLoadOrder (p : Project) : list string :=
  match libsDir p with
  | NoDirectory => []
  | dir => resolveLibraryOrder (loadProjectConfig p) dir
  end.

Definition loadOrder (p : Project) : list string :=
  ["src/globalCode.js"; "src/globalVariables.js"]
    ++ map (fun lib => ("src/globalLibraries/active/" ++ lib)%string) (libraryLoadOrder p)
    ++ ["src/callScripts/main.js"].

(** *** Loading and running *)

Definition loadScript (p : Project) (relativePath : string) (w : World)
    : completion * World :=
  match files p !! relativePath with
  | None => (Normal, w)
  | Some script =>
      match runInNewContext script 5000%N w with
      | (Normal, w') => (Normal, withSimulator (withStats countFileLoaded) w')
      | (Thrown message, w') =>
          (Thrown ("Error in " ++ relativePath ++ ": " ++ message), w')
      end
  end.

(** [for (const file of loadOrder) await this.loadScript(sandbox, file)] *)
Fixpoint loadScripts (p : Project) (order : list string) (w : World)
    : completion * World :=
  match order with
  | [] => (Normal, w)
  | file :: rest =>
      match loadScript p file w with
      | (Normal, w') => loadScripts p rest w'
      | (Thrown message, w') => (Thrown message, w')
      end
  end.

Definition loadProjectFiles (p : Project) (w : World) : completion * World :=
  loadScripts p (loadOrder p) w.

(** The object [execute] resolves with. *)
Module Report.
Record t := make {
  executionTime : N;
  filesLoaded : nat;
  httpRequests : nat;
  storageOps : nat;
  sessionState : gmap string jsval;
  httpLog : list Request.t
}.
End Report.

(** A run ends with its report or with the error it throws. *)
Inductive outcome : Type :=
| Returned (report : Report.t)
| Failed (message : string).

(** [execute]: the remaining components are the simulator and the clock
    after the run. *)
Definition execute (p : Project) (sim : Simulator) (now : N)
    : outcome * Simulator * N :=
  let sim1 := withStats (setStartTime now) sim in
  let sandbox :=
    {| simulator := sim1; globals := sandboxGlobals;
       sessionVariables := initialSessionVariables sim1; clock := now |} in
  match loadProjectFiles p sandbox with
  | (Thrown message, w) => (Failed message, simulator w, clock w)
  | (Normal, w) =>
      let sim2 := withStats (setEndTime (clock w)) (simulator w) in
      let st := stats sim2 in
      (Returned
         (Report.make (clock w - now)%N
            (Stats.filesLoaded st) (Stats.httpRequests st) (Stats.storageOps st)
            (sessionVariables w) (httpRequests sim2)),
       sim2, clock w)
  end.

(** *** Sequences of calls and what a run leaves behind *)

(** [await this.fileExists(fullPath)] in [loadScript]. *)
Definition fileExists (p : Project) (relativePath : string) : bool :=
  match files p !! relativePath with
  | Some _ => true
  | None => false
  end.

(** The calls [Storage.writeFile(path, content)] of a list, one after the
    other. *)
Definition storageWrites (writes : list (string * jsval)) (sim : Simulator)
    : Simulator :=
  fold_left (fun s w => snd (handleStorageWrite (fst w) (snd w) s)) writes sim.

(** The content given by the last call of the list that names the path. *)
Fixpoint lastWritten (filePath : string) (writes : list (string * jsval))
    : option jsval :=
  match writes with
  | [] => None
  | (path, content) :: rest =>
      match lastWritten filePath rest with
      | Some later => Some later
      | None => if String.eqb path filePath then Some content else None
      end
  end.

(** The fragments a run evaluates, in load order: the files of the load
    order that exist. *)
Definition loadedScripts (p : Project) (order : list string) : list Script :=
  omap (fun file => files p !! file) order.

Definition isHttpRequest (a : action) : bool :=
  match a with HttpRequest _ => true | _ => false end.

Definition isStorageCall (a : action) : bool :=
  match a with StorageWriteFile _ _ | StorageReadFile _ => true | _ => false end.


(** [jsonHttpRequest();] and [httpRequest();]: a call of a request function
    that passes no config object. *)
Definition callsRequestFunction (a : action) : bool :=
  match a with
  | CallFunction name => String.eqb name "jsonHttpRequest" || String.eqb name "httpRequest"
  | _ => false
  end.

(** Every request of the fragment passes a config object. *)
Definition passesConfig (script : Script) : bool :=
  forallb (fun a => negb (callsRequestFunction a)) script.

(** The request functions are bound under their two names only, and the
    counter of requests is ahead of the log by as much as [counted] is ahead
    of [logged0]. *)
Definition balanced (counted logged0 : nat) (w : World) : Prop :=
  (forall name, globals w !! name = Some BRequest ->
                callsRequestFunction (CallFunction name) = true)
  /\ Stats.httpRequests (stats (simulator w)) + logged0
     = List.length (httpRequests (simulator w)) + counted.

(** The method and the address a [jsonHttpRequest] call is logged with, and
    those of the calls in the top-level code of a fragment, in order. *)
Definition requestOf (a : action) : option (string * string) :=
  match a with
  | HttpRequest config =>
      Some (orDefault (HttpConfig.method config) "GET", HttpConfig.url config)
  | _ => None
  end.

Definition requested (script : Script) : list (string * string) :=
  omap requestOf script.

Definition logged (r : Request.t) : string * string :=
  (Request.method r, Request.url r).

(** The path and the content of each [Storage.writeFile] call in the
    top-level code of a fragment, in order. *)
Definition writeOf (a : action) : option (string * jsval) :=
  match a with
  | StorageWriteFile path content => Some (path, content)
  | _ => None
  end.

Definition writesOf (script : Script) : list (string * jsval) :=
  omap writeOf script.


(** The number of host calls of a kind in the top-level code of the
    fragments. *)
Definition countCalls (kind : action -> bool) (scripts : list Script) : nat :=
  List.length (List.filter kind (concat scripts)).



(** Modelled from the spec: the library part of the Assembler's load order;
    the Assembler itself ([core/src/commands/build.js]) is not among the
    sources. It applies the Fragment Sorter to every file under the library
    directory, using the project's explicit order if present; a project
    without one has no explicit order. *)
Definition assemblerLibraryOrder (localeCompare : string -> string -> Z)
    (libraryFiles : list string) (explicitOrder : option (list string))
    : list string :=
  Sorting.sortLibraryFilesWithDependencies localeCompare libraryFiles explicitOrder.

End Engine.

(** ** core/src/utils/workspace.js *)

Module Workspace.

(** The values [JSON.parse] returns. Numbers are taken as integers: a number
    is only tested for being zero and copied. *)
#[warnings="-register-all"] Inductive json : Type :=
| JsonNull
| JsonBool (b : bool)
| JsonNumber (n : Z)
| JsonString (s : string)
| JsonArray (items : list json)
| JsonObject (fields : gmap string json).

(** ToBoolean on such a value: arrays and objects are truthy. *)
Definition truthyJson (v : json) : bool :=
  match v with
  | JsonNull => false
  | JsonBool b => b
  | JsonNumber n => negb (n =? 0)%Z
  | JsonString s => negb (String.eqb s "")
  | JsonArray _ | JsonObject _ => true
  end.

(** The own enumerable properties of a value, as object spread copies them:
    the fields of an object, the elements of an array and the characters of
    a string under their indices, nothing for the other values. *)
Definition ownProperties (v : json) : gmap string json :=
  match v with
  | JsonObject fields => fields
  | JsonArray items => list_to_map (imap (fun i item => (pretty i, item)) items)
  | JsonString s =>
      list_to_map
        (imap (fun i c => (pretty i, JsonString (String c ""))) (list_ascii_of_string s))
  | _ => ∅
  end.

(** *** Paths

    An absolute, normalized path, which is what [process.cwd()] returns and
    what [dirname] and [join] keep, is the list of its names from the root
    of the file system down; the root is the empty list. *)
Abbreviation path := (list string).

(** [dirname(p)]: the root is its own parent. *)
Definition dirname (p : path) : path := removelast p.

(** [join(base, ...names)] on POSIX: the names are cut at the separators,
    then empty names and [.] are dropped and [..] steps to the parent. *)
Definition joinSegment (p : path) (segment : string) : path :=
  if String.eqb segment "" || String.eqb segment "." then p
  else if String.eqb segment ".." then dirname p
  else p ++ [segment].

Definition join (base : path) (names : list string) : path :=
  fold_left joinSegment (flat_map (Validation.split "/") names) base.

(** The path as a string. *)
Definition pathString (p : path) : string :=
  match p with
  | [] => "/"
  | _ => fold_right (fun name rest => ("/" ++ name ++ rest)%string) "" p
  end.

(** *** The file system, as [fs] answers *)

(** [stat.isDirectory()] *)
Inductive kind : Type :=
| IsFile
| IsDirectory.

(** An entry of [readdir(dir, { withFileTypes: true })]. *)
Module Dirent.
Record t := make { name : string; isDirectory : bool }.
End Dirent.

Record FileSystem := {
  (* [fs.stat(p)], rejected with the message of the host when it fails *)
  stat : path -> Engine.promise kind;
  (* [JSON.parse(await fs.readFile(p, 'utf8'))]; [None] when either throws *)
  readJson : path -> option json;
  (* [fs.readdir(p, { withFileTypes: true })]; [None] when it throws *)
  readdir : path -> option (list Dirent.t)
}.

(** [try { ... } catch (err) { ... }] around an awaited computation. *)
Definition tryCatch {A : Type} (attempt : Engine.promise A)
    (handler : string -> Engine.promise A) : Engine.promise A :=
  match attempt with
  | Engine.Resolved value => Engine.Resolved value
  | Engine.Rejected reason => handler reason
  end.

(** *** findWorkspaceRoot *)

(** The body of the [try] in the loop of [findWorkspaceRoot]: whether
    [package.json] in [current] is read, parsed, and has a truthy
    [workspaces]. Reading [workspaces] off [null] throws, which the [catch]
    swallows like a failed read; off any other value that is not an object
    with that field it gives [undefined]. *)
Definition hasWorkspaces (fs : FileSystem) (current : path) : bool :=
  match readJson fs (join current ["package.json"]) with
  | Some (JsonObject fields) =>
      match fields !! "workspaces" with
      | Some workspaces => truthyJson workspaces
      | None => false
      end
  | _ => false
  end.

(** The [while] loop, with the number of rounds it is allowed. *)
Fixpoint searchUpward (fs : FileSystem) (rounds : nat) (current : path)
    : Engine.promise path :=
  match rounds with
  | O => Engine.Rejected "Workspace root not found. Make sure you are in a Vocalls workspace."
  | S rounds' =>
      if bool_decide (current = dirname current)
      then Engine.Rejected
             "Workspace root not found. Make sure you are in a Vocalls workspace."
      else if hasWorkspaces fs current then Engine.Resolved current
      else searchUpward fs rounds' (dirname current)
  end.

(** [cwd] is [process.cwd()]. Each round of the loop that does not return
    shortens the path by one name, so one round more than the path has names
    is all the loop can use. *)
Definition findWorkspaceRoot (fs : FileSystem) (cwd : path) : Engine.promise path :=
  searchUpward fs (S (List.length cwd)) cwd.

(** *** findProject *)

Definition findProject (fs : FileSystem) (cwd : path) (projectName : string)
    : Engine.promise path :=
  match findWorkspaceRoot fs cwd with
  | Engine.Rejected reason => Engine.Rejected reason
  | Engine.Resolved workspaceRoot =>
      let projectPath := join workspaceRoot ["projects"; projectName] in
      tryCatch
        (match stat fs projectPath with
         | Engine.Rejected reason => Engine.Rejected reason
         | Engine.Resolved IsDirectory => Engine.Resolved projectPath
         | Engine.Resolved IsFile =>
             Engine.Rejected ("Project " ++ projectName ++ " is not a directory")
         end)
        (fun _ => Engine.Rejected ("Project not found: " ++ projectName))
  end.

(** *** listAllProjects *)

Definition listAllProjects (fs : FileSystem) (cwd : path)
    : Engine.promise (list string) :=
  match findWorkspaceRoot fs cwd with
  | Engine.Rejected reason => Engine.Rejected reason
  | Engine.Resolved workspaceRoot =>
      let projectsDir := join workspaceRoot ["projects"] in
      match readdir fs projectsDir with
      | Some entries =>
          Engine.Resolved
            (map Dirent.name
               (List.filter
                  (fun entry =>
                     Dirent.isDirectory entry && negb (startsWith (Dirent.name entry) "."))
                  entries))
      | None => Engine.Resolved []
      end
  end.

(** *** getProjectInfo *)

(** The object literal [config] starts as. *)
Definition defaultInfo (projectName : string) : gmap string json :=
  <["name" := JsonString projectName]>
    (<["customer" := JsonString "Unknown"]>
       (<["description" := JsonString ""]>
          (<["version" := JsonString "1.0.0"]> ∅))).

(** In [{ ...a, ...b }] the properties of [b] win; the union of maps
    prefers its left argument. *)
Definition getProjectInfo (fs : FileSystem) (cwd : path) (projectName : string)
    : Engine.promise (gmap string json) :=
  match findProject fs cwd projectName with
  | Engine.Rejected reason => Engine.Rejected reason
  | Engine.Resolved projectPath =>
      let configPath := join projectPath ["project.json"] in
      let config :=
        match readJson fs configPath with
        | Some parsed => ownProperties parsed ∪ defaultInfo projectName
        | None => defaultInfo projectName
        end in
      Engine.Resolved (<["path" := JsonString (pathString projectPath)]> config)
  end.

(** A name that [join] appends as it is: not empty, without separator, and
    neither [.] nor [..]. *)
Fixpoint hasSeparator (s : string) : bool :=
  match s with
  | EmptyString => false
  | String c s' => Ascii.eqb c "/" || hasSeparator s'
  end.

Definition plainName (s : string) : bool :=
  negb (String.eqb s "") && negb (String.eqb s ".") && negb (String.eqb s "..")
  && negb (hasSeparator s).

End Workspace.

(** ** core/src/commands/simulate.js *)

Module Simulate.

(** The options of the [sim] command. *)
Module Options.
Record t := make {
  script : option string;
  env : option string;
  mode : option string;
  storage : option string
}.
End Options.

(** [simulateProject(projectName, options)]: [disk] gives, for the path of a
    project, what the simulator finds there; [now] is the clock when
    [execute] starts. Console output is not modelled; the error caught is
    thrown again as it is. *)
Definition simulateProject (fs : Workspace.FileSystem) (cwd : Workspace.path)
    (disk : Workspace.path -> Engine.Project)
    (projectName : string) (options : Options.t) (now : N) : Engine.outcome :=
  match Workspace.findProject fs cwd projectName with
  | Engine.Rejected reason => Engine.Failed reason
  | Engine.Resolved projectPath =>
      match Workspace.getProjectInfo fs cwd projectName with
      | Engine.Rejected reason => Engine.Failed reason
      | Engine.Resolved projectInfo =>
          let simulator :=
            Engine.newSimulator
              (Engine.Options.make (Options.mode options) (Options.storage options)
                 (Options.env options)) in
          fst (fst (Engine.execute (disk projectPath) simulator now))
      end
  end.

End Simulate.

(** * Properties *)

(** ** The Fragment Sorter *)

Section SortingFacts.
Import Sorting.

Lemma insertSorted_perm {A} (cmp : A -> A -> Z) (x : A) (l : list A) :
  Permutation (insertSorted cmp x l) (x :: l).
Proof.
  induction l as [|y l IH]; simpl.
  - apply Permutation_refl.
  - destruct (cmp x y <=? 0)%Z.
    + apply Permutation_refl.
    + eapply perm_trans; [apply perm_skip, IH | apply perm_swap].
Qed.

Lemma arraySort_perm {A} (cmp : A -> A -> Z) (l : list A) :
  Permutation (arraySort cmp l) l.
Proof.
  induction l as [|x l IH]; simpl.
  - apply perm_nil.
  - eapply perm_trans; [apply insertSorted_perm | apply perm_skip, IH].
Qed.

Lemma sortLibraryFiles_perm lc (files : list string) :
  Permutation (sortLibraryFiles lc files) files.
Proof. apply arraySort_perm. Qed.

Lemma arraySort_Forall {A} (cmp : A -> A -> Z) (P : A -> Prop) (l : list A) :
  List.Forall P l -> List.Forall P (arraySort cmp l).
Proof.
  intros H. rewrite List.Forall_forall in *. intros x Hx.
  apply H. apply (Permutation_in x (arraySort_perm cmp l) Hx).
Qed.

(** Among names that do not begin with a digit the comparator is the
    collation. *)
Lemma insertSorted_collation lc (x : string) (l : list string) :
  startsWithNumber x = false ->
  List.Forall (fun y => startsWithNumber y = false) l ->
  insertSorted (compareLibraryFiles lc) x l = insertSorted lc x l.
Proof.
  intros Hx Hl. induction Hl as [|y l Hy Hl IH]; [reflexivity|].
  cbn [insertSorted]. unfold compareLibraryFiles at 1. rewrite Hx, Hy.
  cbn [andb negb]. now rewrite IH.
Qed.

(** Inserting into an array made of the names with a leading digit followed
    by the other names keeps that shape. *)
Lemma insertSorted_two_tier lc (x : string) (numbered others : list string) :
  List.Forall (fun y => startsWithNumber y = true) numbered ->
  List.Forall (fun y => startsWithNumber y = false) others ->
  insertSorted (compareLibraryFiles lc) x (numbered ++ others)
  = if startsWithNumber x
    then insertSorted compareLeadingNumbers x numbered ++ others
    else numbered ++ insertSorted lc x others.
Proof.
  intros Hn Ho. induction Hn as [|y numbered Hy Hn IH].
  - cbn [app]. destruct (startsWithNumber x) eqn:Hx.
    + destruct Ho as [|z others Hz Ho]; [reflexivity|].
      cbn [insertSorted]. unfold compareLibraryFiles. rewrite Hx, Hz. reflexivity.
    + now apply insertSorted_collation.
  - cbn [app insertSorted]. unfold compareLibraryFiles at 1. rewrite Hy.
    destruct (startsWithNumber x) eqn:Hx; cbn [andb negb].
    + fold (leadingNumber x) (leadingNumber y).
      change (leadingNumber x - leadingNumber y)%Z with (compareLeadingNumbers x y).
      destruct (compareLeadingNumbers x y <=? 0)%Z; [reflexivity|].
      rewrite IH. reflexivity.
    + rewrite IH. reflexivity.
Qed.

(** The fallback rule: the names with a leading digit, in the order of
    their leading numbers, and then the other names, in the order of the
    collation. *)
Lemma sortLibraryFiles_two_tier lc (files : list string) :
  sortLibraryFiles lc files
  = arraySort compareLeadingNumbers (List.filter startsWithNumber files)
    ++ arraySort lc (List.filter (fun a => negb (startsWithNumber a)) files).
Proof.
  unfold sortLibraryFiles.
  induction files as [|x files IH]; [reflexivity|].
  cbn [arraySort fold_right List.filter].
  change (fold_right (insertSorted (compareLibraryFiles lc)) [] files)
    with (arraySort (compareLibraryFiles lc) files).
  rewrite IH, insertSorted_two_tier.
  - destruct (startsWithNumber x); reflexivity.
  - apply arraySort_Forall, List.Forall_forall. intros y Hy.
    now apply filter_In in Hy.
  - apply arraySort_Forall, List.Forall_forall. intros y Hy.
    apply filter_In in Hy. now apply negb_true_iff.
Qed.

(** The leading numbers of the first tier ascend. *)
Lemma insertSorted_ascending (x : string) (l : list string) :
  Sorted (fun a b => (leadingNumber a <= leadingNumber b)%Z) l ->
  Sorted (fun a b => (leadingNumber a <= leadingNumber b)%Z)
    (insertSorted compareLeadingNumbers x l).
Proof.
  induction l as [|y l IH]; intros Hl; cbn [insertSorted].
  - repeat constructor.
  - unfold compareLeadingNumbers at 1.
    destruct (Z.leb_spec (leadingNumber x - leadingNumber y) 0) as [Hle|Hgt].
    + constructor; [exact Hl | constructor; lia].
    + inversion Hl as [|? ? Hl' Hhd]; subst.
      constructor; [now apply IH|].
      destruct l as [|z l]; cbn [insertSorted].
      * constructor. lia.
      * unfold compareLeadingNumbers at 1.
        destruct (leadingNumber x - leadingNumber z <=? 0)%Z;
          constructor; [lia | now inversion Hhd].
Qed.

Lemma arraySort_ascending (l : list string) :
  Sorted (fun a b => (leadingNumber a <= leadingNumber b)%Z)
    (arraySort compareLeadingNumbers l).
Proof.
  induction l as [|x l IH]; cbn [arraySort fold_right]; [constructor|].
  now apply insertSorted_ascending.
Qed.

End SortingFacts.

(** Leading numbers are Numbers of the host: from 2^53 on, neighbouring
    integers parse to one value, so that such names tie and keep the order
    they came in. *)
Lemma leading_numbers_beyond_safe_integers :
  Sorting.parseInt10 "9007199254740993" = 9007199254740992%Z
  /\ Sorting.sortLibraryFiles Sorting.codeUnitCompare
       ["9007199254740993-a.js"; "9007199254740992-b.js"]
     = ["9007199254740993-a.js"; "9007199254740992-b.js"].
Proof. split; vm_compute; reflexivity. Qed.

(** C3. With an empty explicit order, the five names of the example come out
    as 1-first.js, 2-second.js, 10-tenth.js, alpha.js, beta.js; of the host's
    collation nothing is used but that it puts alpha.js before beta.js. In
    general, with an empty explicit order the result is the names that begin
    with a digit, by ascending value of their leading digits, followed by
    the other names as the collation sorts them. *)
Theorem C3_order_example (localeCompare : string -> string -> Z) :
  (localeCompare "alpha.js" "beta.js" < 0)%Z ->
  (0 < localeCompare "beta.js" "alpha.js")%Z ->
  Sorting.sortLibraryFilesWithDependencies localeCompare
    ["10-tenth.js"; "2-second.js"; "1-first.js"; "alpha.js"; "beta.js"] (Some [])
  = ["1-first.js"; "2-second.js"; "10-tenth.js"; "alpha.js"; "beta.js"]
  /\ (forall files : list string,
        Sorting.sortLibraryFilesWithDependencies localeCompare files (Some [])
        = Sorting.arraySort Sorting.compareLeadingNumbers
            (List.filter Sorting.startsWithNumber files)
          ++ Sorting.arraySort localeCompare
               (List.filter (fun a => negb (Sorting.startsWithNumber a)) files))
  /\ (forall files : list string,
        Sorted (fun a b => (Sorting.leadingNumber a <= Sorting.leadingNumber b)%Z)
          (Sorting.arraySort Sorting.compareLeadingNumbers
             (List.filter Sorting.startsWithNumber files))).
Proof.
  intros Hab _. split; [|split].
  - assert (E : Sorting.compareLibraryFiles localeCompare "alpha.js" "beta.js"
                = localeCompare "alpha.js" "beta.js") by reflexivity.
    cbn -[Z.leb Sorting.compareLibraryFiles].
    rewrite E.
    destruct (Z.leb_spec (localeCompare "alpha.js" "beta.js") 0) as [_|Hgt]; [|lia].
    reflexivity.
  - intros files. apply sortLibraryFiles_two_tier.
  - intros files. apply arraySort_ascending.
Qed.

(** The example at a sample collation. *)
Lemma C3_order_example_witness :
  (Sorting.codeUnitCompare "alpha.js" "beta.js" < 0)%Z
  /\ (0 < Sorting.codeUnitCompare "beta.js" "alpha.js")%Z
  /\ Sorting.sortLibraryFilesWithDependencies Sorting.codeUnitCompare
       ["10-tenth.js"; "2-second.js"; "1-first.js"; "alpha.js"; "beta.js"] (Some [])
     = ["1-first.js"; "2-second.js"; "10-tenth.js"; "alpha.js"; "beta.js"].
Proof.
  assert (H1 : (Sorting.codeUnitCompare "alpha.js" "beta.js" < 0)%Z) by reflexivity.
  assert (H2 : (0 < Sorting.codeUnitCompare "beta.js" "alpha.js")%Z) by reflexivity.
  split; [exact H1|]. split; [exact H2|].
  exact (proj1 (C3_order_example Sorting.codeUnitCompare H1 H2)).
Defined.

Section OrderMembers.
Import Sorting.

Lemma includes_In (l : list string) (x : string) :
  includes l x = true <-> In x l.
Proof.
  unfold includes. rewrite existsb_exists. split.
  - intros (y & Hy & E). apply String.eqb_eq in E. now subst.
  - intros H. exists x. split; [assumption | apply String.eqb_refl].
Qed.

Lemma filter_not_includes_nil (files : list string) :
  List.filter (fun file => negb (includes [] file)) files = files.
Proof.
  induction files as [|f files IH]; [reflexivity|].
  cbn [List.filter]. rewrite IH. reflexivity.
Qed.

(** The list of which the result is a rearrangement. *)
Lemma order_perm_general lc (files : list string) (explicit : option (list string)) :
  Permutation
    (sortLibraryFilesWithDependencies lc files explicit)
    (default [] explicit
       ++ List.filter (fun file => negb (includes (default [] explicit) file)) files).
Proof.
  destruct explicit as [[|o order]|]; unfold sortLibraryFilesWithDependencies;
    cbn [default from_option id List.length Nat.ltb Nat.leb app].
  - rewrite filter_not_includes_nil. apply sortLibraryFiles_perm.
  - apply perm_skip, Permutation_app_head, sortLibraryFiles_perm.
  - rewrite filter_not_includes_nil. apply sortLibraryFiles_perm.
Qed.

End OrderMembers.

(** C7, counterexample. With files [a.js] and explicit order [b.js] the
    result is [b.js; a.js]: it holds a name that is no input file name, and
    is no permutation of the input. *)
Lemma C7_counterexample :
  Sorting.sortLibraryFilesWithDependencies Sorting.codeUnitCompare ["a.js"] (Some ["b.js"])
    = ["b.js"; "a.js"]
  /\ ~ Permutation
        (Sorting.sortLibraryFilesWithDependencies Sorting.codeUnitCompare
           ["a.js"] (Some ["b.js"]))
        ["a.js"].
Proof.
  split; [reflexivity|].
  intros H. apply Permutation_length in H. discriminate H.
Qed.

(** C7, amended. The result is a permutation of the explicit order followed
    by the input names the explicit order does not mention (of the input
    itself when the explicit order is empty or absent). So every input name
    appears in the result, and every name of the result is an input name or
    a name of the explicit order. *)
Theorem C7_order_members (localeCompare : string -> string -> Z)
    (files : list string) (explicit : option (list string)) :
  let result := Sorting.sortLibraryFilesWithDependencies localeCompare files explicit in
  let named := default [] explicit in
  Permutation result
    (named ++ List.filter (fun file => negb (Sorting.includes named file)) files)
  /\ incl files result
  /\ incl result (named ++ files).
Proof.
  intros result named.
  pose proof (order_perm_general localeCompare files explicit) as HP.
  fold result named in HP.
  split; [exact HP|]. split.
  - intros x Hx. apply (Permutation_in x (Permutation_sym HP)).
    apply in_or_app.
    destruct (Sorting.includes named x) eqn:E.
    + left. now apply includes_In.
    + right. apply filter_In. split; [assumption | now rewrite E].
  - intros x Hx. apply (Permutation_in x HP) in Hx.
    apply in_app_or in Hx. apply in_or_app.
    destruct Hx as [Hx|Hx]; [now left | right].
    apply filter_In in Hx. tauto.
Qed.

(** With distinct input names and an explicit order that lists input names
    only, each once, the result is a permutation of the input. *)
Lemma order_perm_of_input (localeCompare : string -> string -> Z)
    (files : list string) (explicit : option (list string)) :
  List.NoDup files ->
  List.NoDup (default [] explicit) ->
  incl (default [] explicit) files ->
  Permutation (Sorting.sortLibraryFilesWithDependencies localeCompare files explicit) files.
Proof.
  intros Hf Hn Hincl.
  eapply perm_trans; [apply order_perm_general|].
  set (named := default [] explicit) in *.
  apply Permutation.NoDup_Permutation; [| assumption |].
  - apply List.NoDup_app; [assumption | now apply List.NoDup_filter |].
    intros x Hx Hx'. apply filter_In in Hx'. destruct Hx' as [_ Hx'].
    apply includes_In in Hx. rewrite Hx in Hx'. discriminate.
  - intros x. rewrite in_app_iff, filter_In. split.
    + intros [Hx|[Hx _]]; [now apply Hincl | assumption].
    + intros Hx. destruct (Sorting.includes named x) eqn:E.
      * left. now apply includes_In.
      * right. split; [assumption | reflexivity].
Qed.

(** ** The Fragment Sorter and its arguments *)

Section ArrayObjects.
Import Sorting.

Lemma fresh_not_bound (h : store) : h !! fresh (dom h) = None.
Proof. apply not_elem_of_dom, is_fresh. Qed.

Lemma readArray_alter (f : list string -> list string) (h : store) (i : nat) :
  f [] = [] -> readArray i (alter f i h) = f (readArray i h).
Proof.
  intros Hf. unfold readArray. rewrite lookup_alter_eq.
  destruct (h !! i); cbn; [reflexivity | now rewrite Hf].
Qed.

End ArrayObjects.

(** C8, at the failing input. Called with no explicit order on an array
    that holds [2-b.js; 1-a.js], the sorter returns that very array, now
    holding [1-a.js; 2-b.js]: its argument is changed. Called on the same
    array with the explicit order [2-b.js], the sibling path, it returns a
    new array and leaves the array of file names as it was. *)
Lemma C8_fallback_sorts_argument :
  let h : Sorting.store := {[ 0 := ["2-b.js"; "1-a.js"]; 1 := ["2-b.js"] ]} in
  (let '(r, h') :=
     Sorting.sortLibraryFilesWithDependenciesRef Sorting.codeUnitCompare 0 None h in
   r = 0
   /\ Sorting.readArray 0 h = ["2-b.js"; "1-a.js"]
   /\ Sorting.readArray 0 h' = ["1-a.js"; "2-b.js"]
   /\ Sorting.readArray 0 h' <> Sorting.readArray 0 h)
  /\ (let '(r, h') :=
        Sorting.sortLibraryFilesWithDependenciesRef Sorting.codeUnitCompare 0 (Some 1) h in
      r <> 0
      /\ Sorting.readArray r h' = ["2-b.js"; "1-a.js"]
      /\ Sorting.readArray 0 h' = Sorting.readArray 0 h).
Proof.
  vm_compute. repeat split; discriminate.
Qed.

(** ** The library order of the Simulation Session *)

(** C1, at the failing inputs. A library directory holds 10-tenth.js,
    2-second.js and 1-first.js. With [libraryOrder: []] in project.json the
    simulator loads no library at all, and with no [libraryOrder] there it
    loads them in code-unit order 1-first.js, 10-tenth.js, 2-second.js; with
    an explicit order naming 2-second.js alone it loads that one file. The
    Assembler's order is 1-first.js, 2-second.js, 10-tenth.js in the first
    two cases and 2-second.js, 1-first.js, 10-tenth.js in the third. Without
    a readable project.json the simulator again loads no library. *)
Theorem C1_library_order_diverges (localeCompare : string -> string -> Z) :
  let names := ["10-tenth.js"; "2-second.js"; "1-first.js"] in
  let project config :=
    {| Engine.files := ∅; Engine.libsDir := Engine.Listing names;
       Engine.projectJson := config |} in
  (Engine.libraryLoadOrder (project (Some (Engine.Config.make (Some [])))) = []
   /\ Engine.assemblerLibraryOrder localeCompare names (Some [])
      = ["1-first.js"; "2-second.js"; "10-tenth.js"])
  /\ (Engine.libraryLoadOrder (project (Some (Engine.Config.make None)))
      = ["1-first.js"; "10-tenth.js"; "2-second.js"]
      /\ Engine.assemblerLibraryOrder localeCompare names None
         = ["1-first.js"; "2-second.js"; "10-tenth.js"])
  /\ (Engine.libraryLoadOrder (project (Some (Engine.Config.make (Some ["2-second.js"]))))
      = ["2-second.js"]
      /\ Engine.assemblerLibraryOrder localeCompare names (Some ["2-second.js"])
         = ["2-second.js"; "1-first.js"; "10-tenth.js"])
  /\ Engine.libraryLoadOrder (project None) = [].
Proof.
  cbv zeta. repeat split; reflexivity.
Qed.

(** ** The Dialect Compliance Scanner *)

Section ScannerFacts.
Import Validation.

Lemma makeViolation_fields index msg line :
  dom (makeViolation index msg line) = ({["line"; "message"; "snippet"]} : gset string)
  /\ makeViolation index msg line !! "ruleId" = None
  /\ makeViolation index msg line !! "line" = Some (JNum (Z.of_nat index + 1))
  /\ makeViolation index msg line !! "message" = Some (JStr msg)
  /\ makeViolation index msg line !! "snippet" = Some (JStr (trim line)).
Proof.
  unfold makeViolation. split; [|split; [|split; [|split]]].
  - rewrite !dom_insert_L, dom_empty_L. set_solver.
  - rewrite !lookup_insert_ne by discriminate. apply lookup_empty.
  - apply lookup_insert_eq.
  - rewrite lookup_insert_ne by discriminate. apply lookup_insert_eq.
  - rewrite !lookup_insert_ne by discriminate. apply lookup_insert_eq.
Qed.

(** *** What the scanner returns, line by line *)

Lemma scanLine_matching index line (violations : list Violation) :
  scanLine index line violations
  = violations
      ++ map (fun rule => makeViolation index (message rule) line) (matchingRules line).
Proof.
  unfold scanLine, matchingRules.
  generalize forbiddenPatterns as rules. intros rules. revert violations.
  induction rules as [|rule rules IH]; intros vs; cbn [fold_left List.filter map].
  - now rewrite app_nil_r.
  - rewrite IH. destruct (test (pattern rule) (cleanLine line)); [|reflexivity].
    cbn [map]. now rewrite <- app_assoc.
Qed.

(** *** Text without backslashes *)

Lemma append_nil_r (s : string) : (s ++ "")%string = s.
Proof.
  induction s as [|c s IH]; [reflexivity|].
  change (String c (s ++ "") = String c s). now rewrite IH.
Qed.

Lemma append_assoc (a b c : string) : ((a ++ b) ++ c)%string = (a ++ (b ++ c))%string.
Proof.
  induction a as [|x a IH]; [reflexivity|].
  change (String x ((a ++ b) ++ c) = String x (a ++ (b ++ c))). now rewrite IH.
Qed.

Lemma dropPrefix_Some (p s rest : string) :
  dropPrefix p s = Some rest -> s = (p ++ rest)%string.
Proof.
  revert s. induction p as [|a p IH]; intros s H.
  - cbn in H. now injection H as ->.
  - destruct s as [|b s]; cbn [dropPrefix] in H; [discriminate|].
    destruct (Ascii.eqb a b) eqn:E; [|discriminate].
    apply Ascii.eqb_eq in E. subst b.
    change (String a s = String a (p ++ rest)%string). f_equal. now apply IH.
Qed.

Lemma noBackslash_app (a b : string) :
  noBackslash (a ++ b) = noBackslash a && noBackslash b.
Proof.
  induction a as [|c a IH]; [reflexivity|].
  change (noBackslash (String c (a ++ b)) = noBackslash (String c a) && noBackslash b).
  cbn [noBackslash]. now rewrite IH, andb_assoc.
Qed.

Lemma noBackslash_tail (c : ascii) (s : string) :
  noBackslash (String c s) = true ->
  Ascii.eqb c "\" = false /\ noBackslash s = true.
Proof.
  cbn. intros H. apply andb_prop in H as [H1 H2].
  split; [now apply negb_true_iff in H1 | exact H2].
Qed.

Lemma iterate_noBackslash m greedy k :
  (forall s k', noBackslash s = true ->
                (forall s', noBackslash s' = true -> k' s' = None) -> m s k' = None) ->
  (forall s', noBackslash s' = true -> k s' = None) ->
  forall fuel s, noBackslash s = true -> iterate m greedy k fuel s = None.
Proof.
  intros Hm Hk. induction fuel as [|fuel IH]; intros s Hs; cbn [iterate].
  - now apply Hk.
  - cbv zeta. rewrite (Hk s Hs), Hm; [now destruct greedy | exact Hs |].
    intros s' Hs'. destruct (_ <? _)%nat; [now apply IH | reflexivity].
Qed.

(** A pattern that needs a backslash matches nothing in a text without one;
    and whatever the pattern, nothing is matched when the continuation
    accepts no text without a backslash. *)
Lemma matchAt_noBackslash (r : regex) : forall (s : string) k,
  noBackslash s = true ->
  needsBackslash r = true \/ (forall s', noBackslash s' = true -> k s' = None) ->
  matchAt r s k = None.
Proof.
  induction r as [p|c| |negated members|r1 IH1 r2 IH2|r1 IH1 r2 IH2|r1 IH1
                  |greedy r1 IH1| ];
    intros s k Hs Hk; cbn [matchAt needsBackslash] in *.
  - destruct (dropPrefix p s) as [rest|] eqn:E; [|reflexivity].
    apply dropPrefix_Some in E. subst s. rewrite noBackslash_app in Hs.
    apply andb_prop in Hs as [Hp Hrest].
    destruct Hk as [Hk|Hk]; [now rewrite Hp in Hk | now apply Hk].
  - destruct s as [|x s]; [reflexivity|].
    apply noBackslash_tail in Hs as [Hx Hs].
    destruct (Ascii.eqb x c) eqn:E; [|reflexivity].
    apply Ascii.eqb_eq in E. subst x.
    destruct Hk as [Hk|Hk]; [congruence | now apply Hk].
  - destruct s as [|x s]; [reflexivity|].
    apply noBackslash_tail in Hs as [_ Hs].
    destruct (isLineTerminator x); [reflexivity|].
    destruct Hk as [Hk|Hk]; [discriminate | now apply Hk].
  - destruct s as [|x s]; [reflexivity|].
    apply noBackslash_tail in Hs as [_ Hs].
    destruct (xorb negated _); [|reflexivity].
    destruct Hk as [Hk|Hk]; [discriminate | now apply Hk].
  - apply IH1; [exact Hs|].
    destruct (needsBackslash r1); [now left | right].
    intros s' Hs'. apply IH2; [exact Hs'|].
    destruct Hk as [Hk|Hk]; [left; exact Hk | right; exact Hk].
  - rewrite IH1, IH2; try exact Hs; try reflexivity.
    + destruct Hk as [Hk|Hk]; [left | right; exact Hk].
      now apply andb_prop in Hk.
    + destruct Hk as [Hk|Hk]; [left | right; exact Hk].
      now apply andb_prop in Hk.
  - destruct Hk as [Hk|Hk]; [discriminate|].
    rewrite IH1; [now apply Hk | exact Hs | right].
    intros s' Hs'. destruct (_ <? _)%nat; [now apply Hk | reflexivity].
  - destruct Hk as [Hk|Hk]; [discriminate|].
    apply iterate_noBackslash; try assumption.
    intros s0 k0 Hs0 Hk0. apply IH1; [exact Hs0 | now right].
  - destruct Hk as [Hk|Hk]; [discriminate|].
    destruct s; [now apply Hk | reflexivity].
Qed.

Lemma matchPrefix_noBackslash (r : regex) (s : string) :
  needsBackslash r = true -> noBackslash s = true -> matchPrefix r s = None.
Proof. intros Hr Hs. apply matchAt_noBackslash; [exact Hs | now left]. Qed.

Lemma test_noBackslash (r : regex) (s : string) :
  needsBackslash r = true -> noBackslash s = true -> test r s = false.
Proof.
  intros Hr. induction s as [|c s IH]; intros Hs; cbn [test].
  - now rewrite matchPrefix_noBackslash.
  - rewrite matchPrefix_noBackslash by assumption.
    apply IH. now apply noBackslash_tail in Hs.
Qed.

Lemma replaceFirst_noBackslash (r : regex) (replacement s : string) :
  needsBackslash r = true -> noBackslash s = true ->
  replaceFirst r replacement s = s.
Proof.
  intros Hr. induction s as [|c s IH]; intros Hs; cbn [replaceFirst];
    rewrite matchPrefix_noBackslash by assumption; [reflexivity|].
  f_equal. apply IH. now apply noBackslash_tail in Hs.
Qed.

Lemma replaceAllFrom_noBackslash (r : regex) (replacement : string) (fuel : nat) :
  needsBackslash r = true ->
  forall s, noBackslash s = true -> replaceAllFrom fuel r replacement s = s.
Proof.
  intros Hr. induction fuel as [|fuel IH]; intros s Hs; cbn [replaceAllFrom];
    [reflexivity|].
  rewrite matchPrefix_noBackslash by assumption.
  destruct s as [|c s]; [reflexivity|].
  f_equal. apply IH. now apply noBackslash_tail in Hs.
Qed.

Lemma cleanLine_noBackslash (line : string) :
  noBackslash line = true -> cleanLine line = line.
Proof.
  intros H. unfold cleanLine, replaceAll.
  rewrite replaceAllFrom_noBackslash by (reflexivity || assumption).
  now apply replaceFirst_noBackslash.
Qed.

Lemma splitFrom_noBackslash (s : string) : forall piece,
  noBackslash s = true ->
  splitFrom lineSeparator 0 piece s = [(piece ++ s)%string].
Proof.
  induction s as [|c s IH]; intros piece Hs; cbn [splitFrom].
  - now rewrite append_nil_r.
  - apply noBackslash_tail in Hs as [Hc Hs].
    unfold lineSeparator at 1. cbn [dropPrefix].
    rewrite Ascii.eqb_sym, Hc.
    rewrite IH by exact Hs. now rewrite append_assoc.
Qed.

Lemma split_noBackslash (code : string) :
  noBackslash code = true -> split lineSeparator code = [code].
Proof. intros H. unfold split. now rewrite splitFrom_noBackslash. Qed.

Lemma filter_cons_true {A} (f : A -> bool) (x : A) (l : list A) :
  f x = true -> List.filter f (x :: l) = x :: List.filter f l.
Proof. intros H. cbn [List.filter]. now rewrite H. Qed.

Lemma filter_cons_false {A} (f : A -> bool) (x : A) (l : list A) :
  f x = false -> List.filter f (x :: l) = List.filter f l.
Proof. intros H. cbn [List.filter]. now rewrite H. Qed.

Lemma matchAt_Opt_Some (r : regex) (s : string) k :
  is_Some (k s) -> is_Some (matchAt (Opt r) s k).
Proof.
  intros H. cbn [matchAt]. destruct (matchAt r s _); [eauto | exact H].
Qed.

Lemma test_matchPrefix (r : regex) (s : string) :
  is_Some (matchPrefix r s) -> test r s = true.
Proof.
  intros [rest H]. destruct s; cbn [test]; now rewrite H.
Qed.

(** The pattern of the nullish rule, two optional backslashes, matches at
    the start of any text. *)
Lemma nullish_matches (s : string) :
  test (seq [Opt backslash; Opt backslash]) s = true.
Proof.
  apply test_matchPrefix. unfold matchPrefix, seq. cbn [fold_right].
  cbn [matchAt]. apply (matchAt_Opt_Some backslash s).
  apply (matchAt_Opt_Some backslash s). cbn [matchAt dropPrefix]. eauto.
Qed.

(** On a text without backslashes, which is what source text is unless it
    holds escapes, the scanner finds one line, reports the rule for nullish
    coalescing on it, reports the rule for template literals if the text has
    a pair of backquotes, and reports nothing else. *)
Lemma scan_without_backslash (code : string) :
  noBackslash code = true ->
  validateES51Compliance code
  = makeViolation 0 "nullish coalescing (??) not allowed in ES5.1" code
      :: (if test (seq [Chr "`"; Star true (Class true ["`"]%char); Chr "`"]) code
          then [makeViolation 0 "Template literals not allowed in ES5.1" code]
          else []).
Proof.
  intros H. unfold validateES51Compliance.
  rewrite split_noBackslash by exact H.
  cbn [forEachWithIndex].
  rewrite scanLine_matching. unfold matchingRules.
  rewrite cleanLine_noBackslash by exact H.
  unfold forbiddenPatterns.
  destruct (test (seq [Chr "`"; Star true (Class true ["`"]%char); Chr "`"]) code) eqn:Et;
    repeat first
      [ rewrite filter_cons_false
          by (cbn [pattern]; apply test_noBackslash; [reflexivity | exact H])
      | rewrite filter_cons_true
          by (cbn [pattern]; first [apply nullish_matches | exact Et])
      | rewrite filter_cons_false by (cbn [pattern]; exact Et) ];
    reflexivity.
Qed.

End ScannerFacts.

(** C2, at the failing input. The text has two lines, [var a = 1;] and
    [const x = 1;]. The scanner cuts a text at each backslash followed by
    the letter n, so it sees this text as one line; its rule for let and
    const asks for backslashes the text does not have; and its rule for
    nullish coalescing, two optional backslashes, matches anything. What it
    returns is one violation, of that rule, with line number 1: none carries
    the line number 2 of the const declaration. *)
Theorem C2_scan_misses_const_line :
  let lf := String "010"%char "" in
  let code := ("var a = 1;" ++ lf ++ "const x = 1;")%string in
  Validation.split lf code = ["var a = 1;"; "const x = 1;"]
  /\ Validation.validateES51Compliance code
     = [Validation.makeViolation 0 "nullish coalescing (??) not allowed in ES5.1" code]
  /\ Forall (fun v : Validation.Violation => v !! "line" <> Some (JNum 2))
       (Validation.validateES51Compliance code).
Proof.
  cbv zeta.
  assert (E : Validation.validateES51Compliance
                ("var a = 1;" ++ String "010"%char "" ++ "const x = 1;")
              = [Validation.makeViolation 0
                   "nullish coalescing (??) not allowed in ES5.1"
                   ("var a = 1;" ++ String "010"%char "" ++ "const x = 1;")])
    by (cbv -[Validation.makeViolation]; reflexivity).
  split; [reflexivity|]. split; [exact E|].
  rewrite E. constructor; [|constructor].
  destruct (makeViolation_fields 0 "nullish coalescing (??) not allowed in ES5.1"
              ("var a = 1;" ++ String "010"%char "" ++ "const x = 1;"))
    as (_ & _ & Hl & _).
  rewrite Hl. discriminate.
Qed.


(** ** The Platform Runtime Mock *)

(** C10. In memory mode, writing a string that is not empty under a key
    returns success without an error, reading the key back returns success
    with that very string as text and no error, and each of the two calls
    adds one to the count of storage operations. *)
Theorem C10_memory_write_then_read (sim : Engine.Simulator) (k v : string) :
  Engine.storageMode sim = "memory" ->
  v <> "" ->
  let '(written, sim1) := Engine.handleStorageWrite k (JStr v) sim in
  let '(read, sim2) := Engine.handleStorageRead k sim1 in
  written = Engine.WriteResult.make true None
  /\ read = Engine.ReadResult.make true (Some v) None
  /\ Engine.Stats.storageOps (Engine.stats sim1)
     = S (Engine.Stats.storageOps (Engine.stats sim))
  /\ Engine.Stats.storageOps (Engine.stats sim2)
     = S (Engine.Stats.storageOps (Engine.stats sim1)).
Proof.
  intros Hmode Hv.
  apply String.eqb_neq in Hv.
  destruct sim as [hm sm env st mem reqs]. cbn in Hmode. subst sm.
  unfold Engine.handleStorageWrite, Engine.handleStorageRead,
    Engine.withStats, Engine.withMemoryStorage.
  cbn [Engine.storageMode Engine.memoryStorage Engine.stats Engine.httpMode
       Engine.environment Engine.httpRequests String.eqb Ascii.eqb Bool.eqb].
  rewrite lookup_insert_eq.
  unfold jsOr, truthy, Engine.textOrNull. rewrite Hv. cbn [negb jsString]. rewrite Hv.
  repeat split.
Qed.

(** The same at a new simulator, key logs/call.json and text hello. *)
Lemma C10_memory_write_then_read_witness :
  let sim := Engine.newSimulator (Engine.Options.make None None None) in
  Engine.storageMode sim = "memory"
  /\ "hello" <> ""
  /\ let '(written, sim1) := Engine.handleStorageWrite "logs/call.json" (JStr "hello") sim in
     let '(read, sim2) := Engine.handleStorageRead "logs/call.json" sim1 in
     written = Engine.WriteResult.make true None
     /\ read = Engine.ReadResult.make true (Some "hello") None
     /\ Engine.Stats.storageOps (Engine.stats sim1)
        = S (Engine.Stats.storageOps (Engine.stats sim))
     /\ Engine.Stats.storageOps (Engine.stats sim2)
        = S (Engine.Stats.storageOps (Engine.stats sim1)).
Proof.
  intros sim.
  assert (Hm : Engine.storageMode sim = "memory") by reflexivity.
  assert (Hv : "hello" <> "") by discriminate.
  split; [exact Hm|]. split; [exact Hv|].
  exact (C10_memory_write_then_read sim "logs/call.json" "hello" Hm Hv).
Defined.

(** C6, amended. Outside stub mode every HTTP request a fragment makes is
    counted and logged and then refused: the promise returned is rejected
    with the error that real HTTP mode is not implemented, and no stub
    response is produced. It is the request that fails, when there is one;
    the mode alone does not fail the session. *)
Theorem C6_real_mode_rejects_requests
    (now : N) (config : Engine.HttpConfig.t) (sim : Engine.Simulator) :
  Engine.httpMode sim <> "stub" ->
  let '(response, sim') := Engine.handleHttpRequest now config sim in
  response = Engine.Rejected "Real HTTP mode not implemented in this demo"
  /\ Engine.Stats.httpRequests (Engine.stats sim')
     = S (Engine.Stats.httpRequests (Engine.stats sim))
  /\ exists request,
       Engine.httpRequests sim' = Engine.httpRequests sim ++ [request]
       /\ Engine.Request.url request = Engine.HttpConfig.url config.
Proof.
  intros Hmode. apply String.eqb_neq in Hmode.
  unfold Engine.handleHttpRequest.
  cbn [Engine.pushHttpRequest Engine.withStats Engine.httpMode].
  rewrite Hmode.
  split; [reflexivity|]. split; [reflexivity|].
  eexists. split; reflexivity.
Qed.

(** The same for a simulator made with httpMode real. *)
Lemma C6_real_mode_rejects_requests_witness :
  let sim := Engine.newSimulator (Engine.Options.make (Some "real") None None) in
  let config := Engine.HttpConfig.make None "https://api.example.com/x" JUndefined JUndefined in
  Engine.httpMode sim <> "stub"
  /\ let '(response, sim') := Engine.handleHttpRequest 0%N config sim in
     response = Engine.Rejected "Real HTTP mode not implemented in this demo"
     /\ Engine.Stats.httpRequests (Engine.stats sim')
        = S (Engine.Stats.httpRequests (Engine.stats sim))
     /\ exists request,
          Engine.httpRequests sim' = Engine.httpRequests sim ++ [request]
          /\ Engine.Request.url request = Engine.HttpConfig.url config.
Proof.
  intros sim config.
  assert (Hm : Engine.httpMode sim <> "stub") by discriminate.
  split; [exact Hm|].
  exact (C6_real_mode_rejects_requests 0%N config sim Hm).
Defined.

(** C6, counterexample. A session made with httpMode real, on a project
    whose one fragment declares a function and calls it, runs to its end and
    returns a report: one file loaded, and the mode recorded in the session
    variables. *)
Lemma C6_counterexample :
  let sim := Engine.newSimulator (Engine.Options.make (Some "real") None None) in
  let project :=
    {| Engine.files :=
         {[ "src/callScripts/main.js" :=
              [Engine.DeclareFunction "main"; Engine.CallFunction "main"] ]};
       Engine.libsDir := Engine.NoDirectory;
       Engine.projectJson := None |} in
  Engine.httpMode sim = "real"
  /\ exists report,
       (Engine.execute project sim 0%N).1.1 = Engine.Returned report
       /\ Engine.Report.filesLoaded report = 1
       /\ Engine.Report.sessionState report !! "SIMULATION_MODE" = Some (JStr "real").
Proof.
  cbv zeta. split; [reflexivity|].
  eexists. split; [vm_compute; reflexivity|]. split; reflexivity.
Qed.

(** ** The Sandbox Executor *)

Section RunFacts.
Import Engine.

Lemma step_frame (a : action) (w : World) :
  clock (step a w).2 = clock w /\ loaded (step a w).2 = loaded w.
Proof.
  destruct a; cbn [step];
    try (destruct (globals w !! name) as [[| | | | |]|]);
    (split; [reflexivity|]);
    unfold loaded, handleHttpRequest, handleStorageWrite, handleStorageRead;
    cbn [snd withSimulator withGlobals withSessionVariables simulator];
    repeat match goal with
           | |- context [if ?b then _ else _] => destruct b
           end;
    reflexivity.
Qed.

Lemma runStatements_frame (script : Script) : forall budget w,
  (clock w <= clock (runStatements budget script w).2)%N
  /\ (clock (runStatements budget script w).2 <= clock w + budget)%N
  /\ loaded (runStatements budget script w).2 = loaded w.
Proof.
  induction script as [|a script IH]; intros budget w.
  - cbn [runStatements snd]. repeat split; lia.
  - destruct a; cbn [runStatements];
      try (match goal with
           | |- context [step ?a w] =>
               pose proof (step_frame a w) as [Hc Hl];
               destruct (step a w) as [[|m] w1]; cbn [snd] in *;
               [ specialize (IH budget w1); rewrite Hc, Hl in IH; exact IH
               | rewrite Hc, Hl; repeat split; lia ]
           end).
    destruct (ms <=? budget)%N eqn:E.
    + apply N.leb_le in E.
      destruct (IH (budget - ms)%N (advanceClock ms w)) as (I1 & I2 & I3).
      change (clock (advanceClock ms w)) with (clock w + ms)%N in I1, I2.
      change (loaded (advanceClock ms w)) with (loaded w) in I3.
      repeat split; [lia | lia | exact I3].
    + cbn [snd].
      change (clock (advanceClock budget w)) with (clock w + budget)%N.
      change (loaded (advanceClock budget w)) with (loaded w).
      repeat split; lia.
Qed.

End RunFacts.

Section LoadFacts.
Import Engine.

Lemma runInNewContext_frame (script : Script) (timeout : N) (w : World) :
  (clock w <= clock (runInNewContext script timeout w).2)%N
  /\ (clock (runInNewContext script timeout w).2 <= clock w + timeout)%N
  /\ loaded (runInNewContext script timeout w).2 = loaded w.
Proof.
  unfold runInNewContext.
  apply (runStatements_frame script timeout (withGlobals (hoistAll script) w)).
Qed.

Lemma loadScripts_app (p : Project) (before after : list string) : forall w,
  loadScripts p (before ++ after) w
  = match loadScripts p before w with
    | (Normal, w') => loadScripts p after w'
    | (Thrown message, w') => (Thrown message, w')
    end.
Proof.
  induction before as [|file before IH]; intros w; cbn [app loadScripts].
  - reflexivity.
  - destruct (loadScript p file w) as [[|m] w1]; [apply IH | reflexivity].
Qed.





End LoadFacts.




(** ** One scope for all fragments of a run *)

Section ScopeFacts.
Import Engine.

Lemma loadScripts_missing (p : Project) (file : string) (rest : list string) (w : World) :
  files p !! file = None ->
  loadScripts p (file :: rest) w = loadScripts p rest w.
Proof. intros H. cbn [loadScripts]. unfold loadScript. now rewrite H. Qed.

Lemma loadScripts_normal (p : Project) (file : string) (rest : list string)
    (script : Script) (w w1 : World) :
  files p !! file = Some script ->
  runInNewContext script 5000%N w = (Normal, w1) ->
  loadScripts p (file :: rest) w
  = loadScripts p rest (withSimulator (withStats countFileLoaded) w1).
Proof. intros H R. cbn [loadScripts]. unfold loadScript. now rewrite H, R. Qed.

Lemma loadScripts_thrown (p : Project) (file : string) (rest : list string)
    (script : Script) (w w1 : World) (message : string) :
  files p !! file = Some script ->
  runInNewContext script 5000%N w = (Thrown message, w1) ->
  loadScripts p (file :: rest) w
  = (Thrown ("Error in " ++ file ++ ": " ++ message), w1).
Proof. intros H R. cbn [loadScripts]. unfold loadScript. now rewrite H, R. Qed.

Lemma hoist_keeps (a : action) (g : gmap string binding) (name : string) :
  is_Some (g !! name) -> is_Some (hoist a g !! name).
Proof.
  intros H. destruct a; cbn [hoist]; try assumption.
  - rewrite lookup_insert_is_Some. destruct (decide (name0 = name)); auto.
  - destruct (g !! name0); [assumption|].
    rewrite lookup_insert_is_Some. destruct (decide (name0 = name)); auto.
Qed.

Lemma hoistAll_keeps (script : Script) : forall (g : gmap string binding) (name : string),
  is_Some (g !! name) -> is_Some (hoistAll script g !! name).
Proof.
  unfold hoistAll. induction script as [|a script IH]; intros g name H; [exact H|].
  cbn [fold_left]. apply IH, hoist_keeps, H.
Qed.

Lemma hoistAll_declares (script : Script) : forall (g : gmap string binding) (name : string),
  declares name script -> is_Some (hoistAll script g !! name).
Proof.
  induction script as [|a script IH]; intros g name [H|[v H]];
    try (destruct H; fail).
  - destruct H as [->|H].
    + apply (hoistAll_keeps script). cbn [hoist]. rewrite lookup_insert_eq. eauto.
    + apply IH. now left.
  - destruct H as [->|H].
    + apply (hoistAll_keeps script). cbn [hoist].
      destruct (g !! name) eqn:E; [rewrite E; eauto | rewrite lookup_insert_eq; eauto].
    + apply IH. right. eauto.
Qed.

Lemma step_keeps (a : action) (w : World) (name : string) :
  is_Some (globals w !! name) -> is_Some (globals (step a w).2 !! name).
Proof.
  intros H. destruct a; cbn [step]; try exact H.
  - cbn [snd withGlobals globals]. rewrite lookup_insert_is_Some.
    destruct (decide (name0 = name)); auto.
  - destruct (globals w !! name0) as [[| | | | |]|]; exact H.
Qed.

Lemma runStatements_keeps (script : Script) : forall budget w (name : string),
  is_Some (globals w !! name) ->
  is_Some (globals (runStatements budget script w).2 !! name).
Proof.
  induction script as [|a script IH]; intros budget w name H; [exact H|].
  destruct a; cbn [runStatements];
    try (match goal with
         | |- context [step ?a w] =>
             pose proof (step_keeps a w name H) as Hs;
             destruct (step a w) as [[|m] w1]; cbn [snd] in *;
             [ now apply IH | exact Hs ]
         end).
  destruct (ms <=? budget)%N; [apply IH|]; exact H.
Qed.

Lemma loadScript_keeps (p : Project) (file : string) (w : World) (name : string) :
  is_Some (globals w !! name) ->
  is_Some (globals (loadScript p file w).2 !! name).
Proof.
  intros H. unfold loadScript. destruct (files p !! file) as [script|]; [|exact H].
  assert (K : is_Some (globals (runInNewContext script 5000%N w).2 !! name)).
  { apply runStatements_keeps. cbn [withGlobals globals]. now apply hoistAll_keeps. }
  destruct (runInNewContext script 5000%N w) as [[|m] w1]; exact K.
Qed.

Lemma loadScripts_keeps (p : Project) (order : list string) : forall w (name : string),
  is_Some (globals w !! name) ->
  is_Some (globals (loadScripts p order w).2 !! name).
Proof.
  induction order as [|file order IH]; intros w name H; [exact H|].
  cbn [loadScripts].
  pose proof (loadScript_keeps p file w name H) as K.
  destruct (loadScript p file w) as [[|m] w1]; [now apply IH | exact K].
Qed.

(** What a fragment declares is bound in the sandbox from then on, through
    every fragment loaded after it. *)
Lemma declarations_stay_visible (p : Project) (file : string) (rest : list string)
    (script : Script) (w : World) (name : string) :
  files p !! file = Some script ->
  declares name script ->
  is_Some (globals (loadScripts p (file :: rest) w).2 !! name).
Proof.
  intros Hf Hd. cbn [loadScripts].
  assert (K : is_Some (globals (loadScript p file w).2 !! name)).
  { unfold loadScript. rewrite Hf.
    assert (K : is_Some (globals (runInNewContext script 5000%N w).2 !! name)).
    { apply runStatements_keeps. cbn [withGlobals globals]. now apply hoistAll_declares. }
    destruct (runInNewContext script 5000%N w) as [[|m] w1]; exact K. }
  destruct (loadScript p file w) as [[|m] w1]; [now apply loadScripts_keeps | exact K].
Qed.

(** A statement that does not declare a name leaves its binding alone. *)
Lemma step_other (name : string) (a : action) (w : World) :
  declaresName name a = false ->
  globals (snd (step a w)) !! name = globals w !! name.
Proof.
  intros Ha.
  destruct a as [n|n value|n|key value|config|path content|path|ms|message];
    cbn [step]; try reflexivity.
  - cbn [declaresName] in Ha. apply String.eqb_neq in Ha.
    cbn [snd withGlobals globals]. now apply lookup_insert_ne.
  - destruct (globals w !! n) as [[| | | | |]|]; reflexivity.
Qed.

Lemma hoistAll_other (name : string) (script : Script) :
  forall g : gmap string binding,
    leavesName name script = true -> hoistAll script g !! name = g !! name.
Proof.
  unfold hoistAll.
  induction script as [|a script IH]; intros g Hl; [reflexivity|].
  cbn [leavesName forallb] in Hl. apply andb_true_iff in Hl as [Ha Hl].
  apply negb_true_iff in Ha. cbn [fold_left]. rewrite (IH _ Hl).
  destruct a as [n|n value|n|key value|config|path content|path|ms|message];
    cbn [hoist]; try reflexivity.
  - cbn [declaresName] in Ha. apply String.eqb_neq in Ha. now apply lookup_insert_ne.
  - cbn [declaresName] in Ha. apply String.eqb_neq in Ha.
    destruct (g !! n); [reflexivity | now apply lookup_insert_ne].
Qed.

Lemma runStatements_other (name : string) (script : Script) : forall budget w,
  leavesName name script = true ->
  globals (snd (runStatements budget script w)) !! name = globals w !! name.
Proof.
  induction script as [|a script IH]; intros budget w Hl; [reflexivity|].
  cbn [leavesName forallb] in Hl. apply andb_true_iff in Hl as [Ha Hl].
  apply negb_true_iff in Ha.
  destruct a; cbn [runStatements];
    try (match goal with
         | |- context [step ?a w] =>
             pose proof (step_other name a w Ha) as Hs;
             destruct (step a w) as [[|m] w1]; cbn [snd] in *;
             [ rewrite (IH budget w1 Hl); exact Hs | exact Hs ]
         end).
  destruct (ms <=? budget)%N.
  - apply (IH (budget - ms)%N (advanceClock ms w) Hl).
  - reflexivity.
Qed.

Lemma loadScripts_other (name : string) (p : Project) (order : list string) :
  forall w,
  (forall file script, In file order -> files p !! file = Some script ->
                       leavesName name script = true) ->
  globals (snd (loadScripts p order w)) !! name = globals w !! name.
Proof.
  induction order as [|file order IH]; intros w Hl; [reflexivity|].
  cbn [loadScripts]. unfold loadScript.
  assert (Hrest : forall f s, In f order -> files p !! f = Some s ->
                              leavesName name s = true)
    by (intros f s Hf; apply Hl; now right).
  destruct (files p !! file) as [script|] eqn:Hfile; [|exact (IH w Hrest)].
  pose proof (Hl file script (or_introl eq_refl) Hfile) as Hscript.
  pose proof (runStatements_other name script 5000%N
                (withGlobals (hoistAll script) w) Hscript) as Hrun.
  cbn [withGlobals globals] in Hrun. rewrite (hoistAll_other name script _ Hscript) in Hrun.
  unfold runInNewContext.
  destruct (runStatements 5000%N script (withGlobals (hoistAll script) w))
    as [[|m] w1]; cbn [snd] in *.
  - rewrite (IH _ Hrest). exact Hrun.
  - exact Hrun.
Qed.

(** The binding of a name that a fragment declares as a function only. *)
Lemma hoistAll_function (name : string) (script : Script) :
  forall g : gmap string binding,
    (forall a, In a script -> declaresName name a = true -> a = DeclareFunction name) ->
    g !! name = Some BFunction \/ In (DeclareFunction name) script ->
    hoistAll script g !! name = Some BFunction.
Proof.
  unfold hoistAll.
  induction script as [|a script IH]; intros g Hall Hd.
  - destruct Hd as [Hd|[]]. exact Hd.
  - cbn [fold_left]. apply IH.
    + intros a' Ha'. apply Hall. now right.
    + destruct (declaresName name a) eqn:Ea.
      * rewrite (Hall a (or_introl eq_refl) Ea). cbn [hoist]. left.
        apply lookup_insert_eq.
      * destruct Hd as [Hd|[Hd|Hd]].
        -- left.
           destruct a as [n|n value|n|key value|config|path content|path|ms|message];
             cbn [hoist]; try exact Hd.
           ++ cbn [declaresName] in Ea. apply String.eqb_neq in Ea.
              now rewrite lookup_insert_ne.
           ++ cbn [declaresName] in Ea. apply String.eqb_neq in Ea.
              destruct (g !! n); [exact Hd | now rewrite lookup_insert_ne].
        -- subst a. cbn [declaresName] in Ea. rewrite String.eqb_refl in Ea.
           discriminate.
        -- now right.
Qed.

Lemma runStatements_function (name : string) (script : Script) : forall budget w,
  (forall a, In a script -> declaresName name a = true -> a = DeclareFunction name) ->
  globals w !! name = Some BFunction ->
  globals (snd (runStatements budget script w)) !! name = Some BFunction.
Proof.
  induction script as [|a script IH]; intros budget w Hall Hw; [exact Hw|].
  assert (Hrest : forall a', In a' script -> declaresName name a' = true ->
                             a' = DeclareFunction name)
    by (intros a' Ha'; apply Hall; now right).
  assert (Hs : globals (snd (step a w)) !! name = Some BFunction).
  { destruct (declaresName name a) eqn:Ea.
    - rewrite (Hall a (or_introl eq_refl) Ea). exact Hw.
    - now rewrite (step_other name a w Ea). }
  destruct a; cbn [runStatements];
    try (match goal with
         | |- context [step ?a w] =>
             destruct (step a w) as [[|m] w1]; cbn [snd] in *;
             [ exact (IH budget w1 Hrest Hs) | exact Hs ]
         end).
  destruct (ms <=? budget)%N.
  - apply (IH (budget - ms)%N (advanceClock ms w) Hrest). exact Hw.
  - exact Hw.
Qed.

(** The binding of a name that a fragment declares as a [var] with one
    value only, once the fragment has run to its end. *)
Lemma runStatements_var_kept (name : string) (value : jsval) (script : Script) :
  forall budget w,
  (forall a, In a script -> declaresName name a = true -> a = DeclareVar name value) ->
  globals w !! name = Some (BValue value) ->
  globals (snd (runStatements budget script w)) !! name = Some (BValue value).
Proof.
  induction script as [|a script IH]; intros budget w Hall Hw; [exact Hw|].
  assert (Hrest : forall a', In a' script -> declaresName name a' = true ->
                             a' = DeclareVar name value)
    by (intros a' Ha'; apply Hall; now right).
  assert (Hs : globals (snd (step a w)) !! name = Some (BValue value)).
  { destruct (declaresName name a) eqn:Ea.
    - rewrite (Hall a (or_introl eq_refl) Ea). cbn [step snd withGlobals globals].
      apply lookup_insert_eq.
    - now rewrite (step_other name a w Ea). }
  destruct a; cbn [runStatements];
    try (match goal with
         | |- context [step ?a w] =>
             destruct (step a w) as [[|m] w1]; cbn [snd] in *;
             [ exact (IH budget w1 Hrest Hs) | exact Hs ]
         end).
  destruct (ms <=? budget)%N.
  - apply (IH (budget - ms)%N (advanceClock ms w) Hrest). exact Hw.
  - exact Hw.
Qed.

Lemma runStatements_var (name : string) (value : jsval) (script : Script) :
  forall budget w w',
  (forall a, In a script -> declaresName name a = true -> a = DeclareVar name value) ->
  In (DeclareVar name value) script ->
  runStatements budget script w = (Normal, w') ->
  globals w' !! name = Some (BValue value).
Proof.
  induction script as [|a script IH]; intros budget w w' Hall Hin Hrun; [destruct Hin|].
  assert (Hrest : forall a', In a' script -> declaresName name a' = true ->
                             a' = DeclareVar name value)
    by (intros a' Ha'; apply Hall; now right).
  destruct (declaresName name a) eqn:Ea.
  - rewrite (Hall a (or_introl eq_refl) Ea) in Hrun. cbn [runStatements step] in Hrun.
    pose proof (runStatements_var_kept name value script budget
                  (withGlobals (insert name (BValue value)) w) Hrest
                  (lookup_insert_eq _ _ _)) as Hk.
    rewrite Hrun in Hk. exact Hk.
  - destruct Hin as [Hin|Hin].
    { subst a. cbn [declaresName] in Ea. rewrite String.eqb_refl in Ea. discriminate. }
    destruct a; cbn [runStatements] in Hrun;
      try (match type of Hrun with
           | context [step ?a w] =>
               destruct (step a w) as [[|m] w1]; [|discriminate];
               exact (IH budget w1 w' Hrest Hin Hrun)
           end).
    destruct (ms <=? budget)%N; [|discriminate].
    exact (IH _ _ w' Hrest Hin Hrun).
Qed.

End ScopeFacts.

(** C4. Fragment a.js declares a function f and fragment b.js calls it,
    where f is a name for a fragment to declare (an identifier that is no
    reserved word and that neither the sandbox object nor the context
    defines). Loaded in the order a.js, b.js the run returns its report with
    both fragments loaded; in the order b.js, a.js it fails with the error
    of b.js, that f is not defined. In general, for a well-formed fragment
    and the fragments loaded after it in the run, as long as they do not
    declare the name again: a name the fragment declares as a function is
    bound to a function from then on, whether the fragment runs to its end
    or not, and a name it declares as a var with a value is bound to that
    value once the fragment has run to its end. *)
Theorem C4_earlier_declarations_visible
    (f : string) (options : Engine.Options.t) (now : N) :
  Engine.userName f = true ->
  Engine.sandboxGlobals !! f = None ->
  let project order :=
    {| Engine.files :=
         {[ "src/globalLibraries/active/a.js" := [Engine.DeclareFunction f];
            "src/globalLibraries/active/b.js" := [Engine.CallFunction f] ]};
       Engine.libsDir := Engine.Listing ["a.js"; "b.js"];
       Engine.projectJson := Some (Engine.Config.make (Some order)) |} in
  let sim := Engine.newSimulator options in
  (exists report,
      (Engine.execute (project ["a.js"; "b.js"]) sim now).1.1 = Engine.Returned report
      /\ Engine.Report.filesLoaded report = 2)
  /\ (Engine.execute (project ["b.js"; "a.js"]) sim now).1.1
     = Engine.Failed ("Error in src/globalLibraries/active/b.js: " ++ f ++ " is not defined")
  /\ (forall (p : Engine.Project) (file : string) (rest : list string)
        (script : Engine.Script) (w : Engine.World) (name : string),
        Engine.files p !! file = Some script ->
        Engine.wellFormed script = true ->
        In (Engine.DeclareFunction name) script ->
        (forall a, In a script -> Engine.declaresName name a = true ->
                   a = Engine.DeclareFunction name) ->
        (forall later script', In later rest -> Engine.files p !! later = Some script' ->
                               Engine.leavesName name script' = true) ->
        Engine.globals (Engine.loadScripts p (file :: rest) w).2 !! name
        = Some Engine.BFunction)
  /\ (forall (p : Engine.Project) (file : string) (rest : list string)
        (script : Engine.Script) (w : Engine.World) (name : string) (value : jsval),
        Engine.files p !! file = Some script ->
        Engine.wellFormed script = true ->
        In (Engine.DeclareVar name value) script ->
        (forall a, In a script -> Engine.declaresName name a = true ->
                   a = Engine.DeclareVar name value) ->
        (forall later script', In later rest -> Engine.files p !! later = Some script' ->
                               Engine.leavesName name script' = true) ->
        (Engine.loadScript p file w).1 = Engine.Normal ->
        Engine.globals (Engine.loadScripts p (file :: rest) w).2 !! name
        = Some (Engine.BValue value)).
Proof.
  intros _ Hf project sim.
  assert (Fa : forall order,
             Engine.files (project order) !! "src/globalLibraries/active/a.js"
             = Some [Engine.DeclareFunction f]) by (intros; reflexivity).
  assert (Fb : forall order,
             Engine.files (project order) !! "src/globalLibraries/active/b.js"
             = Some [Engine.CallFunction f]) by (intros; reflexivity).
  assert (Fc : forall order,
             Engine.files (project order) !! "src/globalCode.js" = None)
    by (intros; reflexivity).
  assert (Fv : forall order,
             Engine.files (project order) !! "src/globalVariables.js" = None)
    by (intros; reflexivity).
  assert (Fm : forall order,
             Engine.files (project order) !! "src/callScripts/main.js" = None)
    by (intros; reflexivity).
  split; [|split; [|split]].
  - unfold Engine.execute, Engine.loadProjectFiles.
    change (Engine.loadOrder (project ["a.js"; "b.js"]))
      with ["src/globalCode.js"; "src/globalVariables.js";
            "src/globalLibraries/active/a.js"; "src/globalLibraries/active/b.js";
            "src/callScripts/main.js"].
    rewrite (loadScripts_missing _ _ _ _ (Fc _)), (loadScripts_missing _ _ _ _ (Fv _)).
    erewrite (loadScripts_normal _ _ _ _ _ _ (Fa _)) by reflexivity.
    erewrite (loadScripts_normal _ _ _ _ _ _ (Fb _)).
    2:{ unfold Engine.runInNewContext, Engine.hoistAll.
        cbn [fold_left Engine.hoist Engine.runStatements Engine.step
             Engine.withGlobals Engine.withSimulator Engine.globals].
        rewrite lookup_insert_eq. reflexivity. }
    rewrite (loadScripts_missing _ _ _ _ (Fm _)).
    cbn [Engine.loadScripts]. eexists. split; reflexivity.
  - unfold Engine.execute, Engine.loadProjectFiles.
    change (Engine.loadOrder (project ["b.js"; "a.js"]))
      with ["src/globalCode.js"; "src/globalVariables.js";
            "src/globalLibraries/active/b.js"; "src/globalLibraries/active/a.js";
            "src/callScripts/main.js"].
    rewrite (loadScripts_missing _ _ _ _ (Fc _)), (loadScripts_missing _ _ _ _ (Fv _)).
    erewrite (loadScripts_thrown _ _ _ _ _ _ _ (Fb _)).
    2:{ unfold Engine.runInNewContext, Engine.hoistAll.
        cbn [fold_left Engine.hoist Engine.runStatements Engine.step
             Engine.withGlobals Engine.globals].
        rewrite Hf. reflexivity. }
    reflexivity.
  - intros p file rest script w name Hfile _ Hin Hall Hrest.
    cbn [Engine.loadScripts]. unfold Engine.loadScript. rewrite Hfile.
    unfold Engine.runInNewContext.
    pose proof (runStatements_function name script 5000%N
                  (Engine.withGlobals (Engine.hoistAll script) w) Hall
                  (hoistAll_function name script _ Hall (or_intror Hin))) as Hrun.
    destruct (Engine.runStatements 5000 script
                (Engine.withGlobals (Engine.hoistAll script) w)) as [[|m] w1];
      cbn [snd] in *; [|exact Hrun].
    rewrite (loadScripts_other name p rest _ Hrest). exact Hrun.
  - intros p file rest script w name value Hfile _ Hin Hall Hrest Hnormal.
    cbn [Engine.loadScripts]. unfold Engine.loadScript in *. rewrite Hfile in *.
    unfold Engine.runInNewContext in *.
    pose proof (runStatements_var name value script 5000%N
                  (Engine.withGlobals (Engine.hoistAll script) w)) as Hrun.
    destruct (Engine.runStatements 5000 script
                (Engine.withGlobals (Engine.hoistAll script) w)) as [[|m] w1];
      cbn [fst snd] in *; [|discriminate].
    rewrite (loadScripts_other name p rest _ Hrest).
    exact (Hrun w1 Hall Hin eq_refl).
Qed.

(** The same with a function named greet and the default options, and a
    fragment that sets a var x to 1 before a fragment that declares another
    name. *)
Lemma C4_earlier_declarations_visible_witness :
  let f := "greet" in
  let options := Engine.Options.make None None None in
  let project order :=
    {| Engine.files :=
         {[ "src/globalLibraries/active/a.js" := [Engine.DeclareFunction f];
            "src/globalLibraries/active/b.js" := [Engine.CallFunction f] ]};
       Engine.libsDir := Engine.Listing ["a.js"; "b.js"];
       Engine.projectJson := Some (Engine.Config.make (Some order)) |} in
  let sim := Engine.newSimulator options in
  let vars :=
    {| Engine.files :=
         {[ "a.js" := [Engine.DeclareVar "x" (JNum 1)];
            "b.js" := [Engine.DeclareVar "y" (JNum 2)] ]};
       Engine.libsDir := Engine.NoDirectory;
       Engine.projectJson := None |} in
  let w :=
    {| Engine.simulator := sim; Engine.globals := ∅;
       Engine.sessionVariables := ∅; Engine.clock := 0%N |} in
  Engine.userName f = true
  /\ Engine.sandboxGlobals !! f = None
  /\ (exists report,
        (Engine.execute (project ["a.js"; "b.js"]) sim 0%N).1.1 = Engine.Returned report
        /\ Engine.Report.filesLoaded report = 2)
  /\ (Engine.execute (project ["b.js"; "a.js"]) sim 0%N).1.1
     = Engine.Failed "Error in src/globalLibraries/active/b.js: greet is not defined"
  /\ Engine.globals (Engine.loadScripts vars ["a.js"; "b.js"] w).2 !! "x"
     = Some (Engine.BValue (JNum 1)).
Proof.
  intros f options project sim vars w.
  assert (Hu : Engine.userName f = true) by reflexivity.
  assert (Hf : Engine.sandboxGlobals !! f = None) by reflexivity.
  split; [exact Hu|]. split; [exact Hf|].
  destruct (C4_earlier_declarations_visible f options 0%N Hu Hf) as (H1 & H2 & _ & H4).
  split; [exact H1|]. split; [exact H2|].
  apply (H4 vars "a.js" ["b.js"] [Engine.DeclareVar "x" (JNum 1)] w "x" (JNum 1)).
  - reflexivity.
  - reflexivity.
  - left. reflexivity.
  - intros a [<-|[]] _. reflexivity.
  - intros later script' [<-|[]] Hs. vm_compute in Hs. injection Hs as <-. reflexivity.
  - vm_compute. reflexivity.
Defined.

(** * Further properties of the code *)

(** ** sorting.js *)

Section SortedOutput.
Import Sorting.

(** The order a comparator puts two neighbours in. *)
Lemma insertSorted_sorted {A} (cmp : A -> A -> Z) (x : A) (l : list A) :
  (forall a b, (0 < cmp a b)%Z -> (cmp b a <= 0)%Z) ->
  Sorted (fun a b => (cmp a b <= 0)%Z) l ->
  Sorted (fun a b => (cmp a b <= 0)%Z) (insertSorted cmp x l).
Proof.
  intros Hanti. induction l as [|y l IH]; intros Hl; cbn [insertSorted].
  - repeat constructor.
  - destruct (Z.leb_spec (cmp x y) 0) as [Hle|Hgt].
    + constructor; [exact Hl | constructor; exact Hle].
    + inversion Hl as [|? ? Hl' Hhd]; subst.
      constructor; [now apply IH|].
      destruct l as [|z l]; cbn [insertSorted].
      * constructor. now apply Hanti.
      * destruct (cmp x z <=? 0)%Z; constructor;
          [now apply Hanti | now inversion Hhd].
Qed.

Lemma arraySort_sorted {A} (cmp : A -> A -> Z) (l : list A) :
  (forall a b, (0 < cmp a b)%Z -> (cmp b a <= 0)%Z) ->
  Sorted (fun a b => (cmp a b <= 0)%Z) (arraySort cmp l).
Proof.
  intros Hanti. induction l as [|x l IH]; cbn [arraySort fold_right]; [constructor|].
  now apply insertSorted_sorted.
Qed.

(** An array already in order is left as it is. *)
Lemma arraySort_of_sorted {A} (cmp : A -> A -> Z) (l : list A) :
  Sorted (fun a b => (cmp a b <= 0)%Z) l -> arraySort cmp l = l.
Proof.
  induction l as [|x l IH]; intros Hl; [reflexivity|].
  inversion Hl as [|? ? Hl' Hhd]; subst.
  cbn [arraySort fold_right].
  change (fold_right (insertSorted cmp) [] l) with (arraySort cmp l).
  rewrite (IH Hl').
  destruct Hhd as [|y l Hxy]; [reflexivity|].
  cbn [insertSorted]. apply Z.leb_le in Hxy. now rewrite Hxy.
Qed.

Lemma compareLibraryFiles_antisym lc :
  (forall a b, (0 < lc a b)%Z -> (lc b a <= 0)%Z) ->
  forall a b, (0 < compareLibraryFiles lc a b)%Z -> (compareLibraryFiles lc b a <= 0)%Z.
Proof.
  intros Hlc a b. unfold compareLibraryFiles.
  destruct (startsWithNumber a), (startsWithNumber b); cbn [andb negb];
    try lia. apply Hlc.
Qed.

Lemma codeUnitCompare_antisym (a : string) :
  forall b, codeUnitCompare b a = (- codeUnitCompare a b)%Z.
Proof.
  induction a as [|x a IH]; intros [|y b]; cbn [codeUnitCompare]; try reflexivity.
  destruct (Z.eqb_spec (Z.of_nat (nat_of_ascii y) - Z.of_nat (nat_of_ascii x)) 0) as [E|E];
    destruct (Z.eqb_spec (Z.of_nat (nat_of_ascii x) - Z.of_nat (nat_of_ascii y)) 0) as [E'|E'];
    try lia. apply IH.
Qed.

Lemma codeUnitCompare_sign (a b : string) :
  (0 < codeUnitCompare a b)%Z -> (codeUnitCompare b a <= 0)%Z.
Proof. rewrite (codeUnitCompare_antisym a b). lia. Qed.

End SortedOutput.

(** X1. Under every collation whose sign turns with its arguments (a is
    never put after b and b after a), the array sortLibraryFiles leaves is in
    the order of its comparator: no name is followed by one that the
    comparator puts before it. *)
Theorem X1_sortLibraryFiles_in_comparator_order
    (localeCompare : string -> string -> Z) (files : list string) :
  (forall a b, (0 < localeCompare a b)%Z -> (localeCompare b a <= 0)%Z) ->
  Sorted (fun a b => (Sorting.compareLibraryFiles localeCompare a b <= 0)%Z)
    (Sorting.sortLibraryFiles localeCompare files).
Proof.
  intros Hlc. apply arraySort_sorted. now apply compareLibraryFiles_antisym.
Qed.

Lemma X1_sortLibraryFiles_in_comparator_order_witness :
  Sorted (fun a b => (Sorting.compareLibraryFiles Sorting.codeUnitCompare a b <= 0)%Z)
    (Sorting.sortLibraryFiles Sorting.codeUnitCompare
       ["beta.js"; "10-tenth.js"; "alpha.js"; "2-second.js"]).
Proof.
  apply (X1_sortLibraryFiles_in_comparator_order Sorting.codeUnitCompare
           ["beta.js"; "10-tenth.js"; "alpha.js"; "2-second.js"]).
  exact codeUnitCompare_sign.
Defined.

Section OrderTwice.
Import Sorting.

Lemma filter_not_includes_self (order : list string) :
  List.filter (fun file => negb (includes order file)) order = [].
Proof.
  assert (H : forall l, (forall x, In x l -> In x order) ->
            List.filter (fun file => negb (includes order file)) l = []).
  { induction l as [|x l IH]; intros Hl; [reflexivity|].
    cbn [List.filter].
    assert (E : includes order x = true) by (apply includes_In, Hl; now left).
    rewrite E. cbn [negb]. apply IH. intros y Hy. apply Hl. now right. }
  apply H. auto.
Qed.

Lemma filter_all {A} (p : A -> bool) (l : list A) :
  (forall x, In x l -> p x = true) -> List.filter p l = l.
Proof.
  induction l as [|x l IH]; intros Hl; [reflexivity|].
  cbn [List.filter]. rewrite (Hl x) by now left.
  f_equal. apply IH. intros y Hy. apply Hl. now right.
Qed.

End OrderTwice.

(** X2. Ordering is idempotent: under every collation whose sign turns with
    its arguments, ordering the result of sortLibraryFilesWithDependencies
    again, with the same explicit order, returns it unchanged. *)
Theorem X2_order_idempotent
    (localeCompare : string -> string -> Z)
    (files : list string) (libraryOrder : option (list string)) :
  (forall a b, (0 < localeCompare a b)%Z -> (localeCompare b a <= 0)%Z) ->
  Sorting.sortLibraryFilesWithDependencies localeCompare
    (Sorting.sortLibraryFilesWithDependencies localeCompare files libraryOrder)
    libraryOrder
  = Sorting.sortLibraryFilesWithDependencies localeCompare files libraryOrder.
Proof.
  intros Hlc.
  assert (Hs : forall l,
    Sorting.sortLibraryFiles localeCompare (Sorting.sortLibraryFiles localeCompare l)
    = Sorting.sortLibraryFiles localeCompare l).
  { intros l. apply arraySort_of_sorted, arraySort_sorted.
    now apply compareLibraryFiles_antisym. }
  destruct libraryOrder as [[|o order]|]; unfold Sorting.sortLibraryFilesWithDependencies;
    cbn [List.length Nat.ltb Nat.leb]; try apply Hs.
  rewrite List.filter_app, filter_not_includes_self. cbn [app].
  rewrite filter_all.
  - now rewrite Hs.
  - intros x Hx.
    apply (Permutation_in x (sortLibraryFiles_perm localeCompare _)) in Hx.
    now apply filter_In in Hx.
Qed.

Lemma X2_order_idempotent_witness :
  Sorting.sortLibraryFilesWithDependencies Sorting.codeUnitCompare
    (Sorting.sortLibraryFilesWithDependencies Sorting.codeUnitCompare
       ["b.js"; "2-b.js"; "a.js"; "1-a.js"] (Some ["a.js"]))
    (Some ["a.js"])
  = Sorting.sortLibraryFilesWithDependencies Sorting.codeUnitCompare
      ["b.js"; "2-b.js"; "a.js"; "1-a.js"] (Some ["a.js"]).
Proof.
  apply (X2_order_idempotent Sorting.codeUnitCompare
           ["b.js"; "2-b.js"; "a.js"; "1-a.js"] (Some ["a.js"])).
  exact codeUnitCompare_sign.
Defined.

Section Stability.
Import Sorting.

(** An element inserted passes none of the elements of a class that it
    belongs to, when the comparator puts no member of the class strictly
    before another. *)
Lemma insertSorted_filter {A} (cmp : A -> A -> Z) (p : A -> bool) (x : A) (l : list A) :
  (p x = true -> forall y, (0 < cmp x y)%Z -> p y = false) ->
  List.filter p (insertSorted cmp x l)
  = if p x then x :: List.filter p l else List.filter p l.
Proof.
  intros Hp. induction l as [|y l IH]; cbn [insertSorted List.filter].
  - reflexivity.
  - destruct (Z.leb_spec (cmp x y) 0) as [Hle|Hgt]; cbn [List.filter].
    + reflexivity.
    + rewrite IH. destruct (p x) eqn:Hx; [|reflexivity].
      now rewrite (Hp eq_refl y Hgt).
Qed.

Lemma arraySort_filter {A} (cmp : A -> A -> Z) (p : A -> bool) (l : list A) :
  (forall x y, p x = true -> (0 < cmp x y)%Z -> p y = false) ->
  List.filter p (arraySort cmp l) = List.filter p l.
Proof.
  intros Hp. induction l as [|x l IH]; [reflexivity|].
  cbn [arraySort fold_right List.filter].
  change (fold_right (insertSorted cmp) [] l) with (arraySort cmp l).
  rewrite insertSorted_filter, IH; [reflexivity|].
  intros Hx y. now apply Hp.
Qed.

End Stability.

(** X3. The sort is stable on equal priorities: the names that begin with
    digits of one and the same value (as 1-a.js and 01-b.js) stand in the
    result of sortLibraryFiles in the order they had in the input, whatever
    the collation. *)
Theorem X3_equal_leading_numbers_keep_input_order
    (localeCompare : string -> string -> Z) (files : list string) (n : Z) :
  List.filter
    (fun a => Sorting.startsWithNumber a && (Sorting.leadingNumber a =? n)%Z)
    (Sorting.sortLibraryFiles localeCompare files)
  = List.filter
      (fun a => Sorting.startsWithNumber a && (Sorting.leadingNumber a =? n)%Z)
      files.
Proof.
  apply arraySort_filter. intros x y Hx Hxy.
  apply andb_true_iff in Hx. destruct Hx as [Hx Hn].
  apply Z.eqb_eq in Hn.
  unfold Sorting.compareLibraryFiles in Hxy. rewrite Hx in Hxy.
  destruct (Sorting.startsWithNumber y); cbn [andb negb] in *; [|lia].
  apply Z.eqb_neq. unfold Sorting.leadingNumber in *. lia.
Qed.

(** X4. No library is listed twice: when the input names are distinct and
    the explicit order names nothing twice, the names of the result of
    sortLibraryFilesWithDependencies are distinct. *)
Theorem X4_order_has_no_duplicates
    (localeCompare : string -> string -> Z)
    (files : list string) (libraryOrder : option (list string)) :
  List.NoDup files ->
  List.NoDup (default [] libraryOrder) ->
  List.NoDup (Sorting.sortLibraryFilesWithDependencies localeCompare files libraryOrder).
Proof.
  intros Hf Ho.
  eapply Permutation.Permutation_NoDup.
  - symmetry. apply order_perm_general.
  - apply List.NoDup_app; [exact Ho | now apply List.NoDup_filter |].
    intros x Hx Hx'. apply filter_In in Hx'. destruct Hx' as [_ Hx'].
    apply negb_true_iff in Hx'.
    apply includes_In in Hx. congruence.
Qed.

Lemma X4_order_has_no_duplicates_witness :
  List.NoDup (Sorting.sortLibraryFilesWithDependencies Sorting.codeUnitCompare
                ["b.js"; "2-b.js"; "a.js"] (Some ["a.js"; "z.js"])).
Proof.
  apply (X4_order_has_no_duplicates Sorting.codeUnitCompare
           ["b.js"; "2-b.js"; "a.js"] (Some ["a.js"; "z.js"])).
  - apply NoDup_ListNoDup.
    apply (bool_decide_unpack (NoDup ["b.js"; "2-b.js"; "a.js"])). vm_compute. exact I.
  - apply NoDup_ListNoDup.
    apply (bool_decide_unpack (NoDup ["a.js"; "z.js"])). vm_compute. exact I.
Defined.

(** ** engine.js: the storage mock *)

Section StorageFacts.
Import Engine.

Lemma handleStorageWrite_memory (sim : Simulator) (filePath : string) (content : jsval) :
  storageMode sim = "memory" ->
  handleStorageWrite filePath content sim
  = (WriteResult.make true None,
     withMemoryStorage
       (<[filePath := jsString (jsOr content (JStr ""))]> (memoryStorage sim))
       (withStats countStorageOp sim)).
Proof.
  intros Hmode. unfold handleStorageWrite.
  cbn [withStats storageMode memoryStorage]. rewrite Hmode. reflexivity.
Qed.

Lemma handleStorageRead_memory (sim : Simulator) (filePath : string) :
  storageMode sim = "memory" ->
  handleStorageRead filePath sim
  = (ReadResult.make
       (match memoryStorage sim !! filePath with Some _ => true | None => false end)
       (textOrNull (memoryStorage sim !! filePath))
       (match memoryStorage sim !! filePath with
        | Some _ => None
        | None => Some "file_not_found"
        end),
     withStats countStorageOp sim).
Proof.
  intros Hmode. unfold handleStorageRead.
  cbn [withStats storageMode memoryStorage]. rewrite Hmode. reflexivity.
Qed.

(** What a sequence of writes leaves in the map. *)
Lemma storageWrites_memory (writes : list (string * jsval)) :
  forall sim : Simulator,
  storageMode sim = "memory" ->
  storageMode (storageWrites writes sim) = "memory"
  /\ Stats.storageOps (stats (storageWrites writes sim))
     = (Stats.storageOps (stats sim) + List.length writes)%nat
  /\ forall filePath,
       memoryStorage (storageWrites writes sim) !! filePath
       = match lastWritten filePath writes with
         | Some content => Some (jsString (jsOr content (JStr "")))
         | None => memoryStorage sim !! filePath
         end.
Proof.
  induction writes as [|[path content] writes IH]; intros sim Hmode.
  - cbn [storageWrites fold_left List.length lastWritten].
    split; [exact Hmode|]. split; [lia | reflexivity].
  - unfold storageWrites. cbn [fold_left fst snd].
    fold (storageWrites writes (snd (handleStorageWrite path content sim))).
    rewrite (handleStorageWrite_memory sim path content Hmode). cbn [snd].
    destruct (IH (withMemoryStorage
                    (<[path := jsString (jsOr content (JStr ""))]> (memoryStorage sim))
                    (withStats countStorageOp sim)) Hmode) as (Hm & Hops & Hmem).
    split; [exact Hm|]. split.
    + rewrite Hops. cbn [withMemoryStorage withStats stats countStorageOp
                         Stats.storageOps List.length]. lia.
    + intros filePath. rewrite Hmem. cbn [lastWritten].
      destruct (lastWritten filePath writes); [reflexivity|].
      cbn [withMemoryStorage memoryStorage].
      destruct (String.eqb_spec path filePath) as [->|Hne].
      * apply lookup_insert_eq.
      * now apply lookup_insert_ne.
Qed.

End StorageFacts.

(** X5. Storage.readFile of a path that nothing was written to: in memory
    mode the result is success false, text null and the error
    file_not_found; the call is counted as one storage operation and
    changes nothing else of the simulator. *)
Theorem X5_read_of_missing_file (sim : Engine.Simulator) (filePath : string) :
  Engine.storageMode sim = "memory" ->
  Engine.memoryStorage sim !! filePath = None ->
  Engine.handleStorageRead filePath sim
  = (Engine.ReadResult.make false None (Some "file_not_found"),
     Engine.withStats Engine.countStorageOp sim).
Proof.
  intros Hmode Hnone.
  rewrite (handleStorageRead_memory sim filePath Hmode), Hnone. reflexivity.
Qed.

Lemma X5_read_of_missing_file_witness :
  Engine.handleStorageRead "logs/call.json"
    (Engine.newSimulator (Engine.Options.make None None None))
  = (Engine.ReadResult.make false None (Some "file_not_found"),
     Engine.withStats Engine.countStorageOp
       (Engine.newSimulator (Engine.Options.make None None None))).
Proof.
  apply (X5_read_of_missing_file
           (Engine.newSimulator (Engine.Options.make None None None)) "logs/call.json").
  - reflexivity.
  - reflexivity.
Defined.

(** X6. With a storageMode other than memory, Storage.readFile and
    Storage.writeFile both answer success false with the error
    disk_storage_not_implemented; the call is counted, and the map of stored
    texts is neither read nor changed. *)
Theorem X6_storage_outside_memory_mode
    (sim : Engine.Simulator) (filePath : string) (content : jsval) :
  Engine.storageMode sim <> "memory" ->
  Engine.handleStorageRead filePath sim
  = (Engine.ReadResult.make false None (Some "disk_storage_not_implemented"),
     Engine.withStats Engine.countStorageOp sim)
  /\ Engine.handleStorageWrite filePath content sim
     = (Engine.WriteResult.make false (Some "disk_storage_not_implemented"),
        Engine.withStats Engine.countStorageOp sim)
  /\ Engine.memoryStorage (snd (Engine.handleStorageWrite filePath content sim))
     = Engine.memoryStorage sim.
Proof.
  intros Hmode. apply String.eqb_neq in Hmode.
  unfold Engine.handleStorageRead, Engine.handleStorageWrite.
  cbn [Engine.withStats Engine.storageMode]. rewrite Hmode.
  repeat split.
Qed.

Lemma X6_storage_outside_memory_mode_witness :
  let sim := Engine.newSimulator (Engine.Options.make None (Some "disk") None) in
  Engine.handleStorageRead "a.txt" sim
  = (Engine.ReadResult.make false None (Some "disk_storage_not_implemented"),
     Engine.withStats Engine.countStorageOp sim)
  /\ Engine.handleStorageWrite "a.txt" (JStr "text") sim
     = (Engine.WriteResult.make false (Some "disk_storage_not_implemented"),
        Engine.withStats Engine.countStorageOp sim)
  /\ Engine.memoryStorage (snd (Engine.handleStorageWrite "a.txt" (JStr "text") sim))
     = Engine.memoryStorage sim.
Proof.
  intros sim.
  apply (X6_storage_outside_memory_mode sim "a.txt" (JStr "text")).
  discriminate.
Defined.

(** X7. Content that is falsy (undefined, null, false, 0 or the empty
    string) is stored as the empty string, and the empty string does not
    come back: the write succeeds, and the read that follows answers success
    true and no error, but text null. *)
Theorem X7_falsy_content_reads_back_as_null
    (sim : Engine.Simulator) (filePath : string) (content : jsval) :
  Engine.storageMode sim = "memory" ->
  truthy content = false ->
  let '(written, sim1) := Engine.handleStorageWrite filePath content sim in
  let '(read, _) := Engine.handleStorageRead filePath sim1 in
  written = Engine.WriteResult.make true None
  /\ Engine.memoryStorage sim1 !! filePath = Some ""
  /\ read = Engine.ReadResult.make true None None.
Proof.
  intros Hmode Hfalsy.
  rewrite (handleStorageWrite_memory sim filePath content Hmode).
  rewrite handleStorageRead_memory by exact Hmode.
  cbn [Engine.withMemoryStorage Engine.memoryStorage].
  rewrite lookup_insert_eq.
  unfold jsOr. rewrite Hfalsy.
  repeat split.
Qed.

Lemma X7_falsy_content_reads_back_as_null_witness :
  let sim := Engine.newSimulator (Engine.Options.make None None None) in
  let '(written, sim1) := Engine.handleStorageWrite "a.txt" (JNum 0) sim in
  let '(read, _) := Engine.handleStorageRead "a.txt" sim1 in
  written = Engine.WriteResult.make true None
  /\ Engine.memoryStorage sim1 !! "a.txt" = Some ""
  /\ read = Engine.ReadResult.make true None None.
Proof.
  intros sim.
  apply (X7_falsy_content_reads_back_as_null sim "a.txt" (JNum 0)).
  - reflexivity.
  - reflexivity.
Defined.

(** X8. After any sequence of Storage.writeFile calls in memory mode, a
    read of a path answers from the last call that wrote to that path: with
    its content converted to a string (falsy content as the empty string),
    for content that is not a number beyond the safe integers, whatever was
    written to other paths in between. A path that no call of the sequence
    wrote to reads as it did before. Each call of the sequence is counted as
    one storage operation. *)
Theorem X8_read_answers_from_last_write
    (sim : Engine.Simulator) (writes : list (string * jsval)) (filePath : string) :
  Engine.storageMode sim = "memory" ->
  match Engine.lastWritten filePath writes with
  | Some content =>
      safeContent content = true ->
      fst (Engine.handleStorageRead filePath (Engine.storageWrites writes sim))
      = Engine.ReadResult.make true
          (Engine.textOrNull (Some (jsString (jsOr content (JStr ""))))) None
  | None =>
      fst (Engine.handleStorageRead filePath (Engine.storageWrites writes sim))
      = fst (Engine.handleStorageRead filePath sim)
  end
  /\ Engine.Stats.storageOps (Engine.stats (Engine.storageWrites writes sim))
     = (Engine.Stats.storageOps (Engine.stats sim) + List.length writes)%nat.
Proof.
  intros Hmode.
  destruct (storageWrites_memory writes sim Hmode) as (Hm & Hops & Hmem).
  split; [|exact Hops].
  rewrite (handleStorageRead_memory _ filePath Hm).
  rewrite (handleStorageRead_memory _ filePath Hmode).
  cbn [fst]. rewrite Hmem.
  destruct (Engine.lastWritten filePath writes); reflexivity.
Qed.

Lemma X8_read_answers_from_last_write_witness :
  let sim := Engine.newSimulator (Engine.Options.make None None None) in
  let writes := [("a.txt", JStr "one"); ("b.txt", JNum 7); ("a.txt", JStr "two")] in
  fst (Engine.handleStorageRead "a.txt" (Engine.storageWrites writes sim))
  = Engine.ReadResult.make true (Some "two") None
  /\ fst (Engine.handleStorageRead "b.txt" (Engine.storageWrites writes sim))
     = Engine.ReadResult.make true (Some "7") None.
Proof.
  intros sim writes. split.
  - apply (proj1 (X8_read_answers_from_last_write sim writes "a.txt" eq_refl)).
    reflexivity.
  - apply (proj1 (X8_read_answers_from_last_write sim writes "b.txt" eq_refl)).
    reflexivity.
Defined.

(** ** engine.js: the HTTP mock *)

(** X9. In stub mode every request is answered without network access: the
    promise is resolved with success true, status 200, the message
    [Stubbed response for <url>], the method of the request (GET when the
    request names none, or an empty one) and the content type
    application/json. The request is counted and appended to the log with
    the same method, url, headers and body; the stored texts are untouched. *)
Theorem X9_stub_mode_answers_every_request
    (now : N) (config : Engine.HttpConfig.t) (sim : Engine.Simulator) :
  Engine.httpMode sim = "stub" ->
  let '(response, sim') := Engine.handleHttpRequest now config sim in
  (exists r,
     response = Engine.Resolved r
     /\ Engine.StubResponse.success r = true
     /\ Engine.StubResponse.status r = 200%Z
     /\ Engine.StubResponse.dataMessage r
        = ("Stubbed response for " ++ Engine.HttpConfig.url config)%string
     /\ Engine.StubResponse.dataMethod r
        = Engine.orDefault (Engine.HttpConfig.method config) "GET"
     /\ Engine.StubResponse.contentType r = "application/json")
  /\ (exists request,
        Engine.httpRequests sim' = Engine.httpRequests sim ++ [request]
        /\ Engine.Request.method request
           = Engine.orDefault (Engine.HttpConfig.method config) "GET"
        /\ Engine.Request.url request = Engine.HttpConfig.url config
        /\ Engine.Request.headers request = Engine.HttpConfig.headers config
        /\ Engine.Request.body request = Engine.HttpConfig.body config)
  /\ Engine.Stats.httpRequests (Engine.stats sim')
     = S (Engine.Stats.httpRequests (Engine.stats sim))
  /\ Engine.memoryStorage sim' = Engine.memoryStorage sim.
Proof.
  intros Hmode. unfold Engine.handleHttpRequest.
  cbn [Engine.pushHttpRequest Engine.withStats Engine.httpMode].
  rewrite Hmode. unfold Engine.createStubResponse.
  split; [eexists; repeat split|].
  split; [eexists; repeat split|].
  split; reflexivity.
Qed.

Lemma X9_stub_mode_answers_every_request_witness :
  let sim := Engine.newSimulator (Engine.Options.make None None None) in
  let config :=
    Engine.HttpConfig.make (Some "") "https://api.example.com/x" JUndefined JUndefined in
  exists r,
    fst (Engine.handleHttpRequest 7%N config sim) = Engine.Resolved r
    /\ Engine.StubResponse.dataMessage r = "Stubbed response for https://api.example.com/x"
    /\ Engine.StubResponse.dataMethod r = "GET".
Proof.
  intros sim config.
  pose proof (X9_stub_mode_answers_every_request 7%N config sim eq_refl) as H.
  destruct (Engine.handleHttpRequest 7%N config sim) as [response sim'].
  destruct H as ((r & Hr & _ & _ & Hm & Hd & _) & _).
  exists r. split; [exact Hr|]. split; [exact Hm | exact Hd].
Defined.

(** ** engine.js: what a run does to the simulator *)

Section RunRelation.
Import Engine.

(** A relation between the simulator before and after that every host call
    respects is respected by the evaluation of a fragment, however the
    evaluation ends, ... *)
Variable R : Simulator -> Simulator -> Prop.
Hypothesis R_refl : forall sim, R sim sim.
Hypothesis R_trans : forall a b c, R a b -> R b c -> R a c.
Hypothesis R_http :
  forall now config sim, R sim (snd (handleHttpRequest now config sim)).
Hypothesis R_write :
  forall path content sim, R sim (snd (handleStorageWrite path content sim)).
Hypothesis R_read :
  forall path sim, R sim (snd (handleStorageRead path sim)).
Hypothesis R_counted : forall sim, R sim (withStats countHttpRequest sim).

Lemma step_related (a : action) (w : World) :
  R (simulator w) (simulator (snd (step a w))).
Proof.
  destruct a; cbn [step];
    try (destruct (globals w !! name) as [[| | | | |]|]);
    cbn [snd withSimulator withGlobals withSessionVariables simulator];
    auto.
Qed.

Lemma runStatements_related (script : Script) : forall budget w,
  R (simulator w) (simulator (snd (runStatements budget script w))).
Proof.
  induction script as [|a script IH]; intros budget w.
  - apply R_refl.
  - destruct a; cbn [runStatements];
      try (match goal with
           | |- context [step ?a w] =>
               pose proof (step_related a w) as Hs;
               destruct (step a w) as [[|m] w1]; cbn [snd] in *;
               [ exact (R_trans _ _ _ Hs (IH budget w1)) | exact Hs ]
           end).
    destruct (ms <=? budget)%N.
    + apply (IH (budget - ms)%N (advanceClock ms w)).
    + apply R_refl.
Qed.

Lemma runInNewContext_related (script : Script) (timeout : N) (w : World) :
  R (simulator w) (simulator (snd (runInNewContext script timeout w))).
Proof.
  unfold runInNewContext.
  apply (runStatements_related script timeout (withGlobals (hoistAll script) w)).
Qed.

(** ... and, if the three updates of [this.stats] respect it too, by the
    whole run. *)
Hypothesis R_loaded : forall sim, R sim (withStats countFileLoaded sim).
Hypothesis R_start : forall now sim, R sim (withStats (setStartTime now) sim).
Hypothesis R_end : forall now sim, R sim (withStats (setEndTime now) sim).

Lemma loadScript_related (p : Project) (file : string) (w : World) :
  R (simulator w) (simulator (snd (loadScript p file w))).
Proof.
  unfold loadScript. destruct (files p !! file) as [script|]; [|apply R_refl].
  pose proof (runInNewContext_related script 5000%N w) as Hr.
  destruct (runInNewContext script 5000%N w) as [[|m] w1]; cbn [snd] in *.
  - cbn [withSimulator simulator]. exact (R_trans _ _ _ Hr (R_loaded _)).
  - exact Hr.
Qed.

Lemma loadScripts_related (p : Project) (order : list string) : forall w,
  R (simulator w) (simulator (snd (loadScripts p order w))).
Proof.
  induction order as [|file order IH]; intros w; cbn [loadScripts].
  - apply R_refl.
  - pose proof (loadScript_related p file w) as Hl.
    destruct (loadScript p file w) as [[|m] w1]; cbn [snd] in *.
    + exact (R_trans _ _ _ Hl (IH w1)).
    + exact Hl.
Qed.

Lemma execute_related (p : Project) (sim : Simulator) (now : N) :
  R sim (snd (fst (execute p sim now))).
Proof.
  unfold execute, loadProjectFiles.
  match goal with
  | |- context [loadScripts p (loadOrder p) ?w0] =>
      pose proof (loadScripts_related p (loadOrder p) w0) as Hl;
      destruct (loadScripts p (loadOrder p) w0) as [[|m] w1]
  end; cbn [fst snd simulator] in *.
  - exact (R_trans _ _ _ (R_start now sim) (R_trans _ _ _ Hl (R_end _ _))).
  - exact (R_trans _ _ _ (R_start now sim) Hl).
Qed.

End RunRelation.

Section RunEffects.
Import Engine.

Lemma requested_cons (a : action) (script : Script) :
  requested (a :: script)
  = match requestOf a with
    | Some r => r :: requested script
    | None => requested script
    end.
Proof. reflexivity. Qed.

Lemma requested_length (script : Script) :
  List.length (requested script) = List.length (List.filter isHttpRequest script).
Proof.
  induction script as [|a script IH]; [reflexivity|].
  rewrite requested_cons. cbn [List.filter].
  destruct a; cbn [requestOf isHttpRequest List.length]; now rewrite ?IH.
Qed.

(** The report is read off the simulator the run leaves. *)
Lemma execute_report (p : Project) (sim : Simulator) (now : N) (r : Report.t) :
  fst (fst (execute p sim now)) = Returned r ->
  Report.filesLoaded r = Stats.filesLoaded (stats (snd (fst (execute p sim now))))
  /\ Report.httpRequests r = Stats.httpRequests (stats (snd (fst (execute p sim now))))
  /\ Report.storageOps r = Stats.storageOps (stats (snd (fst (execute p sim now))))
  /\ Report.httpLog r = httpRequests (snd (fst (execute p sim now))).
Proof.
  unfold execute.
  destruct (loadProjectFiles p _) as [[|m] w]; cbn [fst snd]; [|discriminate].
  intros E. injection E as <-. repeat split.
Qed.

(** What one statement adds to the count of storage operations and to the
    log. *)
Lemma step_effects (a : action) (w : World) :
  Stats.storageOps (stats (simulator (snd (step a w))))
  = (Stats.storageOps (stats (simulator w)) + (if isStorageCall a then 1 else 0))%nat
  /\ map logged (httpRequests (simulator (snd (step a w))))
     = map logged (httpRequests (simulator w))
       ++ match requestOf a with Some r => [r] | None => [] end.
Proof.
  destruct a; cbn [step isStorageCall requestOf];
    try (destruct (globals w !! name) as [[| | | | |]|]);
    unfold handleHttpRequest, handleStorageWrite, handleStorageRead;
    cbn [snd withSimulator withGlobals withSessionVariables simulator];
    repeat match goal with
           | |- context [if String.eqb ?a ?b then _ else _] => destruct (String.eqb a b)
           end;
    cbn [snd withStats withMemoryStorage pushHttpRequest stats httpRequests
         countHttpRequest countStorageOp Stats.httpRequests Stats.storageOps];
    rewrite ?map_app, ?app_nil_r; cbn [map logged Request.method Request.url];
    repeat split; lia.
Qed.

Lemma runStatements_effects (script : Script) : forall budget w w',
  runStatements budget script w = (Normal, w') ->
  Stats.storageOps (stats (simulator w'))
  = (Stats.storageOps (stats (simulator w))
     + List.length (List.filter isStorageCall script))%nat
  /\ map logged (httpRequests (simulator w'))
     = map logged (httpRequests (simulator w)) ++ requested script.
Proof.
  induction script as [|a script IH]; intros budget w w' Hrun.
  - cbn [runStatements] in Hrun. injection Hrun as <-.
    cbn [List.filter List.length requested omap list_omap].
    rewrite app_nil_r. split; [lia | reflexivity].
  - assert (Hstep : forall w1,
              runStatements budget script w1 = (Normal, w') ->
              step a w = (Normal, w1) ->
              Stats.storageOps (stats (simulator w'))
              = (Stats.storageOps (stats (simulator w))
                 + List.length (List.filter isStorageCall (a :: script)))%nat
              /\ map logged (httpRequests (simulator w'))
                 = map logged (httpRequests (simulator w)) ++ requested (a :: script)).
    { intros w1 Hrest Hs.
      destruct (IH budget w1 w' Hrest) as (I2 & I3).
      destruct (step_effects a w) as (S2 & S3).
      rewrite Hs in S2, S3. cbn [snd] in S2, S3.
      rewrite I2, I3, S2, S3, requested_cons. cbn [List.filter].
      destruct (isStorageCall a), (requestOf a);
        cbn [List.length]; rewrite <- ?app_assoc; cbn [app];
        rewrite ?app_nil_r; split; (lia || reflexivity). }
    destruct a; cbn [runStatements] in Hrun;
      try (match type of Hrun with
           | context [step ?a w] =>
               destruct (step a w) as [[|m] w1] eqn:Hs; [|discriminate];
               exact (Hstep w1 Hrun eq_refl)
           end).
    destruct (ms <=? budget)%N; [|discriminate].
    destruct (IH (budget - ms)%N (advanceClock ms w) w' Hrun) as (I2 & I3).
    cbn [advanceClock simulator] in I2, I3.
    rewrite requested_cons. cbn [List.filter isStorageCall requestOf].
    auto.
Qed.

(** However the evaluation ends, no more calls are counted or logged than
    the fragment holds. *)
Lemma runStatements_bounds (script : Script) : forall budget w,
  Stats.storageOps (stats (simulator (snd (runStatements budget script w))))
  <= Stats.storageOps (stats (simulator w))
     + List.length (List.filter isStorageCall script)
  /\ List.length (httpRequests (simulator (snd (runStatements budget script w))))
     <= List.length (httpRequests (simulator w))
        + List.length (List.filter isHttpRequest script).
Proof.
  induction script as [|a script IH]; intros budget w.
  - cbn [runStatements snd List.filter List.length]. lia.
  - destruct a; cbn [runStatements];
      try (match goal with
           | |- context [step ?a w] =>
               destruct (step_effects a w) as (S1 & S2);
               apply (f_equal (@List.length _)) in S2;
               rewrite List.length_app, !List.length_map in S2;
               destruct (step a w) as [[|m] w1]; cbn [snd] in *;
               [ destruct (IH budget w1) as (I1 & I2) | ];
               cbn [List.filter isHttpRequest isStorageCall requestOf List.length] in *;
               lia
           end).
    destruct (ms <=? budget)%N.
    + destruct (IH (budget - ms)%N (advanceClock ms w)) as (I1 & I2).
      cbn [advanceClock simulator] in I1, I2.
      cbn [List.filter isHttpRequest isStorageCall]. lia.
    + cbn [snd advanceClock simulator]. lia.
Qed.

Lemma loadedScripts_cons (p : Project) (file : string) (order : list string) :
  loadedScripts p (file :: order)
  = match files p !! file with
    | Some script => script :: loadedScripts p order
    | None => loadedScripts p order
    end.
Proof. reflexivity. Qed.

Lemma loadedScripts_forallb (test : Script -> bool) (p : Project) (order : list string) :
  forallb test (loadedScripts p order) = true ->
  forall file script, In file order -> files p !! file = Some script -> test script = true.
Proof.
  induction order as [|f order IH]; intros H file script Hin Hfile; [destruct Hin|].
  rewrite loadedScripts_cons in H.
  destruct Hin as [->|Hin].
  - rewrite Hfile in H. cbn [forallb] in H. now apply andb_true_iff in H.
  - assert (Hrest : forallb test (loadedScripts p order) = true).
    { destruct (files p !! f); [|exact H].
      cbn [forallb] in H. now apply andb_true_iff in H. }
    exact (IH Hrest file script Hin Hfile).
Qed.

Lemma countCalls_cons (kind : action -> bool) (script : Script) (scripts : list Script) :
  countCalls kind (script :: scripts)
  = (List.length (List.filter kind script) + countCalls kind scripts)%nat.
Proof.
  unfold countCalls. cbn [concat]. now rewrite List.filter_app, List.length_app.
Qed.

Lemma loadScripts_effects (p : Project) (order : list string) : forall w w',
  loadScripts p order w = (Normal, w') ->
  loaded w' = (loaded w + List.length (loadedScripts p order))%nat
  /\ Stats.storageOps (stats (simulator w'))
     = (Stats.storageOps (stats (simulator w))
        + countCalls isStorageCall (loadedScripts p order))%nat
  /\ map logged (httpRequests (simulator w'))
     = map logged (httpRequests (simulator w))
       ++ requested (concat (loadedScripts p order)).
Proof.
  induction order as [|file order IH]; intros w w' Hload.
  - cbn [loadScripts] in Hload. injection Hload as <-.
    cbn. rewrite app_nil_r. repeat split; lia.
  - cbn [loadScripts] in Hload. rewrite loadedScripts_cons.
    unfold loadScript in Hload.
    destruct (files p !! file) as [script|]; [|exact (IH _ _ Hload)].
    destruct (runInNewContext script 5000%N w) as [[|m] w1] eqn:Hrun; [|discriminate].
    pose proof (runInNewContext_frame script 5000%N w) as (_ & _ & Hl).
    rewrite Hrun in Hl. cbn [snd] in Hl.
    unfold runInNewContext in Hrun.
    destruct (runStatements_effects script 5000%N (withGlobals (hoistAll script) w) w1 Hrun)
      as (E2 & E3).
    cbn [withGlobals simulator] in E2, E3.
    destruct (IH (withSimulator (withStats countFileLoaded) w1) w' Hload)
      as (I0 & I2 & I3).
    unfold loaded in *.
    cbn [withSimulator simulator withStats stats countFileLoaded
         Stats.filesLoaded Stats.httpRequests Stats.storageOps httpRequests] in I0, I2, I3.
    rewrite !countCalls_cons. cbn [List.length concat].
    unfold requested in *. rewrite omap_app.
    rewrite I3, E3, <- app_assoc.
    repeat split; lia.
Qed.

(** When the load fails, fewer fragments are counted than the load order
    holds, and no more calls than they hold. *)
Lemma loadScripts_bounds (p : Project) (order : list string) : forall w,
  Stats.storageOps (stats (simulator (snd (loadScripts p order w))))
  <= Stats.storageOps (stats (simulator w))
     + countCalls isStorageCall (loadedScripts p order)
  /\ List.length (httpRequests (simulator (snd (loadScripts p order w))))
     <= List.length (httpRequests (simulator w))
        + countCalls isHttpRequest (loadedScripts p order)
  /\ (forall m, fst (loadScripts p order w) = Thrown m ->
        loaded (snd (loadScripts p order w))
        < loaded w + List.length (loadedScripts p order)).
Proof.
  induction order as [|file order IH]; intros w.
  - cbn [loadScripts fst snd]. split; [lia|]. split; [lia|]. discriminate.
  - cbn [loadScripts]. rewrite loadedScripts_cons. unfold loadScript.
    destruct (files p !! file) as [script|]; [|exact (IH w)].
    pose proof (runInNewContext_frame script 5000%N w) as (_ & _ & Hl).
    unfold runInNewContext in *.
    pose proof (runStatements_bounds script 5000%N (withGlobals (hoistAll script) w))
      as (B1 & B2).
    destruct (runStatements 5000%N script (withGlobals (hoistAll script) w))
      as [[|m] w1]; cbn [fst snd withGlobals simulator] in *.
    + destruct (IH (withSimulator (withStats countFileLoaded) w1)) as (I1 & I2 & I3).
      unfold loaded in *.
      cbn [withSimulator simulator withStats stats countFileLoaded httpRequests
           Stats.filesLoaded Stats.httpRequests Stats.storageOps] in I1, I2, I3.
      rewrite !countCalls_cons. cbn [List.length].
      split; [lia|]. split; [lia|].
      intros m Hm. specialize (I3 m Hm). lia.
    + rewrite !countCalls_cons. cbn [List.length].
      split; [lia|]. split; [lia|]. intros _ _. lia.
Qed.

(** *** Requests that pass a config object

    While no fragment calls a request function without a config object, the
    counter of requests and the log grow together. *)

(** Only the two names of the sandbox are bound to a request function. *)
Lemma hoist_request (a : action) (g : gmap string binding) :
  (forall name, g !! name = Some BRequest ->
                callsRequestFunction (CallFunction name) = true) ->
  forall name, hoist a g !! name = Some BRequest ->
               callsRequestFunction (CallFunction name) = true.
Proof.
  intros Hg name. destruct a; cbn [hoist]; try apply Hg.
  - destruct (decide (name0 = name)) as [->|Hne].
    + rewrite lookup_insert_eq. discriminate.
    + rewrite lookup_insert_ne by exact Hne. apply Hg.
  - destruct (g !! name0) eqn:E; [apply Hg|].
    destruct (decide (name0 = name)) as [->|Hne].
    + rewrite lookup_insert_eq. discriminate.
    + rewrite lookup_insert_ne by exact Hne. apply Hg.
Qed.

Lemma hoistAll_request (script : Script) : forall g : gmap string binding,
  (forall name, g !! name = Some BRequest ->
                callsRequestFunction (CallFunction name) = true) ->
  forall name, hoistAll script g !! name = Some BRequest ->
               callsRequestFunction (CallFunction name) = true.
Proof.
  unfold hoistAll. induction script as [|a script IH]; intros g Hg; [exact Hg|].
  cbn [fold_left]. apply IH. now apply hoist_request.
Qed.

Lemma sandboxGlobals_request (name : string) :
  sandboxGlobals !! name = Some BRequest ->
  callsRequestFunction (CallFunction name) = true.
Proof.
  intros H. apply elem_of_map_to_list in H.
  let table := eval vm_compute in (map_to_list sandboxGlobals) in
  assert (E : map_to_list sandboxGlobals = table) by (vm_compute; reflexivity).
  rewrite E in H. clear E.
  repeat (apply elem_of_cons in H as [H|H];
          [ first [ discriminate H | injection H as ->; reflexivity ] | ]).
  apply elem_of_nil in H. contradiction.
Qed.

Section Balance.

(** The counter and the log keep the difference they start with. *)
Variables counted logged0 : nat.

Local Abbreviation balanced := (Engine.balanced counted logged0).

Lemma step_balanced (a : action) (w : World) :
  callsRequestFunction a = false -> balanced w -> balanced (snd (step a w)).
Proof.
  intros Ha [Hg Hb]. unfold Engine.balanced.
  destruct a as [name|name value|name|key value|config|path content|path|ms|message];
    cbn [step].
  - split; [exact Hg | exact Hb].
  - cbn [snd withGlobals simulator globals]. split; [|exact Hb]. intros n.
    destruct (decide (name = n)) as [->|Hne].
    + rewrite lookup_insert_eq. discriminate.
    + rewrite lookup_insert_ne by exact Hne. apply Hg.
  - destruct (globals w !! name) as [[| | | | |]|] eqn:E; cbn [snd];
      try (split; [exact Hg | exact Hb]).
    rewrite (Hg name E) in Ha. discriminate.
  - split; [exact Hg | exact Hb].
  - cbn [snd withSimulator simulator globals]. split; [exact Hg|].
    unfold handleHttpRequest.
    destruct (String.eqb _ _);
      cbn [snd pushHttpRequest withStats stats httpRequests countHttpRequest
           Stats.httpRequests];
      rewrite List.length_app; cbn [List.length]; lia.
  - cbn [snd withSimulator simulator globals]. split; [exact Hg|].
    unfold handleStorageWrite. destruct (String.eqb _ _); exact Hb.
  - cbn [snd withSimulator simulator globals]. split; [exact Hg|].
    unfold handleStorageRead. destruct (String.eqb _ _); exact Hb.
  - split; [exact Hg | exact Hb].
  - split; [exact Hg | exact Hb].
Qed.

Lemma runStatements_balanced (script : Script) : forall budget w,
  passesConfig script = true -> balanced w ->
  balanced (snd (runStatements budget script w)).
Proof.
  induction script as [|a script IH]; intros budget w Hp Hw; [exact Hw|].
  cbn [passesConfig forallb] in Hp. apply andb_true_iff in Hp as [Ha Hp].
  apply negb_true_iff in Ha.
  destruct a; cbn [runStatements];
    try (match goal with
         | |- context [step ?a w] =>
             pose proof (step_balanced a w Ha Hw) as Hs;
             destruct (step a w) as [[|m] w1]; cbn [snd] in *;
             [ exact (IH budget w1 Hp Hs) | exact Hs ]
         end).
  destruct (ms <=? budget)%N.
  - apply (IH (budget - ms)%N (advanceClock ms w) Hp). exact Hw.
  - exact Hw.
Qed.

Lemma loadScripts_balanced (p : Project) (order : list string) : forall w,
  (forall file script, In file order -> files p !! file = Some script ->
                       passesConfig script = true) ->
  balanced w -> balanced (snd (loadScripts p order w)).
Proof.
  induction order as [|file order IH]; intros w Hp Hw; [exact Hw|].
  cbn [loadScripts]. unfold loadScript.
  assert (Hrest : forall f s, In f order -> files p !! f = Some s ->
                              passesConfig s = true)
    by (intros f s Hf; apply Hp; now right).
  destruct (files p !! file) as [script|] eqn:Hfile; [|exact (IH w Hrest Hw)].
  assert (Hh : balanced (withGlobals (hoistAll script) w)).
  { destruct Hw as [Hg Hb]. split; [|exact Hb].
    cbn [withGlobals globals]. now apply hoistAll_request. }
  pose proof (runStatements_balanced script 5000%N _
                (Hp file script (or_introl eq_refl) Hfile) Hh) as Hrun.
  unfold runInNewContext.
  destruct (runStatements 5000%N script (withGlobals (hoistAll script) w))
    as [[|m] w1]; cbn [snd] in *.
  - apply (IH _ Hrest). exact Hrun.
  - exact Hrun.
Qed.

End Balance.

(** The log never grows by more entries than the counter counts. *)
Lemma execute_log_counter (p : Project) (sim : Simulator) (now : N) :
  Stats.httpRequests (stats sim)
  + List.length (httpRequests (snd (fst (execute p sim now))))
  <= Stats.httpRequests (stats (snd (fst (execute p sim now))))
     + List.length (httpRequests sim).
Proof.
  refine (execute_related
    (fun a b =>
       Stats.httpRequests (stats a) + List.length (httpRequests b)
       <= Stats.httpRequests (stats b) + List.length (httpRequests a))
    _ _ _ _ _ _ _ _ _ p sim now).
  - intros s0. lia.
  - intros a b c Hab Hbc. lia.
  - intros t0 config s0. unfold handleHttpRequest.
    destruct (String.eqb _ _);
      cbn [snd pushHttpRequest withStats stats httpRequests countHttpRequest
           Stats.httpRequests];
      rewrite List.length_app; cbn [List.length]; lia.
  - intros path content s0. unfold handleStorageWrite.
    destruct (String.eqb _ _); cbn; lia.
  - intros path s0. unfold handleStorageRead.
    destruct (String.eqb _ _); cbn; lia.
  - intros s0. cbn. lia.
  - intros s0. cbn. lia.
  - intros t0 s0. cbn. lia.
  - intros t0 s0. cbn. lia.
Qed.

End RunEffects.

(** X10. The counter of HTTP requests and the log of requests stay in step
    as long as every request passes a config object: if no fragment that is
    loaded calls jsonHttpRequest or httpRequest without an argument, and the
    simulator handed to execute has as many logged requests as its counter
    says (as a new simulator has), then so has the simulator the run leaves,
    whether the run returns or fails, and a report that is returned has
    httpRequests equal to the length of its httpLog. (A request function
    called without an argument is counted and not logged.) *)
Theorem X10_http_counter_matches_log
    (p : Engine.Project) (sim : Engine.Simulator) (now : N) :
  forallb Engine.passesConfig (Engine.loadedScripts p (Engine.loadOrder p)) = true ->
  Engine.Stats.httpRequests (Engine.stats sim) = List.length (Engine.httpRequests sim) ->
  let '(result, sim', _) := Engine.execute p sim now in
  Engine.Stats.httpRequests (Engine.stats sim') = List.length (Engine.httpRequests sim')
  /\ match result with
     | Engine.Returned report =>
         Engine.Report.httpRequests report
         = List.length (Engine.Report.httpLog report)
     | Engine.Failed _ => True
     end.
Proof.
  intros Hpass Hsim.
  assert (Hkept :
    Engine.Stats.httpRequests (Engine.stats (snd (fst (Engine.execute p sim now))))
    = List.length (Engine.httpRequests (snd (fst (Engine.execute p sim now))))).
  { unfold Engine.execute, Engine.loadProjectFiles.
    match goal with
    | |- context [Engine.loadScripts p (Engine.loadOrder p) ?w0] =>
        pose proof (loadScripts_balanced 0 0 p (Engine.loadOrder p) w0
                      (loadedScripts_forallb _ p _ Hpass)) as Hb;
        destruct (Engine.loadScripts p (Engine.loadOrder p) w0) as [[|m] w1]
    end; cbn [fst snd] in *;
      (destruct Hb as [_ Hb];
       [ split; [exact sandboxGlobals_request | cbn; lia]
       | cbn in Hb |- *; lia ]). }
  pose proof (execute_report p sim now) as Hrep.
  destruct (Engine.execute p sim now) as [[result sim'] t]. cbn [fst snd] in *.
  split; [exact Hkept|].
  destruct result as [report|m]; [|exact I].
  destruct (Hrep report eq_refl) as (_ & Hh & _ & Hlog).
  now rewrite Hh, Hlog.
Qed.

Lemma X10_http_counter_matches_log_witness :
  let config := Engine.HttpConfig.make None "https://api.example.com/x" JUndefined JUndefined in
  let project :=
    {| Engine.files :=
         {[ "src/callScripts/main.js" :=
              [Engine.HttpRequest config; Engine.HttpRequest config] ]};
       Engine.libsDir := Engine.NoDirectory;
       Engine.projectJson := None |} in
  let '(result, sim', _) :=
    Engine.execute project (Engine.newSimulator (Engine.Options.make None None None)) 0%N in
  Engine.Stats.httpRequests (Engine.stats sim') = List.length (Engine.httpRequests sim')
  /\ match result with
     | Engine.Returned report =>
         Engine.Report.httpRequests report
         = List.length (Engine.Report.httpLog report)
     | Engine.Failed _ => True
     end.
Proof.
  intros config project.
  apply (X10_http_counter_matches_log project
           (Engine.newSimulator (Engine.Options.make None None None)) 0%N).
  - reflexivity.
  - reflexivity.
Defined.

(** X11. The first failure ends the load. If the load of a fragment throws
    after the fragments before it were loaded, then the load of the whole
    order ends with that error and in the state the failing fragment left:
    whatever fragments follow it in the order, none of them is evaluated. *)
Theorem X11_first_failure_ends_the_load
    (p : Engine.Project) (before after : list string) (file : string)
    (w w1 w2 : Engine.World) (message : string) :
  Engine.loadScripts p before w = (Engine.Normal, w1) ->
  Engine.loadScript p file w1 = (Engine.Thrown message, w2) ->
  Engine.loadScripts p (before ++ file :: after) w = (Engine.Thrown message, w2).
Proof.
  intros Hbefore Hfile.
  rewrite loadScripts_app, Hbefore. cbn [Engine.loadScripts].
  now rewrite Hfile.
Qed.

Lemma X11_first_failure_ends_the_load_witness :
  let project :=
    {| Engine.files :=
         {[ "src/globalCode.js" := [Engine.DeclareFunction "f"];
            "src/globalVariables.js" := [Engine.CallFunction "g"];
            "src/callScripts/main.js" := [Engine.StorageWriteFile "a.txt" (JStr "x")] ]};
       Engine.libsDir := Engine.NoDirectory;
       Engine.projectJson := None |} in
  let w :=
    {| Engine.simulator := Engine.newSimulator (Engine.Options.make None None None);
       Engine.globals := ∅;
       Engine.sessionVariables := ∅;
       Engine.clock := 0%N |} in
  fst (Engine.loadScripts project
         (["src/globalCode.js"] ++ "src/globalVariables.js" :: ["src/callScripts/main.js"]) w)
  = Engine.Thrown "Error in src/globalVariables.js: g is not defined".
Proof.
  intros project w.
  set (w1 := snd (Engine.loadScripts project ["src/globalCode.js"] w)).
  set (w2 := snd (Engine.loadScript project "src/globalVariables.js" w1)).
  assert (H1 : Engine.loadScripts project ["src/globalCode.js"] w = (Engine.Normal, w1))
    by (vm_compute; reflexivity).
  assert (H2 : Engine.loadScript project "src/globalVariables.js" w1
               = (Engine.Thrown "Error in src/globalVariables.js: g is not defined", w2))
    by (vm_compute; reflexivity).
  rewrite (X11_first_failure_ends_the_load project
             ["src/globalCode.js"] ["src/callScripts/main.js"] "src/globalVariables.js"
             w w1 w2 "Error in src/globalVariables.js: g is not defined" H1 H2).
  reflexivity.
Defined.


(** X13. The report counts the host calls of the fragments it loaded. When
    the run returns, storageOps is the earlier count plus the number of
    Storage calls in the top-level code of the files of the load order that
    exist, and the log holds, after what it held before, one entry for each
    of their requests that pass a config object, in load order and then in
    the order of the calls, with the method (GET by default) and the url of
    the call. The counter httpRequests is the earlier count plus at least
    the number of these requests, and exactly that number when no fragment
    loaded calls a request function without an argument. When the run fails,
    the counter of storage operations and the log do not exceed these
    numbers. *)
Theorem X13_report_counts_host_calls
    (p : Engine.Project) (sim : Engine.Simulator) (now : N) :
  let scripts := Engine.loadedScripts p (Engine.loadOrder p) in
  match Engine.execute p sim now with
  | (Engine.Returned report, _, _) =>
      Engine.Report.storageOps report
      = (Engine.Stats.storageOps (Engine.stats sim)
         + Engine.countCalls Engine.isStorageCall scripts)%nat
      /\ map Engine.logged (Engine.Report.httpLog report)
         = map Engine.logged (Engine.httpRequests sim)
           ++ Engine.requested (concat scripts)
      /\ Engine.Stats.httpRequests (Engine.stats sim)
         + Engine.countCalls Engine.isHttpRequest scripts
         <= Engine.Report.httpRequests report
      /\ (forallb Engine.passesConfig scripts = true ->
          Engine.Report.httpRequests report
          = (Engine.Stats.httpRequests (Engine.stats sim)
             + Engine.countCalls Engine.isHttpRequest scripts)%nat)
  | (Engine.Failed _, sim', _) =>
      Engine.Stats.storageOps (Engine.stats sim')
      <= Engine.Stats.storageOps (Engine.stats sim)
         + Engine.countCalls Engine.isStorageCall scripts
      /\ List.length (Engine.httpRequests sim')
         <= List.length (Engine.httpRequests sim)
            + Engine.countCalls Engine.isHttpRequest scripts
  end.
Proof.
  intros scripts. subst scripts.
  pose proof (execute_log_counter p sim now) as Hlow.
  assert (Hexact :
    forallb Engine.passesConfig (Engine.loadedScripts p (Engine.loadOrder p)) = true ->
    Engine.Stats.httpRequests (Engine.stats (snd (fst (Engine.execute p sim now))))
    + List.length (Engine.httpRequests sim)
    = List.length (Engine.httpRequests (snd (fst (Engine.execute p sim now))))
      + Engine.Stats.httpRequests (Engine.stats sim)).
  { intros Hpass. unfold Engine.execute, Engine.loadProjectFiles.
    match goal with
    | |- context [Engine.loadScripts p (Engine.loadOrder p) ?w0] =>
        pose proof (loadScripts_balanced
                      (Engine.Stats.httpRequests (Engine.stats sim))
                      (List.length (Engine.httpRequests sim))
                      p (Engine.loadOrder p) w0
                      (loadedScripts_forallb _ p _ Hpass)) as Hb;
        destruct (Engine.loadScripts p (Engine.loadOrder p) w0) as [[|m] w1]
    end; cbn [fst snd] in *;
      (destruct Hb as [_ Hb];
       [ split; [exact sandboxGlobals_request | cbn; lia]
       | cbn in Hb |- *; lia ]). }
  revert Hlow Hexact.
  unfold Engine.execute, Engine.loadProjectFiles.
  match goal with
  | |- context [Engine.loadScripts p (Engine.loadOrder p) ?w0] =>
      pose proof (loadScripts_effects p (Engine.loadOrder p) w0) as He;
      pose proof (loadScripts_bounds p (Engine.loadOrder p) w0) as (B1 & B2 & _);
      destruct (Engine.loadScripts p (Engine.loadOrder p) w0) as [[|m] w1]
  end; cbn [fst snd] in *; intros Hlow Hexact.
  - destruct (He w1 eq_refl) as (_ & H2 & H3).
    cbn [Engine.Report.storageOps Engine.Report.httpLog Engine.Report.httpRequests
         Engine.withStats Engine.stats Engine.httpRequests Engine.setEndTime
         Engine.setStartTime Engine.Stats.httpRequests Engine.Stats.storageOps
         Engine.simulator] in *.
    assert (Hlen : List.length (Engine.httpRequests (Engine.simulator w1))
                   = List.length (Engine.httpRequests sim)
                     + Engine.countCalls Engine.isHttpRequest
                         (Engine.loadedScripts p (Engine.loadOrder p))).
    { apply (f_equal (@List.length _)) in H3.
      rewrite List.length_app, !List.length_map, requested_length in H3.
      exact H3. }
    split; [exact H2|]. split; [exact H3|]. split; [lia|].
    intros Hpass. specialize (Hexact Hpass). lia.
  - cbn [Engine.withStats Engine.stats Engine.httpRequests Engine.setStartTime
         Engine.Stats.storageOps Engine.simulator] in *.
    split; assumption.
Qed.

(** X14. A run takes nothing back. Whether execute returns or fails, the
    simulator it leaves has the modes and the environment it had, every
    path that held a text still holds one, the log of requests begins with
    the log as it was, and no counter is lower than before: the counters
    and the log of a simulator used for several runs accumulate. *)
Theorem X14_run_takes_nothing_back
    (p : Engine.Project) (sim : Engine.Simulator) (now : N) :
  let sim' := snd (fst (Engine.execute p sim now)) in
  (Engine.httpMode sim' = Engine.httpMode sim
   /\ Engine.storageMode sim' = Engine.storageMode sim
   /\ Engine.environment sim' = Engine.environment sim)
  /\ (forall path, is_Some (Engine.memoryStorage sim !! path) ->
                   is_Some (Engine.memoryStorage sim' !! path))
  /\ (exists added, Engine.httpRequests sim' = Engine.httpRequests sim ++ added)
  /\ (Engine.Stats.filesLoaded (Engine.stats sim)
        <= Engine.Stats.filesLoaded (Engine.stats sim')
      /\ Engine.Stats.httpRequests (Engine.stats sim)
           <= Engine.Stats.httpRequests (Engine.stats sim')
      /\ Engine.Stats.storageOps (Engine.stats sim)
           <= Engine.Stats.storageOps (Engine.stats sim')).
Proof.
  refine (execute_related
    (fun a b =>
       (Engine.httpMode b = Engine.httpMode a
        /\ Engine.storageMode b = Engine.storageMode a
        /\ Engine.environment b = Engine.environment a)
       /\ (forall path, is_Some (Engine.memoryStorage a !! path) ->
                        is_Some (Engine.memoryStorage b !! path))
       /\ (exists added, Engine.httpRequests b = Engine.httpRequests a ++ added)
       /\ (Engine.Stats.filesLoaded (Engine.stats a)
             <= Engine.Stats.filesLoaded (Engine.stats b)
           /\ Engine.Stats.httpRequests (Engine.stats a)
                <= Engine.Stats.httpRequests (Engine.stats b)
           /\ Engine.Stats.storageOps (Engine.stats a)
                <= Engine.Stats.storageOps (Engine.stats b)))
    _ _ _ _ _ _ _ _ _ p sim now).
  - intros s0. split; [auto|]. split; [auto|]. split; [|lia].
    exists []. now rewrite app_nil_r.
  - intros a b c ((A1 & A2 & A3) & A4 & (l1 & A5) & A6)
                  ((B1 & B2 & B3) & B4 & (l2 & B5) & B6).
    split; [repeat split; congruence|]. split; [auto|]. split; [|lia].
    exists (l1 ++ l2). now rewrite B5, A5, app_assoc.
  - intros t0 config s0. unfold Engine.handleHttpRequest.
    destruct (String.eqb _ _);
      cbn [snd Engine.pushHttpRequest Engine.withStats Engine.stats Engine.httpMode
           Engine.storageMode Engine.environment Engine.memoryStorage
           Engine.httpRequests Engine.countHttpRequest Engine.Stats.httpRequests
           Engine.Stats.filesLoaded Engine.Stats.storageOps];
      (split; [auto|]); (split; [auto|]); (split; [eexists; reflexivity | lia]).
  - intros path content s0. unfold Engine.handleStorageWrite.
    destruct (String.eqb _ _);
      cbn [snd Engine.withMemoryStorage Engine.withStats Engine.stats Engine.httpMode
           Engine.storageMode Engine.environment Engine.memoryStorage
           Engine.httpRequests Engine.countStorageOp Engine.Stats.httpRequests
           Engine.Stats.filesLoaded Engine.Stats.storageOps];
      (split; [auto|]); (split; [|split; [exists []; now rewrite app_nil_r | lia]]).
    + intros path' H. apply lookup_insert_is_Some'. now right.
    + auto.
  - intros path s0. unfold Engine.handleStorageRead.
    destruct (String.eqb _ _);
      cbn [snd Engine.withStats Engine.stats Engine.httpMode
           Engine.storageMode Engine.environment Engine.memoryStorage
           Engine.httpRequests Engine.countStorageOp Engine.Stats.httpRequests
           Engine.Stats.filesLoaded Engine.Stats.storageOps];
      (split; [auto|]); (split; [auto|]);
      (split; [exists []; now rewrite app_nil_r | lia]).
  - intros s0. cbn. split; [auto|]. split; [auto|].
    split; [exists []; now rewrite app_nil_r | lia].
  - intros s0. cbn. split; [auto|]. split; [auto|].
    split; [exists []; now rewrite app_nil_r | lia].
  - intros t0 s0. cbn. split; [auto|]. split; [auto|].
    split; [exists []; now rewrite app_nil_r | lia].
  - intros t0 s0. cbn. split; [auto|]. split; [auto|].
    split; [exists []; now rewrite app_nil_r | lia].
Qed.

Section SessionVariables.
Import Engine.




End SessionVariables.



(** X16. getLibraryFiles returns the names of the directory listing that end
    in .js, each as often as the listing holds it and nothing else, in
    ascending order of their code units; for a directory that is missing or
    cannot be read it returns the empty list. *)
Theorem X16_getLibraryFiles_js_names_in_code_unit_order (dir : Engine.directory) :
  Permutation
    (Engine.getLibraryFiles dir)
    (match dir with
     | Engine.Listing names => List.filter (fun file => Engine.endsWith file ".js") names
     | _ => []
     end)
  /\ List.Forall (fun file => Engine.endsWith file ".js" = true)
       (Engine.getLibraryFiles dir)
  /\ Sorted (fun a b => (Sorting.codeUnitCompare a b <= 0)%Z)
       (Engine.getLibraryFiles dir).
Proof.
  destruct dir as [| |names]; cbn [Engine.getLibraryFiles];
    try (split; [apply perm_nil|]; split; constructor).
  split; [apply arraySort_perm|]. split.
  - apply arraySort_Forall, List.Forall_forall. intros x Hx.
    now apply filter_In in Hx.
  - apply arraySort_sorted. exact codeUnitCompare_sign.
Qed.

(** ** workspace.js *)

Section WorkspaceFacts.
Import Workspace.

Lemma dirname_snoc (p : path) (name : string) : dirname (p ++ [name]) = p.
Proof. apply removelast_last. Qed.

Lemma snoc_not_self (p : path) (name : string) : p ++ [name] <> p.
Proof.
  intros H. apply (f_equal (@List.length string)) in H.
  rewrite List.length_app in H. cbn [List.length] in H. lia.
Qed.

Lemma prefix_snoc_cases (d p : path) (name : string) :
  d `prefix_of` (p ++ [name]) -> d = p ++ [name] \/ d `prefix_of` p.
Proof.
  intros [k Hk]. destruct k as [|y k] using rev_ind.
  - left. now rewrite app_nil_r in Hk.
  - right. rewrite app_assoc in Hk. apply app_inj_tail in Hk as [Hk _].
    now exists k.
Qed.

Lemma prefix_both (a b : path) : a `prefix_of` b -> b `prefix_of` a -> a = b.
Proof.
  intros [k Hk] [k' Hk']. rewrite Hk' in Hk at 1.
  rewrite <- app_assoc in Hk.
  assert (Hl : List.length (k' ++ k) = 0).
  { apply (f_equal (@List.length string)) in Hk.
    rewrite List.length_app in Hk. lia. }
  rewrite List.length_app in Hl.
  destruct k'; [|cbn in Hl; lia].
  now rewrite app_nil_r in Hk'.
Qed.

(** The loop, given rounds enough for the length of the path. *)
Lemma searchUpward_spec (fs : FileSystem) (current : path) : forall rounds,
  List.length current < rounds ->
  match searchUpward fs rounds current with
  | Engine.Resolved root =>
      root <> []
      /\ root `prefix_of` current
      /\ hasWorkspaces fs root = true
      /\ (forall d, root `prefix_of` d -> d `prefix_of` current ->
                    hasWorkspaces fs d = true -> d = root)
  | Engine.Rejected reason =>
      reason = "Workspace root not found. Make sure you are in a Vocalls workspace."
      /\ (forall d, d <> [] -> d `prefix_of` current -> hasWorkspaces fs d = false)
  end.
Proof.
  induction current as [|name parent IH] using rev_ind; intros rounds Hr.
  - destruct rounds as [|rounds]; [lia|]. cbn [searchUpward dirname removelast].
    rewrite bool_decide_eq_true_2 by reflexivity.
    split; [reflexivity|]. intros d Hd Hp.
    apply prefix_nil_inv in Hp. contradiction.
  - destruct rounds as [|rounds]; [lia|]. cbn [searchUpward].
    rewrite dirname_snoc.
    rewrite bool_decide_eq_false_2 by apply snoc_not_self.
    destruct (hasWorkspaces fs (parent ++ [name])) eqn:Hw.
    + split; [now destruct parent|]. split; [reflexivity|]. split; [exact Hw|].
      intros d H1 H2 _. now apply prefix_both.
    + rewrite List.length_app in Hr. cbn [List.length] in Hr.
      specialize (IH rounds ltac:(lia)).
      destruct (searchUpward fs rounds parent) as [root|reason].
      * destruct IH as (I1 & I2 & I3 & I4).
        split; [exact I1|]. split; [now apply prefix_app_r|]. split; [exact I3|].
        intros d H1 H2 H3. apply prefix_snoc_cases in H2 as [->|H2].
        -- congruence.
        -- now apply I4.
      * destruct IH as (I1 & I2). split; [exact I1|].
        intros d Hd Hp. apply prefix_snoc_cases in Hp as [->|Hp].
        -- exact Hw.
        -- now apply I2.
Qed.

Lemma findProject_cases (fs : FileSystem) (cwd : path) (projectName : string) :
  match findProject fs cwd projectName with
  | Engine.Resolved projectPath =>
      exists workspaceRoot,
        findWorkspaceRoot fs cwd = Engine.Resolved workspaceRoot
        /\ projectPath = join workspaceRoot ["projects"; projectName]
        /\ stat fs projectPath = Engine.Resolved IsDirectory
  | Engine.Rejected reason =>
      findWorkspaceRoot fs cwd = Engine.Rejected reason
      \/ (reason = ("Project not found: " ++ projectName)%string
          /\ exists workspaceRoot,
               findWorkspaceRoot fs cwd = Engine.Resolved workspaceRoot
               /\ stat fs (join workspaceRoot ["projects"; projectName])
                  <> Engine.Resolved IsDirectory)
  end.
Proof.
  unfold findProject.
  destruct (findWorkspaceRoot fs cwd) as [root|reason]; [|now left].
  destruct (stat fs (join root ["projects"; projectName])) as [[|]|reason] eqn:Hs;
    cbn [tryCatch].
  - right. split; [reflexivity|]. exists root. split; [reflexivity|].
    rewrite Hs. discriminate.
  - exists root. now repeat split.
  - right. split; [reflexivity|]. exists root. split; [reflexivity|].
    rewrite Hs. discriminate.
Qed.

Lemma splitFrom_no_separator (s : string) : forall piece,
  hasSeparator s = false ->
  Validation.splitFrom "/" 0 piece s = [(piece ++ s)%string].
Proof.
  induction s as [|c s IH]; intros piece Hs; cbn [Validation.splitFrom].
  - now rewrite append_nil_r.
  - cbn [hasSeparator] in Hs. apply orb_false_iff in Hs as [Hc Hs].
    cbn [Validation.dropPrefix]. rewrite Ascii.eqb_sym, Hc.
    rewrite (IH _ Hs), append_assoc. reflexivity.
Qed.

Lemma join_plain (base : path) (name : string) :
  plainName name = true -> join base [name] = base ++ [name].
Proof.
  unfold plainName. intros H.
  apply andb_true_iff in H as [H Hsep].
  apply andb_true_iff in H as [H Hdd].
  apply andb_true_iff in H as [He Hd].
  apply negb_true_iff in He, Hd, Hdd, Hsep.
  unfold join. cbn [flat_map]. rewrite app_nil_r.
  unfold Validation.split. rewrite (splitFrom_no_separator name "" Hsep).
  cbn [fold_left]. unfold joinSegment.
  change ("" ++ name)%string with name.
  now rewrite He, Hd, Hdd.
Qed.

Lemma join_app (base : path) (names more : list string) :
  join base (names ++ more) = join (join base names) more.
Proof. unfold join. now rewrite flat_map_app, fold_left_app. Qed.

End WorkspaceFacts.

(** X19. findWorkspaceRoot returns the nearest directory, from the working
    directory upward, whose package.json is read, parsed and has a truthy
    workspaces field: the directory returned is the working directory or one
    above it, and no directory between the two qualifies. The root of the
    file system is never examined, so it is never returned. When no
    directory from the working directory up to, but not including, the root
    qualifies, the call fails with the error Workspace root not found. *)
Theorem X19_findWorkspaceRoot_nearest_ancestor
    (fs : Workspace.FileSystem) (cwd : Workspace.path) :
  match Workspace.findWorkspaceRoot fs cwd with
  | Engine.Resolved root =>
      root <> []
      /\ root `prefix_of` cwd
      /\ Workspace.hasWorkspaces fs root = true
      /\ (forall d, root `prefix_of` d -> d `prefix_of` cwd ->
                    Workspace.hasWorkspaces fs d = true -> d = root)
  | Engine.Rejected reason =>
      reason = "Workspace root not found. Make sure you are in a Vocalls workspace."
      /\ (forall d, d <> [] -> d `prefix_of` cwd -> Workspace.hasWorkspaces fs d = false)
  end.
Proof.
  unfold Workspace.findWorkspaceRoot. apply searchUpward_spec. lia.
Qed.

(** X20. findProject resolves only with a path that stat reports as a
    directory, and it fails with one of two errors only: Workspace root not
    found, passed on from findWorkspaceRoot, or Project not found followed
    by the name. The error Project ... is not a directory, thrown inside the
    try block when the path is a file, is caught by the catch of the same
    statement and never reaches the caller. *)
Theorem X20_findProject_errors
    (fs : Workspace.FileSystem) (cwd : Workspace.path) (projectName : string) :
  match Workspace.findProject fs cwd projectName with
  | Engine.Resolved projectPath =>
      Workspace.stat fs projectPath = Engine.Resolved Workspace.IsDirectory
  | Engine.Rejected reason =>
      reason = "Workspace root not found. Make sure you are in a Vocalls workspace."
      \/ reason = ("Project not found: " ++ projectName)%string
  end.
Proof.
  pose proof (findProject_cases fs cwd projectName) as H.
  pose proof (searchUpward_spec fs cwd (S (List.length cwd)) ltac:(lia)) as Hroot.
  fold (Workspace.findWorkspaceRoot fs cwd) in Hroot.
  destruct (Workspace.findProject fs cwd projectName) as [projectPath|reason].
  - destruct H as (root & _ & _ & Hs). exact Hs.
  - destruct H as [H|[H _]]; [|now right].
    rewrite H in Hroot. left. exact (proj1 Hroot).
Qed.

(** X21. Every project that listAllProjects lists is found by findProject.
    Given that the workspace root is found, that the projects directory can
    be listed, that the names of its entries are such as a directory holds
    (not empty, without separator), and that stat agrees with the listing on
    which entries are directories: the names listed are those of the
    directory entries that do not begin with a dot, and findProject resolves
    each of them to its directory under projects. *)
Theorem X21_listed_projects_are_found
    (fs : Workspace.FileSystem) (cwd root : Workspace.path)
    (entries : list Workspace.Dirent.t) :
  Workspace.findWorkspaceRoot fs cwd = Engine.Resolved root ->
  Workspace.readdir fs (root ++ ["projects"]) = Some entries ->
  (forall entry, In entry entries ->
     Workspace.Dirent.name entry <> ""
     /\ Workspace.hasSeparator (Workspace.Dirent.name entry) = false) ->
  (forall entry, In entry entries ->
     Workspace.Dirent.isDirectory entry = true ->
     Workspace.stat fs (root ++ ["projects"; Workspace.Dirent.name entry])
     = Engine.Resolved Workspace.IsDirectory) ->
  exists names,
    Workspace.listAllProjects fs cwd = Engine.Resolved names
    /\ (forall name,
          In name names <->
          exists entry, In entry entries
                        /\ Workspace.Dirent.name entry = name
                        /\ Workspace.Dirent.isDirectory entry = true
                        /\ startsWith name "." = false)
    /\ (forall name, In name names ->
          Workspace.findProject fs cwd name
          = Engine.Resolved (root ++ ["projects"; name])).
Proof.
  intros Hroot Hdir Hnames Hstat.
  assert (Hprojects : Workspace.join root ["projects"] = root ++ ["projects"])
    by (apply join_plain; reflexivity).
  unfold Workspace.listAllProjects. rewrite Hroot. cbv zeta.
  rewrite Hprojects, Hdir.
  eexists. split; [reflexivity|].
  assert (Hin : forall name,
    In name (map Workspace.Dirent.name
               (List.filter
                  (fun entry =>
                     Workspace.Dirent.isDirectory entry
                     && negb (startsWith (Workspace.Dirent.name entry) "."))
                  entries))
    <-> exists entry, In entry entries
                      /\ Workspace.Dirent.name entry = name
                      /\ Workspace.Dirent.isDirectory entry = true
                      /\ startsWith name "." = false).
  { intros name. rewrite in_map_iff. split.
    - intros (entry & <- & He). apply filter_In in He as [He Hb].
      apply andb_true_iff in Hb as [Hd Hs]. apply negb_true_iff in Hs.
      exists entry. now repeat split.
    - intros (entry & He & <- & Hd & Hs). exists entry. split; [reflexivity|].
      apply filter_In. split; [exact He|]. now rewrite Hd, Hs. }
  split; [exact Hin|].
  intros name Hname. apply Hin in Hname as (entry & He & <- & Hd & Hs).
  destruct (Hnames entry He) as [Hne Hsep].
  assert (Hplain : Workspace.plainName (Workspace.Dirent.name entry) = true).
  { unfold Workspace.plainName. rewrite Hsep.
    apply String.eqb_neq in Hne. rewrite Hne.
    destruct (Workspace.Dirent.name entry) as [|c s]; [discriminate|].
    unfold startsWith in Hs. cbn [String.prefix] in Hs.
    destruct (Ascii.ascii_dec "."%char c) as [<-|Hc]; [destruct s; discriminate|].
    cbn [String.eqb]. apply Ascii.eqb_neq in Hc.
    rewrite Ascii.eqb_sym, Hc. reflexivity. }
  assert (Hpath : Workspace.join root ["projects"; Workspace.Dirent.name entry]
                  = root ++ ["projects"; Workspace.Dirent.name entry]).
  { change ["projects"; Workspace.Dirent.name entry]
      with (["projects"] ++ [Workspace.Dirent.name entry]).
    rewrite join_app, Hprojects, join_plain by exact Hplain.
    now rewrite <- app_assoc. }
  unfold Workspace.findProject. rewrite Hroot. cbv zeta.
  rewrite Hpath, (Hstat entry He Hd). reflexivity.
Qed.

Lemma X21_listed_projects_are_found_witness :
  let fs :=
    {| Workspace.stat := fun p =>
         if bool_decide (p = ["home"; "voc"; "projects"; "acme"])
            || bool_decide (p = ["home"; "voc"; "projects"; ".git"])
         then Engine.Resolved Workspace.IsDirectory
         else Engine.Rejected "ENOENT";
       Workspace.readJson := fun p =>
         if bool_decide (p = ["home"; "voc"; "package.json"])
         then Some (Workspace.JsonObject
                      {[ "workspaces" :=
                           Workspace.JsonArray [Workspace.JsonString "core"] ]})
         else None;
       Workspace.readdir := fun p =>
         if bool_decide (p = ["home"; "voc"; "projects"])
         then Some [Workspace.Dirent.make "acme" true;
                    Workspace.Dirent.make ".git" true;
                    Workspace.Dirent.make "notes.txt" false]
         else None |} in
  exists names,
    Workspace.listAllProjects fs ["home"; "voc"; "core"; "src"] = Engine.Resolved names
    /\ (forall name,
          In name names <->
          exists entry,
            In entry [Workspace.Dirent.make "acme" true;
                      Workspace.Dirent.make ".git" true;
                      Workspace.Dirent.make "notes.txt" false]
            /\ Workspace.Dirent.name entry = name
            /\ Workspace.Dirent.isDirectory entry = true
            /\ startsWith name "." = false)
    /\ (forall name, In name names ->
          Workspace.findProject fs ["home"; "voc"; "core"; "src"] name
          = Engine.Resolved (["home"; "voc"] ++ ["projects"; name])).
Proof.
  intros fs.
  apply (X21_listed_projects_are_found fs ["home"; "voc"; "core"; "src"] ["home"; "voc"]
           [Workspace.Dirent.make "acme" true;
            Workspace.Dirent.make ".git" true;
            Workspace.Dirent.make "notes.txt" false]).
  - vm_compute. reflexivity.
  - vm_compute. reflexivity.
  - intros entry [<-|[<-|[<-|[]]]]; split; (discriminate || reflexivity).
  - intros entry [<-|[<-|[<-|[]]]] Hd; try discriminate; vm_compute; reflexivity.
Defined.

(** X22. What getProjectInfo returns: the field path is always the path of
    the project as findProject gave it, whatever project.json says under
    that key; every other field is the one of project.json when project.json
    is read, parsed and has it, and otherwise the default (name: the project
    name, customer: Unknown, description: empty, version: 1.0.0; no other
    default). The call fails only when findProject fails, with its error. *)
Theorem X22_getProjectInfo_fields
    (fs : Workspace.FileSystem) (cwd : Workspace.path) (projectName : string) :
  match Workspace.getProjectInfo fs cwd projectName with
  | Engine.Resolved info =>
      exists projectPath,
        Workspace.findProject fs cwd projectName = Engine.Resolved projectPath
        /\ info !! "path"
           = Some (Workspace.JsonString (Workspace.pathString projectPath))
        /\ forall key, key <> "path" ->
             info !! key
             = match Workspace.readJson fs (Workspace.join projectPath ["project.json"]) with
               | Some parsed =>
                   match Workspace.ownProperties parsed !! key with
                   | Some value => Some value
                   | None => Workspace.defaultInfo projectName !! key
                   end
               | None => Workspace.defaultInfo projectName !! key
               end
  | Engine.Rejected reason =>
      Workspace.findProject fs cwd projectName = Engine.Rejected reason
  end.
Proof.
  unfold Workspace.getProjectInfo.
  destruct (Workspace.findProject fs cwd projectName) as [projectPath|reason];
    [|reflexivity].
  exists projectPath. split; [reflexivity|]. split; [apply lookup_insert_eq|].
  intros key Hkey. rewrite lookup_insert_ne by congruence.
  destruct (Workspace.readJson fs (Workspace.join projectPath ["project.json"]))
    as [parsed|]; [|reflexivity].
  rewrite lookup_union.
  destruct (Workspace.ownProperties parsed !! key),
           (Workspace.defaultInfo projectName !! key); reflexivity.
Qed.

(** ** simulate.js *)

Section SimulateFacts.
Import Engine.


End SimulateFacts.

(** X23. simulateProject on a project that is missing: when the workspace
    root is found but the path of the project under projects is not a
    directory (it does not exist, or it is a file), the call fails with the
    error Project not found followed by the name, whatever the options. *)
Theorem X23_simulate_missing_project
    (fs : Workspace.FileSystem) (cwd root : Workspace.path)
    (disk : Workspace.path -> Engine.Project)
    (projectName : string) (options : Simulate.Options.t) (now : N) :
  Workspace.findWorkspaceRoot fs cwd = Engine.Resolved root ->
  Workspace.stat fs (Workspace.join root ["projects"; projectName])
    <> Engine.Resolved Workspace.IsDirectory ->
  Simulate.simulateProject fs cwd disk projectName options now
  = Engine.Failed ("Project not found: " ++ projectName).
Proof.
  intros Hroot Hstat.
  unfold Simulate.simulateProject, Workspace.findProject. rewrite Hroot. cbv zeta.
  destruct (Workspace.stat fs (Workspace.join root ["projects"; projectName]))
    as [[|]|reason]; cbn [Workspace.tryCatch]; try reflexivity.
  now contradiction Hstat.
Qed.

Lemma X23_simulate_missing_project_witness :
  let fs :=
    {| Workspace.stat := fun p =>
         if bool_decide (p = ["home"; "voc"; "projects"; "notes.txt"])
         then Engine.Resolved Workspace.IsFile
         else Engine.Rejected "ENOENT";
       Workspace.readJson := fun p =>
         if bool_decide (p = ["home"; "voc"; "package.json"])
         then Some (Workspace.JsonObject
                      {[ "workspaces" :=
                           Workspace.JsonArray [Workspace.JsonString "core"] ]})
         else None;
       Workspace.readdir := fun _ => None |} in
  let disk := fun _ : Workspace.path =>
    {| Engine.files := ∅; Engine.libsDir := Engine.NoDirectory;
       Engine.projectJson := None |} in
  Simulate.simulateProject fs ["home"; "voc"] disk "notes.txt"
    (Simulate.Options.make None None None None) 0%N
  = Engine.Failed "Project not found: notes.txt".
Proof.
  intros fs disk.
  apply (X23_simulate_missing_project fs ["home"; "voc"] ["home"; "voc"] disk
           "notes.txt" (Simulate.Options.make None None None None) 0%N).
  - vm_compute. reflexivity.
  - vm_compute. discriminate.
Defined.



(** ** validation.js: validateVocallsGlobals *)

Section GlobalsFacts.
Import Validation.



End GlobalsFacts.




(** ** engine.js: the sandbox and the storage over a run *)

Section SandboxFacts.
Import Engine.

Lemma hoistAll_undeclared (script : Script) (name : string) :
  forall g : gmap string binding,
    is_Some (g !! name) ->
    ~ In (DeclareFunction name) script ->
    hoistAll script g !! name = g !! name.
Proof.
  unfold hoistAll. induction script as [|a script IH]; intros g Hg Hn; [reflexivity|].
  cbn [fold_left].
  assert (Ha : hoist a g !! name = g !! name).
  { destruct a; cbn [hoist]; try reflexivity.
    - apply lookup_insert_ne. intros ->. apply Hn. now left.
    - destruct (g !! name0) eqn:E; [reflexivity|].
      apply lookup_insert_ne. intros ->. rewrite E in Hg. now destruct Hg. }
  rewrite IH.
  - exact Ha.
  - now rewrite Ha.
  - intros H. apply Hn. now right.
Qed.

Lemma lastWritten_app (filePath : string) (first second : list (string * jsval)) :
  lastWritten filePath (first ++ second)
  = match lastWritten filePath second with
    | Some content => Some content
    | None => lastWritten filePath first
    end.
Proof.
  induction first as [|[path content] first IH]; cbn [app lastWritten].
  - now destruct (lastWritten filePath second).
  - rewrite IH. now destruct (lastWritten filePath second).
Qed.

Lemma writesOf_cons (a : action) (script : Script) :
  writesOf (a :: script)
  = match writeOf a with
    | Some w => w :: writesOf script
    | None => writesOf script
    end.
Proof. reflexivity. Qed.

(** What one statement does to the stored texts, in memory mode. *)
Lemma step_storage (a : action) (w : World) :
  storageMode (simulator w) = "memory" ->
  storageMode (simulator (snd (step a w))) = "memory"
  /\ forall filePath,
       memoryStorage (simulator (snd (step a w))) !! filePath
       = match lastWritten filePath (writesOf [a]) with
         | Some content => Some (jsString (jsOr content (JStr "")))
         | None => memoryStorage (simulator w) !! filePath
         end.
Proof.
  intros Hmode.
  destruct a; cbn [step writesOf omap list_omap writeOf lastWritten];
    try (destruct (globals w !! name) as [[| | | | |]|]);
    cbn [snd withSimulator withGlobals withSessionVariables simulator];
    try (split; [exact Hmode | reflexivity]).
  - unfold handleHttpRequest.
    destruct (String.eqb _ _); cbn [snd];
      (split; [exact Hmode | reflexivity]).
  - rewrite (handleStorageWrite_memory _ path content Hmode). cbn [snd].
    split; [exact Hmode|]. intros filePath.
    cbn [withMemoryStorage memoryStorage].
    destruct (String.eqb_spec path filePath) as [->|Hne].
    + apply lookup_insert_eq.
    + now apply lookup_insert_ne.
  - rewrite (handleStorageRead_memory _ path Hmode). cbn [snd].
    split; [exact Hmode | reflexivity].
Qed.

Lemma runStatements_storage (script : Script) : forall budget w w',
  storageMode (simulator w) = "memory" ->
  runStatements budget script w = (Normal, w') ->
  storageMode (simulator w') = "memory"
  /\ forall filePath,
       memoryStorage (simulator w') !! filePath
       = match lastWritten filePath (writesOf script) with
         | Some content => Some (jsString (jsOr content (JStr "")))
         | None => memoryStorage (simulator w) !! filePath
         end.
Proof.
  induction script as [|a script IH]; intros budget w w' Hmode Hrun.
  - cbn [runStatements] in Hrun. injection Hrun as <-.
    split; [exact Hmode | reflexivity].
  - assert (Hstep : forall w1,
              runStatements budget script w1 = (Normal, w') ->
              step a w = (Normal, w1) ->
              storageMode (simulator w') = "memory"
              /\ forall filePath,
                   memoryStorage (simulator w') !! filePath
                   = match lastWritten filePath (writesOf (a :: script)) with
                     | Some content => Some (jsString (jsOr content (JStr "")))
                     | None => memoryStorage (simulator w) !! filePath
                     end).
    { intros w1 Hrest Hs.
      destruct (step_storage a w Hmode) as (S1 & S2).
      rewrite Hs in S1, S2. cbn [snd] in S1, S2.
      destruct (IH budget w1 w' S1 Hrest) as (I1 & I2).
      split; [exact I1|]. intros filePath.
      rewrite I2, S2.
      change (a :: script) with ([a] ++ script).
      unfold writesOf. rewrite omap_app. fold (writesOf [a]) (writesOf script).
      rewrite lastWritten_app.
      now destruct (lastWritten filePath (writesOf script)). }
    destruct a; cbn [runStatements] in Hrun;
      try (match type of Hrun with
           | context [step ?a w] =>
               destruct (step a w) as [[|m] w1] eqn:Hs; [|discriminate];
               exact (Hstep w1 Hrun eq_refl)
           end).
    destruct (ms <=? budget)%N; [|discriminate].
    apply (IH (budget - ms)%N (advanceClock ms w) w' Hmode Hrun).
Qed.

Lemma loadScripts_storage (p : Project) (order : list string) : forall w w',
  storageMode (simulator w) = "memory" ->
  loadScripts p order w = (Normal, w') ->
  storageMode (simulator w') = "memory"
  /\ forall filePath,
       memoryStorage (simulator w') !! filePath
       = match lastWritten filePath (writesOf (concat (loadedScripts p order))) with
         | Some content => Some (jsString (jsOr content (JStr "")))
         | None => memoryStorage (simulator w) !! filePath
         end.
Proof.
  induction order as [|file order IH]; intros w w' Hmode Hload.
  - cbn [loadScripts] in Hload. injection Hload as <-.
    split; [exact Hmode | reflexivity].
  - cbn [loadScripts] in Hload. rewrite loadedScripts_cons.
    unfold loadScript in Hload.
    destruct (files p !! file) as [script|]; [|exact (IH _ _ Hmode Hload)].
    destruct (runInNewContext script 5000%N w) as [[|m] w1] eqn:Hrun; [|discriminate].
    unfold runInNewContext in Hrun.
    destruct (runStatements_storage script 5000%N (withGlobals (hoistAll script) w) w1
                Hmode Hrun) as (R1 & R2).
    cbn [withGlobals simulator] in R2.
    destruct (IH (withSimulator (withStats countFileLoaded) w1) w' R1 Hload)
      as (I1 & I2).
    split; [exact I1|]. intros filePath.
    rewrite I2. cbn [withSimulator simulator withStats memoryStorage concat].
    unfold writesOf. rewrite omap_app. fold (writesOf script).
    fold (writesOf (concat (loadedScripts p order))).
    rewrite lastWritten_app, R2.
    now destruct (lastWritten filePath (writesOf (concat (loadedScripts p order)))).
Qed.

End SandboxFacts.

(** X27. The names of Node.js that createSandbox sets to undefined stay out
    of reach of a call. In a new sandbox, a fragment that begins by calling
    one of global, process, require, module, exports, __dirname, __filename,
    console, setTimeout, setInterval, clearTimeout or clearInterval, and
    that does not itself declare a function of that name, fails at that
    call: loadScript throws the error of the file, with the message that the
    name is not a function. *)
Theorem X27_hidden_globals_cannot_be_called
    (p : Engine.Project) (file name : string) (rest : Engine.Script)
    (sim : Engine.Simulator) (now : N) :
  In name ["global"; "process"; "require"; "module"; "exports"; "__dirname";
           "__filename"; "console"; "setTimeout"; "setInterval"; "clearTimeout";
           "clearInterval"] ->
  Engine.files p !! file = Some (Engine.CallFunction name :: rest) ->
  ~ In (Engine.DeclareFunction name) rest ->
  fst (Engine.loadScript p file
         {| Engine.simulator := sim; Engine.globals := Engine.sandboxGlobals;
            Engine.sessionVariables := Engine.initialSessionVariables sim;
            Engine.clock := now |})
  = Engine.Thrown ("Error in " ++ file ++ ": " ++ name ++ " is not a function").
Proof.
  intros Hname Hfile Hdecl.
  assert (Hbound : Engine.sandboxGlobals !! name = Some Engine.BUndefined).
  { cbn [In] in Hname.
    repeat (destruct Hname as [<-|Hname]; [vm_compute; reflexivity|]).
    contradiction. }
  unfold Engine.loadScript. rewrite Hfile.
  unfold Engine.runInNewContext. cbn [Engine.runStatements Engine.step].
  cbn [Engine.withGlobals Engine.globals].
  rewrite hoistAll_undeclared.
  - rewrite Hbound. reflexivity.
  - rewrite Hbound. eauto.
  - intros [H|H]; [discriminate | contradiction].
Qed.

Lemma X27_hidden_globals_cannot_be_called_witness :
  let p :=
    {| Engine.files :=
         {[ "src/callScripts/main.js" :=
              [Engine.CallFunction "require"; Engine.DeclareVar "fs" JUndefined] ]};
       Engine.libsDir := Engine.NoDirectory;
       Engine.projectJson := None |} in
  let sim := Engine.newSimulator (Engine.Options.make None None None) in
  fst (Engine.loadScript p "src/callScripts/main.js"
         {| Engine.simulator := sim; Engine.globals := Engine.sandboxGlobals;
            Engine.sessionVariables := Engine.initialSessionVariables sim;
            Engine.clock := 0%N |})
  = Engine.Thrown "Error in src/callScripts/main.js: require is not a function".
Proof.
  intros p sim.
  apply (X27_hidden_globals_cannot_be_called p "src/callScripts/main.js" "require"
           [Engine.DeclareVar "fs" JUndefined] sim 0%N).
  - cbn [In]. tauto.
  - vm_compute. reflexivity.
  - intros [H|[]]. discriminate.
Defined.

(** X28. In memory mode, a run that returns leaves in the storage what the
    fragments it loaded wrote: a path holds the content of the last
    Storage.writeFile call on it in the top-level code of the files of the
    load order that exist, taken in load order, converted to a string (falsy
    content as the empty string), for content that is not a number beyond
    the safe integers; a path that none of them wrote to holds what it held
    before the run. The storage belongs to the simulator, so a later run on
    the same simulator starts from it. *)
Theorem X28_storage_after_a_run
    (p : Engine.Project) (sim : Engine.Simulator) (now : N) :
  Engine.storageMode sim = "memory" ->
  match Engine.execute p sim now with
  | (Engine.Returned _, sim', _) =>
      forall filePath,
        match Engine.lastWritten filePath
                (Engine.writesOf
                   (concat (Engine.loadedScripts p (Engine.loadOrder p)))) with
        | Some content =>
            safeContent content = true ->
            Engine.memoryStorage sim' !! filePath
            = Some (jsString (jsOr content (JStr "")))
        | None => Engine.memoryStorage sim' !! filePath = Engine.memoryStorage sim !! filePath
        end
  | (Engine.Failed _, _, _) => True
  end.
Proof.
  intros Hmode. unfold Engine.execute, Engine.loadProjectFiles.
  match goal with
  | |- context [Engine.loadScripts p (Engine.loadOrder p) ?w0] =>
      pose proof (loadScripts_storage p (Engine.loadOrder p) w0) as Hs;
      destruct (Engine.loadScripts p (Engine.loadOrder p) w0) as [[|m] w1]
  end; [|exact I].
  destruct (Hs w1 Hmode eq_refl) as (_ & H). intros filePath.
  cbn [Engine.withStats Engine.memoryStorage Engine.simulator].
  specialize (H filePath).
  destruct (Engine.lastWritten filePath _); [intros _|]; exact H.
Qed.

Lemma X28_storage_after_a_run_witness :
  let p :=
    {| Engine.files :=
         {[ "src/globalCode.js" := [Engine.StorageWriteFile "a.txt" (JStr "one")];
            "src/callScripts/main.js" := [Engine.StorageWriteFile "a.txt" (JStr "two")] ]};
       Engine.libsDir := Engine.NoDirectory;
       Engine.projectJson := None |} in
  match Engine.execute p (Engine.newSimulator (Engine.Options.make None None None)) 0%N with
  | (Engine.Returned _, sim', _) =>
      Engine.memoryStorage sim' !! "a.txt" = Some "two"
      /\ Engine.memoryStorage sim' !! "b.txt" = None
  | (Engine.Failed _, _, _) => True
  end.
Proof.
  intros p.
  pose proof (X28_storage_after_a_run p
                (Engine.newSimulator (Engine.Options.make None None None)) 0%N eq_refl)
    as H.
  destruct (Engine.execute p _ 0%N) as [[[report|message] sim'] clock]; [|exact I].
  pose proof (H "a.txt") as Ha. pose proof (H "b.txt") as Hb.
  assert (Ea : Engine.lastWritten "a.txt"
                 (Engine.writesOf (concat (Engine.loadedScripts p (Engine.loadOrder p))))
               = Some (JStr "two")) by (vm_compute; reflexivity).
  assert (Eb : Engine.lastWritten "b.txt"
                 (Engine.writesOf (concat (Engine.loadedScripts p (Engine.loadOrder p))))
               = None) by (vm_compute; reflexivity).
  rewrite Ea in Ha. rewrite Eb in Hb.
  split; [exact (Ha eq_refl) | exact Hb].
Defined.

(** X29. With a storageMode other than memory, a run never touches the
    stored texts: whether execute returns or fails, whatever the fragments
    call, the simulator it leaves has the storage it had. *)
Theorem X29_storage_untouched_outside_memory_mode
    (p : Engine.Project) (sim : Engine.Simulator) (now : N) :
  Engine.storageMode sim <> "memory" ->
  Engine.memoryStorage (snd (fst (Engine.execute p sim now))) = Engine.memoryStorage sim.
Proof.
  intros Hmode.
  refine (proj2 (execute_related
    (fun a b =>
       Engine.storageMode a <> "memory" ->
       Engine.storageMode b = Engine.storageMode a
       /\ Engine.memoryStorage b = Engine.memoryStorage a)
    _ _ _ _ _ _ _ _ _ p sim now Hmode)).
  - intros s0 _. now split.
  - intros a b c Hab Hbc Ha. destruct (Hab Ha) as [M1 S1].
    destruct (Hbc ltac:(now rewrite M1)) as [M2 S2].
    split; congruence.
  - intros t0 config s0 _. unfold Engine.handleHttpRequest.
    destruct (String.eqb _ _); now split.
  - intros path content s0 H0. apply String.eqb_neq in H0.
    unfold Engine.handleStorageWrite. cbn [Engine.withStats Engine.storageMode].
    rewrite H0. now split.
  - intros path s0 H0. apply String.eqb_neq in H0.
    unfold Engine.handleStorageRead. cbn [Engine.withStats Engine.storageMode].
    rewrite H0. now split.
  - intros s0 _. now split.
  - intros s0 _. now split.
  - intros t0 s0 _. now split.
  - intros t0 s0 _. now split.
Qed.

Lemma X29_storage_untouched_outside_memory_mode_witness :
  let p :=
    {| Engine.files :=
         {[ "src/callScripts/main.js" := [Engine.StorageWriteFile "a.txt" (JStr "one")] ]};
       Engine.libsDir := Engine.NoDirectory;
       Engine.projectJson := None |} in
  let sim := Engine.newSimulator (Engine.Options.make None (Some "disk") None) in
  Engine.memoryStorage (snd (fst (Engine.execute p sim 0%N))) = Engine.memoryStorage sim.
Proof.
  intros p sim.
  apply (X29_storage_untouched_outside_memory_mode p sim 0%N).
  discriminate.
Defined.

(** ** workspace.js: names that leave the projects directory *)

Section JoinFacts.
Import Workspace.

Lemma join_parent_sibling (root : path) (other : string) :
  plainName other = true ->
  join root ["projects"; ("../" ++ other)%string] = root ++ [other].
Proof.
  intros Hplain.
  assert (Hsep : hasSeparator other = false).
  { unfold plainName in Hplain. apply andb_true_iff in Hplain as [_ H].
    now apply negb_true_iff in H. }
  change ["projects"; ("../" ++ other)%string]
    with (["projects"] ++ [("../" ++ other)%string]).
  rewrite join_app, (join_plain root "projects" eq_refl).
  unfold join. cbn [flat_map]. rewrite app_nil_r.
  assert (Hsplit : Validation.split "/" ("../" ++ other) = [".."; other]).
  { unfold Validation.split.
    change ("../" ++ other)%string with (String "." (String "." (String "/" other))).
    cbn [Validation.splitFrom Validation.dropPrefix Ascii.eqb Bool.eqb String.length
         Nat.sub].
    destruct other as [|c other']; [reflexivity|].
    rewrite (splitFrom_no_separator (String c other') "" Hsep). reflexivity. }
  rewrite Hsplit. cbn [fold_left]. unfold joinSegment at 2.
  cbn [String.eqb Ascii.eqb Bool.eqb orb]. rewrite dirname_snoc.
  apply (join_plain root other) in Hplain. unfold join in Hplain.
  cbn [flat_map] in Hplain. rewrite app_nil_r in Hplain.
  unfold Validation.split in Hplain.
  rewrite (splitFrom_no_separator other "" Hsep) in Hplain.
  exact Hplain.
Qed.

End JoinFacts.

(** X30. findProject does not keep the name inside the projects directory.
    join resolves the name like any relative path, so a name that begins
    with [../] leads out of it: for a plain name x, findProject of [../x]
    resolves to the directory x of the workspace root itself (the core
    package, for [../core]) whenever stat reports that path as a
    directory. *)
Theorem X30_findProject_follows_parent_steps
    (fs : Workspace.FileSystem) (cwd root : Workspace.path) (other : string) :
  Workspace.findWorkspaceRoot fs cwd = Engine.Resolved root ->
  Workspace.plainName other = true ->
  Workspace.stat fs (root ++ [other]) = Engine.Resolved Workspace.IsDirectory ->
  Workspace.findProject fs cwd ("../" ++ other) = Engine.Resolved (root ++ [other]).
Proof.
  intros Hroot Hplain Hstat.
  unfold Workspace.findProject. rewrite Hroot. cbv zeta.
  rewrite (join_parent_sibling root other Hplain), Hstat. reflexivity.
Qed.

Lemma X30_findProject_follows_parent_steps_witness :
  let fs :=
    {| Workspace.stat := fun p =>
         if bool_decide (p = ["home"; "voc"; "core"])
         then Engine.Resolved Workspace.IsDirectory
         else Engine.Rejected "ENOENT";
       Workspace.readJson := fun p =>
         if bool_decide (p = ["home"; "voc"; "package.json"])
         then Some (Workspace.JsonObject
                      {[ "workspaces" :=
                           Workspace.JsonArray [Workspace.JsonString "core"] ]})
         else None;
       Workspace.readdir := fun _ => None |} in
  Workspace.findProject fs ["home"; "voc"] "../core"
  = Engine.Resolved (["home"; "voc"] ++ ["core"]).
Proof.
  intros fs.
  apply (X30_findProject_follows_parent_steps fs ["home"; "voc"] ["home"; "voc"] "core").
  - vm_compute. reflexivity.
  - reflexivity.
  - vm_compute. reflexivity.
Defined.

(** X31. What the sorter does to its arguments. It never changes the
    explicit-order array and adds nothing to the store but arrays of its
    own. Given an explicit order that is not empty it leaves the array of
    file names as it is and returns a new array; given an empty one, or
    none, it sorts the array of file names itself, in place, and returns
    that same array. In both cases the array returned holds the order
    computed from the contents the arguments had at the call. *)
Theorem X31_sorter_effects_on_arguments (localeCompare : string -> string -> Z)
    (h : Sorting.store) (files : nat) (order : option nat) :
  is_Some (h !! files) ->
  let explicit := (fun o => Sorting.readArray o h) <$> order in
  let '(r, h') := Sorting.sortLibraryFilesWithDependenciesRef localeCompare files order h in
  Sorting.readArray r h'
    = Sorting.sortLibraryFilesWithDependencies localeCompare
        (Sorting.readArray files h) explicit
  /\ match order with Some o => h' !! o = h !! o | None => True end
  /\ if (0 <? List.length (default [] explicit))%nat
     then (r ∉ dom h) /\ (h ⊆ h')
     else r = files /\ h' = alter (Sorting.sortLibraryFiles localeCompare) files h.
Proof.
  intros Hfiles explicit. subst explicit.
  assert (Hsort : forall g : Sorting.store,
             Sorting.readArray files
               (alter (Sorting.arraySort (Sorting.compareLibraryFiles localeCompare)) files g)
             = Sorting.sortLibraryFiles localeCompare (Sorting.readArray files g)).
  { intros g. now apply readArray_alter. }
  destruct order as [o|]; cbn [fmap option_fmap option_map default from_option id].
  2:{ cbn. split; [apply Hsort | split; [exact I | split; reflexivity]]. }
  unfold Sorting.sortLibraryFilesWithDependenciesRef,
    Sorting.sortLibraryFilesWithDependencies.
  destruct (0 <? List.length (Sorting.readArray o h))%nat eqn:E.
  - (* an explicit order that is not empty *)
    assert (Ho : is_Some (h !! o)).
    { unfold Sorting.readArray in E. destruct (h !! o); [eauto | discriminate]. }
    destruct Ho as [lo Ho]. destruct Hfiles as [lf Hf].
    unfold Sorting.allocArray, Sorting.sortLibraryFilesRef.
    set (r1 := fresh (dom h)).
    set (h1 := <[r1 := Sorting.readArray o h]> h).
    set (r2 := fresh (dom h1)).
    set (B := List.filter _ _).
    set (h2 := <[r2 := B]> h1).
    set (h3 := alter _ r2 h2).
    set (r4 := fresh (dom h3)).
    assert (H1 : h !! r1 = None) by apply fresh_not_bound.
    assert (H2 : h1 !! r2 = None) by apply fresh_not_bound.
    assert (H4 : h3 !! r4 = None) by apply fresh_not_bound.
    assert (N12 : r1 <> r2).
    { intros N. rewrite <- N in H2. unfold h1 in H2.
      rewrite lookup_insert_eq in H2. discriminate. }
    assert (K1 : forall i v, h !! i = Some v -> h1 !! i = Some v).
    { intros i v Hi. unfold h1. rewrite lookup_insert_ne; [assumption|].
      intros N. rewrite <- N, H1 in Hi. discriminate. }
    assert (K3 : forall i v, h !! i = Some v -> h3 !! i = Some v).
    { intros i v Hi. pose proof (K1 i v Hi) as Hi1.
      unfold h3, h2. rewrite lookup_alter_ne, lookup_insert_ne; [assumption| |];
        intros N; rewrite <- N, H2 in Hi1; discriminate. }
    assert (K4 : forall i v, h !! i = Some v -> <[r4 := Sorting.readArray r1 h3
                 ++ Sorting.readArray r2 h3]> h3 !! i = Some v).
    { intros i v Hi. pose proof (K3 i v Hi) as Hi3.
      rewrite lookup_insert_ne; [assumption|].
      intros N. rewrite <- N, H4 in Hi3. discriminate. }
    assert (R1 : Sorting.readArray r1 h3 = Sorting.readArray o h).
    { unfold Sorting.readArray at 1, h3, h2.
      rewrite lookup_alter_ne, lookup_insert_ne by congruence.
      unfold h1. now rewrite lookup_insert_eq. }
    assert (R2 : Sorting.readArray r2 h3 = Sorting.sortLibraryFiles localeCompare B).
    { unfold Sorting.readArray, h3, h2.
      now rewrite lookup_alter_eq, lookup_insert_eq. }
    assert (EB : B = List.filter
                       (fun file => negb (Sorting.includes (Sorting.readArray o h) file))
                       (Sorting.readArray files h)).
    { unfold B. unfold Sorting.readArray at 1 2.
      now rewrite (K1 o lo Ho), (K1 files lf Hf), <- Ho, <- Hf. }
    split; [|split; [|split]].
    + unfold Sorting.readArray at 1. rewrite lookup_insert_eq. cbn [default from_option id].
      now rewrite R1, R2, EB.
    + rewrite Ho. now apply K4.
    + intros Hin. apply elem_of_dom in Hin as [v Hv].
      apply K3 in Hv. rewrite H4 in Hv. discriminate.
    + apply map_subseteq_spec. exact K4.
  - (* an explicit order that is empty *)
    cbn [fst snd Sorting.sortLibraryFilesRef].
    split; [apply Hsort | split; [|split; reflexivity]].
    destruct (decide (o = files)) as [->|N].
    + rewrite lookup_alter_eq. unfold Sorting.readArray in E.
      destruct (h !! files) as [[|x l]|]; [reflexivity | discriminate | reflexivity].
    + now rewrite lookup_alter_ne.
Qed.

(** The statement at a store with two arrays: file names
    [b.js; a.js] and the explicit order [b.js]. *)
Lemma X31_sorter_effects_on_arguments_witness :
  let h : Sorting.store := {[ 0 := ["b.js"; "a.js"]; 1 := ["b.js"] ]} in
  is_Some (h !! 0)
  /\ let explicit := (fun o => Sorting.readArray o h) <$> Some 1 in
     let '(r, h') :=
       Sorting.sortLibraryFilesWithDependenciesRef Sorting.codeUnitCompare 0 (Some 1) h in
     Sorting.readArray r h'
       = Sorting.sortLibraryFilesWithDependencies Sorting.codeUnitCompare
           (Sorting.readArray 0 h) explicit
     /\ match Some 1 with Some o => h' !! o = h !! o | None => True end
     /\ if (0 <? List.length (default [] explicit))%nat
        then (r ∉ dom h) /\ (h ⊆ h')
        else r = 0 /\ h' = alter (Sorting.sortLibraryFiles Sorting.codeUnitCompare) 0 h.
Proof.
  intros h.
  assert (H0 : is_Some (h !! 0)) by (exists ["b.js"; "a.js"]; reflexivity).
  split; [exact H0|].
  exact (X31_sorter_effects_on_arguments Sorting.codeUnitCompare h 0 (Some 1) H0).
Defined.
